(** * datagov-mcp-server: a shallow embedding of [src/index.ts]

    The server is a thin adapter: it validates the argument bag of a tool
    call, performs one HTTP GET through axios and wraps the outcome in an
    MCP result.  This file embeds

    - the JavaScript values the handlers inspect ([typeof], property reads,
      template literals, [JSON.stringify], [decodeURIComponent], base64);
    - the handlers themselves, as programs of a small [io] type whose only
      effect is the axios GET;
    - the properties of the handlers. *)

From Stdlib Require Import List NArith ZArith Bool String Ascii Lia Arith.
From Stdlib Require Import Strings.Byte.
Import ListNotations.

Set Implicit Arguments.
Open Scope N_scope.
Open Scope list_scope.

(* ================================================================= *)
(** * JavaScript strings *)

(** A JavaScript string is a sequence of UTF-16 code units. *)
Abbreviation code_unit := N (only parsing).
Abbreviation jsstring := (list N) (only parsing).

(** [js "abc"] is the JavaScript string with the code units of an ASCII
    literal. *)
Definition js (s : string) : jsstring :=
  List.map N_of_ascii (list_ascii_of_string s).

Fixpoint str_eqb (a b : jsstring) : bool :=
  match a, b with
  | [], [] => true
  | x :: a', y :: b' => (x =? y) && str_eqb a' b'
  | _, _ => false
  end.

Infix "===" := str_eqb (at level 70, no associativity).

(** [strip_prefix p s] is [Some r] when [s = p ++ r]. *)
Fixpoint strip_prefix (p s : jsstring) : option jsstring :=
  match p, s with
  | [], _ => Some s
  | x :: p', y :: s' => if x =? y then strip_prefix p' s' else None
  | _ :: _, [] => None
  end.

(** [String.prototype.includes], as a proposition. *)
Definition includes (s sub : jsstring) : Prop :=
  exists pre post, s = pre ++ sub ++ post.

(** Decimal digits of a non-negative integer, most significant first.
    [fuel] bounds the number of digits. *)
Fixpoint decimal_digits (fuel : nat) (n : N) (acc : jsstring) : jsstring :=
  match fuel with
  | O => acc
  | S f =>
      let acc' := (48 + n mod 10) :: acc in
      if n / 10 =? 0 then acc' else decimal_digits f (n / 10) acc'
  end.

(** [String(n)] for a non-negative integer [n]: its decimal digits.
    (JavaScript turns to exponents from 10^21 on; an HTTP status is far
    below.) *)
Definition decimal (n : N) : jsstring :=
  decimal_digits (S (N.to_nat (N.log2 n))) n [].

(** The value of a run of decimal digits. *)
Definition is_digit (c : code_unit) : bool := (48 <=? c) && (c <=? 57).

Fixpoint digits_value (s : jsstring) (acc : N) : N :=
  match s with
  | [] => acc
  | c :: r => digits_value r (10 * acc + (c - 48))
  end.

(** No leading zero. *)
Definition no_leading_zero (s : jsstring) : Prop :=
  match s with
  | c :: _ => c <> 48
  | [] => True
  end.

(** An array index is a canonical numeric string: ["0"], or digits with
    no leading zero, of value at most 2^32 - 2. *)
Definition array_index (k : jsstring) : option N :=
  match k with
  | [] => None
  | c :: r =>
      if forallb is_digit k && (negb (c =? 48) || match r with [] => true | _ => false end)
         && (List.length k <=? 10)%nat
      then let v := digits_value k 0 in
           if v <=? 4294967294 then Some v else None
      else None
  end.

(* ================================================================= *)
(** * JavaScript values *)

(** The Number type is kept abstract: the handlers only test numbers with
    [typeof] and print them, and the conversion between doubles and
    decimal literals is the platform's. *)
Class NumberOps (number : Type) : Type := {
  (** [Number::toString], as used by template literals and JSON.stringify *)
  Number_toString : number -> jsstring;
  (** neither NaN nor an infinity *)
  Number_isFinite : number -> bool;
  (** [Object.is(n, -0)]: the zero with the sign bit set, which
      [Number::toString] prints as [0] *)
  Number_isNegativeZero : number -> bool;
  (** [ToBoolean]: false for 0 and NaN *)
  Number_ToBoolean : number -> bool;
  (** [StringToNumber] on a JSON number literal: the nearest double *)
  StringToNumber : jsstring -> number
}.

Section Values.

Context {number : Type}.

Unset Elimination Schemes.
(** The values that JSON text denotes: what [JSON.parse] produces, what
    a JSON-RPC request carries and what axios hands over as
    [response.data].  The members of an object are listed in property
    enumeration order. *)
Inductive value : Type :=
| VNull
| VBool (b : bool)
| VNumber (n : number)
| VString (s : jsstring)
| VArray (items : list value)
| VObject (members : list (jsstring * value)).
Set Elimination Schemes.

(** Induction over values, with the hypothesis for every item of an
    array and every member of an object. *)
Section value_induction.
Variable P : value -> Prop.
Hypothesis Hnull : P VNull.
Hypothesis Hbool : forall b, P (VBool b).
Hypothesis Hnumber : forall n, P (VNumber n).
Hypothesis Hstring : forall s, P (VString s).
Hypothesis Harray : forall items, Forall P items -> P (VArray items).
Hypothesis Hobject :
  forall members, Forall (fun kv => P (snd kv)) members -> P (VObject members).

Fixpoint value_ind (v : value) : P v :=
  match v with
  | VNull => Hnull
  | VBool b => Hbool b
  | VNumber n => Hnumber n
  | VString s => Hstring s
  | VArray items =>
      Harray
        ((fix all (l : list value) : Forall P l :=
            match l with
            | [] => Forall_nil _
            | x :: r => Forall_cons x (value_ind x) (all r)
            end) items)
  | VObject members =>
      Hobject
        ((fix all (l : list (jsstring * value))
            : Forall (fun kv => P (snd kv)) l :=
            match l with
            | [] => Forall_nil _
            | kv :: r =>
                Forall_cons (P := fun kv => P (snd kv)) kv
                            (value_ind (snd kv)) (all r)
            end) members)
  end.
End value_induction.

(** What an expression of type [any] can evaluate to in the handlers: a
    value, [undefined], or a built-in method reached through a
    prototype. *)
Inductive any : Type :=
| Undefined
| Val (v : value)
| Builtin (name : jsstring).

(** A thrown [TypeError] is the [None] of the conversions below. *)

(** [typeof a]. *)
Definition typeof (a : any) : jsstring :=
  match a with
  | Undefined => js "undefined"
  | Val VNull => js "object"
  | Val (VBool _) => js "boolean"
  | Val (VNumber _) => js "number"
  | Val (VString _) => js "string"
  | Val (VArray _) => js "object"
  | Val (VObject _) => js "object"
  | Builtin _ => js "function"
  end.

(** [a === undefined] and [a !== null]. *)
Definition is_undefined (a : any) : bool :=
  match a with Undefined => true | _ => false end.

Definition is_null (a : any) : bool :=
  match a with Val VNull => true | _ => false end.

(** The own data property [k] of an object. *)
Fixpoint own_property (k : jsstring) (members : list (jsstring * value))
  : option value :=
  match members with
  | [] => None
  | (k', v) :: r => if k' === k then Some v else own_property k r
  end.

(** The property read [a.k], for the property names the handlers read:
    q, sort, rows, start, id, order_by, limit, offset, all_fields, query,
    error and message.  On an object it is the own property (no prototype
    defines any of these names for objects, strings, numbers or
    booleans); on an array only [sort] exists, the method inherited from
    [Array.prototype].  On [undefined] and [null] JavaScript throws: every
    read in the handlers is guarded ([typeof args === 'object' && args !==
    null && ...], or the optional chaining [?.], which yields
    [undefined]), and [Get] yields [Undefined] there. *)
Definition Get (a : any) (k : jsstring) : any :=
  match a with
  | Val (VObject members) =>
      match own_property k members with
      | Some v => Val v
      | None => Undefined
      end
  | Val (VArray _) => if k === js "sort" then Builtin k else Undefined
  | _ => Undefined
  end.

Context {ops : NumberOps number}.

(** [ToBoolean], the test of an [if]. *)
Definition ToBoolean (a : any) : bool :=
  match a with
  | Undefined => false
  | Val VNull => false
  | Val (VBool b) => b
  | Val (VNumber n) => Number_ToBoolean n
  | Val (VString s) => match s with [] => false | _ => true end
  | Val (VArray _) => true
  | Val (VObject _) => true
  | Builtin _ => true
  end.

(** [sep.join(parts)] on strings. *)
Fixpoint join (sep : jsstring) (parts : list jsstring) : jsstring :=
  match parts with
  | [] => []
  | [p] => p
  | p :: r => p ++ sep ++ join sep r
  end.

(** [ToString] of a value, as a template literal applies it.  An array
    is joined with commas ([Array.prototype.toString]), [null] items
    printing as the empty string.  An object goes through
    [OrdinaryToPrimitive]: without an own [toString] property the
    inherited [Object.prototype.toString] answers ["[object Object]"];
    an own [toString] (data, so never callable) hides it, [valueOf]
    returns the object itself, and the conversion throws a TypeError
    ([None]). *)
Fixpoint ToString_value (v : value) : option jsstring :=
  match v with
  | VNull => Some (js "null")
  | VBool true => Some (js "true")
  | VBool false => Some (js "false")
  | VNumber n => Some (Number_toString n)
  | VString s => Some s
  | VArray items =>
      let item (x : value) : option jsstring :=
        match x with VNull => Some [] | _ => ToString_value x end in
      option_map (join (js ","))
        ((fix all (l : list value) : option (list jsstring) :=
            match l with
            | [] => Some []
            | x :: r =>
                match item x, all r with
                | Some s, Some ss => Some (s :: ss)
                | _, _ => None
                end
            end) items)
  | VObject members =>
      match own_property (js "toString") members with
      | Some _ => None
      | None => Some (js "[object Object]")
      end
  end.

Definition ToString (a : any) : option jsstring :=
  match a with
  | Undefined => Some (js "undefined")
  | Val v => ToString_value v
  | Builtin name => Some (js "function " ++ name ++ js "() { [native code] }")
  end.

(* ----------------------------------------------------------------- *)
(** ** JSON.stringify(value, null, 2) *)

Definition is_leading_surrogate (c : code_unit) : bool :=
  (55296 <=? c) && (c <=? 56319).

Definition is_trailing_surrogate (c : code_unit) : bool :=
  (56320 <=? c) && (c <=? 57343).

Definition hex_digit (d : N) : code_unit :=
  if d <? 10 then 48 + d else 87 + d.

(** [UnicodeEscape]: a backslash, [u] and four lowercase hex digits. *)
Definition UnicodeEscape (c : code_unit) : jsstring :=
  [92; 117; hex_digit (c / 4096); hex_digit ((c / 256) mod 16);
   hex_digit ((c / 16) mod 16); hex_digit (c mod 16)].

(** The text [QuoteJSONString] emits for one code point that is not a
    surrogate pair. *)
Definition quote_unit (c : code_unit) : jsstring :=
  if c =? 8 then [92; 98]
  else if c =? 9 then [92; 116]
  else if c =? 10 then [92; 110]
  else if c =? 12 then [92; 102]
  else if c =? 13 then [92; 114]
  else if c =? 34 then [92; 34]
  else if c =? 92 then [92; 92]
  else if (c <? 32) || is_leading_surrogate c || is_trailing_surrogate c
  then UnicodeEscape c
  else [c].

(** The code points of the string in turn: a leading surrogate followed
    by a trailing one is one code point and is copied; everything else,
    a lone surrogate included, goes through [quote_unit]. *)
Fixpoint quote_units (s : jsstring) : jsstring :=
  match s with
  | [] => []
  | c :: r =>
      match r with
      | l :: r' =>
          if is_leading_surrogate c && is_trailing_surrogate l
          then c :: l :: quote_units r'
          else quote_unit c ++ quote_units r
      | [] => quote_unit c
      end
  end.

Definition QuoteJSONString (s : jsstring) : jsstring :=
  [34] ++ quote_units s ++ [34].

(** The gap of [JSON.stringify(_, null, 2)]: two spaces. *)
Definition gap : jsstring := [32; 32].

(** The common end of [SerializeJSONObject] and [SerializeJSONArray]:
    nothing between the brackets when there is no part; otherwise each
    part on a line of its own at the new indentation, and the closing
    bracket on its own line at the old one. *)
Definition bracketed (opening closing : code_unit) (stepback : jsstring)
  (partial : list jsstring) : jsstring :=
  match partial with
  | [] => [opening; closing]
  | _ =>
      let indent := stepback ++ gap in
      [opening] ++ [10] ++ indent ++ join ([44; 10] ++ indent) partial
      ++ [10] ++ stepback ++ [closing]
  end.

(** [SerializeJSONProperty] at indentation [indent].  No value of type
    [value] has a callable [toJSON], so that step never applies; on a
    value the result is always a string. *)
Fixpoint SerializeJSONProperty (indent : jsstring) (v : value) : jsstring :=
  match v with
  | VNull => js "null"
  | VBool true => js "true"
  | VBool false => js "false"
  | VNumber n => if Number_isFinite n then Number_toString n else js "null"
  | VString s => QuoteJSONString s
  | VArray items =>
      bracketed 91 93 indent
        (List.map (SerializeJSONProperty (indent ++ gap)) items)
  | VObject members =>
      bracketed 123 125 indent
        (List.map
           (fun kv =>
              QuoteJSONString (fst kv) ++ [58; 32]
              ++ SerializeJSONProperty (indent ++ gap) (snd kv))
           members)
  end.

Definition JSON_stringify (v : value) : jsstring :=
  SerializeJSONProperty [] v.

(* ----------------------------------------------------------------- *)
(** ** JSON.parse *)

Definition is_ws (c : code_unit) : bool :=
  (c =? 9) || (c =? 10) || (c =? 13) || (c =? 32).

Fixpoint skip_ws (s : jsstring) : jsstring :=
  match s with
  | c :: r => if is_ws c then skip_ws r else s
  | [] => []
  end.

Definition hex_value (c : code_unit) : option N :=
  if (48 <=? c) && (c <=? 57) then Some (c - 48)
  else if (97 <=? c) && (c <=? 102) then Some (c - 87)
  else if (65 <=? c) && (c <=? 70) then Some (c - 55)
  else None.

(** The character an escape letter stands for. *)
Definition escape_char (e : code_unit) : option code_unit :=
  if e =? 34 then Some 34
  else if e =? 92 then Some 92
  else if e =? 47 then Some 47
  else if e =? 98 then Some 8
  else if e =? 102 then Some 12
  else if e =? 110 then Some 10
  else if e =? 114 then Some 13
  else if e =? 116 then Some 9
  else None.

(** The characters of a string literal after its opening quote, up to
    and including the closing quote. *)
Fixpoint parse_chars (s : jsstring) : option (jsstring * jsstring) :=
  match s with
  | [] => None
  | c :: r =>
      if c =? 34 then Some ([], r)
      else if c =? 92 then
        match r with
        | [] => None
        | e :: r1 =>
            if e =? 117 then
              match r1 with
              | h1 :: h2 :: h3 :: h4 :: r2 =>
                  match hex_value h1, hex_value h2, hex_value h3, hex_value h4,
                        parse_chars r2 with
                  | Some a, Some b, Some c', Some d, Some (str, rest) =>
                      Some ((a * 4096 + b * 256 + c' * 16 + d) :: str, rest)
                  | _, _, _, _, _ => None
                  end
              | _ => None
              end
            else
              match escape_char e, parse_chars r1 with
              | Some x, Some (str, rest) => Some (x :: str, rest)
              | _, _ => None
              end
        end
      else if c <? 32 then None
      else
        match parse_chars r with
        | Some (str, rest) => Some (c :: str, rest)
        | None => None
        end
  end.

(** The longest run of digits at the head of [s], and what follows. *)
Fixpoint span_digits (s : jsstring) : jsstring * jsstring :=
  match s with
  | c :: r =>
      if is_digit c then let (d, r') := span_digits r in (c :: d, r')
      else ([], s)
  | [] => ([], [])
  end.

(** The integer part: [0], or a non-zero digit and more digits. *)
Definition scan_int (s : jsstring) : option (jsstring * jsstring) :=
  match s with
  | c :: r =>
      if c =? 48 then Some ([c], r)
      else if is_digit c then let (d, r') := span_digits r in Some (c :: d, r')
      else None
  | [] => None
  end.

(** The optional fraction: a point and at least one digit. *)
Definition scan_frac (s : jsstring) : option (jsstring * jsstring) :=
  match s with
  | c :: r =>
      if c =? 46 then
        match span_digits r with
        | ([], _) => None
        | (d, r') => Some (c :: d, r')
        end
      else Some ([], s)
  | [] => Some ([], [])
  end.

(** The optional exponent: [e] or [E], an optional sign, at least one
    digit. *)
Definition scan_exp (s : jsstring) : option (jsstring * jsstring) :=
  match s with
  | c :: r =>
      if (c =? 101) || (c =? 69) then
        let (sign, r1) :=
          match r with
          | c' :: r1 => if (c' =? 43) || (c' =? 45) then ([c'], r1) else ([], r)
          | [] => ([], r)
          end in
        match span_digits r1 with
        | ([], _) => None
        | (d, r2) => Some (c :: sign ++ d, r2)
        end
      else Some ([], s)
  | [] => Some ([], [])
  end.

(** A JSON number token at the head of [s], and what follows. *)
Definition scan_number (s : jsstring) : option (jsstring * jsstring) :=
  let (sign, s1) :=
    match s with
    | c :: r => if c =? 45 then ([c], r) else ([], s)
    | [] => ([], s)
    end in
  match scan_int s1 with
  | None => None
  | Some (i, s2) =>
      match scan_frac s2 with
      | None => None
      | Some (f, s3) =>
          match scan_exp s3 with
          | None => None
          | Some (e, s4) => Some (sign ++ i ++ f ++ e, s4)
          end
      end
  end.

(** What may follow a number token: the end of the text, or a character
    that continues no number. *)
Definition ends_number (rest : jsstring) : Prop :=
  match rest with
  | [] => True
  | c :: _ =>
      is_digit c = false /\ (c =? 46) = false /\ (c =? 101) = false
      /\ (c =? 69) = false
  end.

(** [CreateDataProperty] on the members of an ordinary object, kept in
    enumeration order: an existing key keeps its place and takes the new
    value; a new array index goes among the array indices, in ascending
    order, ahead of every other key; any other new key goes last. *)
Fixpoint replace_member (k : jsstring) (v : value)
  (members : list (jsstring * value)) : list (jsstring * value) :=
  match members with
  | [] => []
  | (k', v') :: r =>
      if k' === k then (k', v) :: r else (k', v') :: replace_member k v r
  end.

Fixpoint insert_index (i : N) (k : jsstring) (v : value)
  (members : list (jsstring * value)) : list (jsstring * value) :=
  match members with
  | [] => [(k, v)]
  | (k', v') :: r =>
      match array_index k' with
      | Some j =>
          if j <? i then (k', v') :: insert_index i k v r
          else (k, v) :: members
      | None => (k, v) :: members
      end
  end.

Definition CreateDataProperty (members : list (jsstring * value))
  (k : jsstring) (v : value) : list (jsstring * value) :=
  match own_property k members with
  | Some _ => replace_member k v members
  | None =>
      match array_index k with
      | Some i => insert_index i k v members
      | None => members ++ [(k, v)]
      end
  end.

Section Parser.

(** The parser of one value, for the items of an array and the members
    of an object. *)
Variable parse_item : jsstring -> option (value * jsstring).

(** The items of a non-empty array, from the first item to the closing
    bracket. *)
Fixpoint parse_elements (fuel : nat) (s : jsstring)
  : option (list value * jsstring) :=
  match fuel with
  | O => None
  | S f =>
      match parse_item s with
      | None => None
      | Some (v, r) =>
          match skip_ws r with
          | c :: r' =>
              if c =? 44 then
                match parse_elements f r' with
                | Some (vs, r'') => Some (v :: vs, r'')
                | None => None
                end
              else if c =? 93 then Some ([v], r')
              else None
          | [] => None
          end
      end
  end.

(** The members of a non-empty object, in the order of the text, from
    the first key to the closing brace. *)
Fixpoint parse_members (fuel : nat) (s : jsstring)
  : option (list (jsstring * value) * jsstring) :=
  match fuel with
  | O => None
  | S f =>
      match skip_ws s with
      | q :: r0 =>
          if q =? 34 then
            match parse_chars r0 with
            | None => None
            | Some (k, r1) =>
                match skip_ws r1 with
                | colon :: r2 =>
                    if colon =? 58 then
                      match parse_item r2 with
                      | None => None
                      | Some (v, r3) =>
                          match skip_ws r3 with
                          | c :: r4 =>
                              if c =? 44 then
                                match parse_members f r4 with
                                | Some (kvs, r5) => Some ((k, v) :: kvs, r5)
                                | None => None
                                end
                              else if c =? 125 then Some ([(k, v)], r4)
                              else None
                          | [] => None
                          end
                      end
                    else None
                | [] => None
                end
            end
          else None
      | [] => None
      end
  end.

End Parser.

(** One JSON value at the head of [s], after white space. *)
Fixpoint parse_value (fuel : nat) (s : jsstring) : option (value * jsstring) :=
  match fuel with
  | O => None
  | S f =>
      let s0 := skip_ws s in
      match strip_prefix (js "null") s0 with
      | Some r => Some (VNull, r)
      | None =>
      match strip_prefix (js "true") s0 with
      | Some r => Some (VBool true, r)
      | None =>
      match strip_prefix (js "false") s0 with
      | Some r => Some (VBool false, r)
      | None =>
      match s0 with
      | [] => None
      | c :: r =>
          if c =? 34 then
            match parse_chars r with
            | Some (str, r') => Some (VString str, r')
            | None => None
            end
          else if c =? 91 then
            match skip_ws r with
            | c' :: r' =>
                if c' =? 93 then Some (VArray [], r')
                else
                  match parse_elements (parse_value f) f r with
                  | Some (vs, r'') => Some (VArray vs, r'')
                  | None => None
                  end
            | [] => None
            end
          else if c =? 123 then
            match skip_ws r with
            | c' :: r' =>
                if c' =? 125 then Some (VObject [], r')
                else
                  match parse_members (parse_value f) f r with
                  | Some (kvs, r'') =>
                      Some (VObject
                              (fold_left
                                 (fun o kv => CreateDataProperty o (fst kv) (snd kv))
                                 kvs []), r'')
                  | None => None
                  end
            | [] => None
            end
          else if (c =? 45) || is_digit c then
            match scan_number s0 with
            | Some (tok, r') => Some (VNumber (StringToNumber tok), r')
            | None => None
            end
          else None
      end end end end
  end.

(** [JSON.parse(text)]: one value and nothing but white space after it;
    [None] is the SyntaxError. *)
Definition JSON_parse (text : jsstring) : option value :=
  match parse_value (S (List.length text)) text with
  | Some (v, r) => match skip_ws r with [] => Some v | _ => None end
  | None => None
  end.

(** The values that come back from their JSON text: every number is
    finite (NaN and the infinities print as [null]) and not negative
    zero (which prints as [0]), and the members of every object are in
    enumeration order: no key twice, and every array index after smaller
    array indices only. *)
Definition key_in_order (before : list jsstring) (k : jsstring) : bool :=
  negb (existsb (fun k' => k' === k) before)
  && match array_index k with
     | Some i =>
         forallb
           (fun k' =>
              match array_index k' with Some j => j <? i | None => false end)
           before
     | None => true
     end.

Fixpoint keys_in_order (before keys : list jsstring) : bool :=
  match keys with
  | [] => true
  | k :: r => key_in_order before k && keys_in_order (before ++ [k]) r
  end.

(** The numbers that come back from their own text: the finite ones
    other than negative zero. *)
Definition plain_number (n : number) : bool :=
  Number_isFinite n && negb (Number_isNegativeZero n).

Fixpoint is_json (v : value) : bool :=
  match v with
  | VNull => true
  | VBool _ => true
  | VNumber n => plain_number n
  | VString _ => true
  | VArray items => forallb is_json items
  | VObject members =>
      keys_in_order [] (List.map fst members)
      && forallb (fun kv => is_json (snd kv)) members
  end.

(** The two halves of [is_json]: every number is finite and not negative
    zero; the members of every object are in enumeration order. *)
Fixpoint plain_numbers (v : value) : bool :=
  match v with
  | VNumber n => plain_number n
  | VArray items => forallb plain_numbers items
  | VObject members => forallb (fun kv => plain_numbers (snd kv)) members
  | _ => true
  end.

Fixpoint members_in_order (v : value) : bool :=
  match v with
  | VArray items => forallb members_in_order items
  | VObject members =>
      keys_in_order [] (List.map fst members)
      && forallb (fun kv => members_in_order (snd kv)) members
  | _ => true
  end.

(** [parse_item] reads back the text of [v] printed at [indent], after
    any white space and before anything that ends a number. *)
Definition reads_back (parse_item : jsstring -> option (value * jsstring))
  (indent : jsstring) (v : value) : Prop :=
  forall ws rest,
    forallb is_ws ws = true -> ends_number rest ->
    parse_item (ws ++ SerializeJSONProperty indent v ++ rest) = Some (v, rest).

End Values.

Arguments value : clear implicits.
Arguments any : clear implicits.

(** The number of values in a value, itself included: the fuel that
    [parse_value] needs to read it back. *)
Fixpoint size {number : Type} (v : value number) : nat :=
  match v with
  | VArray items => S (list_sum (List.map size items))
  | VObject members => S (list_sum (List.map (fun kv => size (snd kv)) members))
  | _ => 1%nat
  end.

(** What the round trip through JSON text asks of the platform: the
    text [Number::toString] prints for a finite number is a JSON number
    token, and reading that token gives the number back, unless the
    number is negative zero (whose text, [0], reads as positive zero). *)
Class NumberLaws {number : Type} (ops : NumberOps number) : Prop := {
  Number_toString_token :
    forall n, Number_isFinite n = true ->
              scan_number (Number_toString n) = Some (Number_toString n, []);
  Number_toString_read :
    forall n, Number_isFinite n = true -> Number_isNegativeZero n = false ->
              StringToNumber (Number_toString n) = n
}.

(* ----------------------------------------------------------------- *)
(** ** Buffers, base64 and decodeURIComponent *)

(** The base64 alphabet: A-Z, a-z, 0-9, [+] and [/]. *)
Definition base64_char (i : N) : code_unit :=
  if i <? 26 then 65 + i
  else if i <? 52 then 71 + i
  else if i <? 62 then i - 4
  else if i =? 62 then 43
  else 47.

(** [buffer.toString('base64')]: three bytes make four characters; one
    or two bytes left over are padded with [=]. *)
Fixpoint base64_encode (bytes : list byte) : jsstring :=
  match bytes with
  | [] => []
  | a :: r1 =>
      let a := Byte.to_N a in
      match r1 with
      | [] =>
          [base64_char (a / 4); base64_char ((a mod 4) * 16); 61; 61]
      | b :: r2 =>
          let b := Byte.to_N b in
          match r2 with
          | [] =>
              [base64_char (a / 4); base64_char ((a mod 4) * 16 + b / 16);
               base64_char ((b mod 16) * 4); 61]
          | c :: r3 =>
              let c := Byte.to_N c in
              base64_char (a / 4) :: base64_char ((a mod 4) * 16 + b / 16)
              :: base64_char ((b mod 16) * 4 + c / 64) :: base64_char (c mod 64)
              :: base64_encode r3
          end
      end
  end.

(** The reader's side of base64 (RFC 4648, with padding): the bytes a
    payload stands for, or [None] when it is not base64. *)
Definition base64_index (c : code_unit) : option N :=
  if (65 <=? c) && (c <=? 90) then Some (c - 65)
  else if (97 <=? c) && (c <=? 122) then Some (c - 71)
  else if (48 <=? c) && (c <=? 57) then Some (c + 4)
  else if c =? 43 then Some 62
  else if c =? 47 then Some 63
  else None.

Definition bytes_of (ns : list N) : option (list byte) :=
  fold_right
    (fun n acc =>
       match Byte.of_N n, acc with
       | Some b, Some bs => Some (b :: bs)
       | _, _ => None
       end)
    (Some []) ns.

Fixpoint base64_decode (s : jsstring) : option (list byte) :=
  match s with
  | [] => Some []
  | c1 :: c2 :: c3 :: c4 :: r =>
      match base64_index c1, base64_index c2 with
      | Some i1, Some i2 =>
          if c3 =? 61 then
            match r with
            | [] => if c4 =? 61 then bytes_of [i1 * 4 + i2 / 16] else None
            | _ => None
            end
          else
            match base64_index c3 with
            | None => None
            | Some i3 =>
                if c4 =? 61 then
                  match r with
                  | [] =>
                      bytes_of [i1 * 4 + i2 / 16; (i2 mod 16) * 16 + i3 / 4]
                  | _ => None
                  end
                else
                  match base64_index c4, base64_decode r with
                  | Some i4, Some bs =>
                      match bytes_of [i1 * 4 + i2 / 16;
                                      (i2 mod 16) * 16 + i3 / 4;
                                      (i3 mod 4) * 64 + i4] with
                      | Some b3 => Some (b3 ++ bs)
                      | None => None
                      end
                  | _, _ => None
                  end
            end
      | _, _ => None
      end
  | _ => None
  end.

(** [ParseHexOctet]: the byte two hex digits stand for. *)
Definition ParseHexOctet (h1 h2 : code_unit) : option N :=
  match hex_value h1, hex_value h2 with
  | Some a, Some b => Some (16 * a + b)
  | _, _ => None
  end.

(** [n] further escapes [%XX], each a UTF-8 continuation byte. *)
Fixpoint continuation_octets (n : nat) (s : jsstring)
  : option (list N * jsstring) :=
  match n with
  | O => Some ([], s)
  | S n' =>
      match s with
      | p :: h1 :: h2 :: r =>
          if p =? 37 then
            match ParseHexOctet h1 h2 with
            | Some b =>
                if (128 <=? b) && (b <? 192) then
                  match continuation_octets n' r with
                  | Some (bs, r') => Some (b :: bs, r')
                  | None => None
                  end
                else None
            | None => None
            end
          else None
      | _ => None
      end
  end.

(** The code point of a UTF-8 sequence with leading byte [b] and
    continuation bytes [conts], when the sequence is valid: not overlong,
    not a surrogate, at most U+10FFFF. *)
Definition utf8_code_point (b : N) (conts : list N) : option N :=
  let payload := fold_left (fun acc c => acc * 64 + c mod 64) conts in
  match conts with
  | [_] =>
      let v := payload (b mod 32) in
      if 128 <=? v then Some v else None
  | [_; _] =>
      let v := payload (b mod 16) in
      if (2048 <=? v) && negb ((55296 <=? v) && (v <=? 57343))
      then Some v else None
  | [_; _; _] =>
      let v := payload (b mod 8) in
      if (65536 <=? v) && (v <=? 1114111) then Some v else None
  | _ => None
  end.

Definition UTF16EncodeCodePoint (cp : N) : jsstring :=
  if cp <=? 65535 then [cp]
  else [55296 + (cp - 65536) / 1024; 56320 + (cp - 65536) mod 1024].

(** [Decode] of the URI functions with an empty reserved set: a [%XX]
    below 0x80 is that character, a longer UTF-8 sequence of escapes is
    its code point, anything malformed throws a URIError ([None]). *)
Fixpoint Decode (fuel : nat) (s : jsstring) : option jsstring :=
  match s with
  | [] => Some []
  | c :: r =>
      match fuel with
      | O => None
      | S f =>
          if c =? 37 then
            match r with
            | h1 :: h2 :: r1 =>
                match ParseHexOctet h1 h2 with
                | None => None
                | Some b =>
                    if b <? 128 then option_map (cons b) (Decode f r1)
                    else if b <? 192 then None
                    else if b <? 248 then
                      let n := if b <? 224 then 1%nat
                               else if b <? 240 then 2%nat else 3%nat in
                      match continuation_octets n r1 with
                      | None => None
                      | Some (conts, r2) =>
                          match utf8_code_point b conts with
                          | None => None
                          | Some cp =>
                              option_map (app (UTF16EncodeCodePoint cp))
                                         (Decode f r2)
                          end
                      end
                    else None
                end
            | _ => None
            end
          else option_map (cons c) (Decode f r)
      end
  end.

Definition decodeURIComponent (s : jsstring) : option jsstring :=
  Decode (List.length s) s.

(** [uri.match(/^datagov:\/\/resource\/(.+)$/)], reduced to its first
    group.  Without the [s] flag the dot matches no line terminator and
    without the [m] flag the dollar matches at the end of the input only:
    the group is everything after the prefix, which must be non-empty
    and free of line terminators. *)
Definition is_line_terminator (c : code_unit) : bool :=
  (c =? 10) || (c =? 13) || (c =? 8232) || (c =? 8233).

Definition match_resource_uri (uri : jsstring) : option jsstring :=
  match strip_prefix (js "datagov://resource/") uri with
  | Some (c :: r) =>
      if forallb (fun x => negb (is_line_terminator x)) (c :: r)
      then Some (c :: r) else None
  | _ => None
  end.

(* ================================================================= *)
(** * The MCP SDK and axios, as the handlers see them *)

(** [ErrorCode] of the SDK. *)
Inductive ErrorCode : Type :=
| ConnectionClosed
| RequestTimeout
| ParseError
| InvalidRequest
| MethodNotFound
| InvalidParams
| InternalError.

(** A text content block of a tool result, and the result. *)
Record TextContent : Type := {
  type : jsstring;
  text : jsstring
}.

Record CallToolResult : Type := {
  content : list TextContent;
  isError : option bool
}.

(** The result of a resource read. *)
Record ResourceContents : Type := {
  uri : jsstring;
  resource_text : jsstring
}.

Record ReadResourceResult : Type := {
  contents : list ResourceContents
}.

(** A resource template of the catalog of templates. *)
Record ResourceTemplate : Type := {
  uriTemplate : jsstring;
  template_name : jsstring;
  template_description : jsstring
}.

(** A tool of the catalog. *)
Record SchemaProperty : Type := {
  property_type : jsstring;
  property_description : jsstring
}.

Record InputSchema : Type := {
  schema_type : jsstring;
  properties : list (jsstring * SchemaProperty);
  required : option (list jsstring)
}.

Record Tool : Type := {
  name : jsstring;
  description : jsstring;
  inputSchema : InputSchema
}.

Section Server.

Context {number : Type} {ops : NumberOps number}.

(** [response.data]: the parsed body of an API response, or the Buffer
    of a response requested with [responseType: 'arraybuffer']. *)
Inductive body : Type :=
| JsonBody (v : value number)
| BufferBody (bytes : list byte).

Record AxiosResponse (D : Type) : Type := {
  status : N;
  headers : list (jsstring * jsstring);
  data : D
}.

(** An [AxiosError]: its message, the response when the server answered
    with a status outside 2xx, and whether a request was made. *)
Record AxiosError (D : Type) : Type := {
  message : jsstring;
  response : option (AxiosResponse D);
  request : bool
}.

(** What a rejected GET is caught as: an axios error, or anything else,
    of which the handlers only use the string it converts to. *)
Inductive failure (D : Type) : Type :=
| AxiosFailure (e : AxiosError D)
| OtherFailure (rendering : jsstring).

Arguments OtherFailure {D} rendering.

(** The outcome of a GET awaited by a handler. *)
Inductive settled (D : Type) : Type :=
| Fulfilled (r : AxiosResponse D)
| Rejected (f : failure D).

(** A caught error as [handleAxiosError(error: unknown)] receives it:
    the data of a failed API GET is the parsed body, the data of a
    failed resource GET is a Buffer. *)
Definition caught {D : Type} (inj : D -> body) (f : failure D) : failure body :=
  match f with
  | AxiosFailure e =>
      AxiosFailure
        {| message := message e;
           response :=
             match response e with
             | Some r =>
                 Some {| status := status r; headers := headers r;
                         data := inj (data r) |}
             | None => None
             end;
           request := request e |}
  | OtherFailure rendering => OtherFailure rendering
  end.

(** What a handler throws: an [McpError] it made, a URIError of
    [decodeURIComponent], a TypeError of a conversion to string, or the
    failure of a GET thrown again. *)
Inductive thrown : Type :=
| McpError (code : ErrorCode) (msg : jsstring)
| URIError
| TypeError
| Rethrown (f : failure body).

(** The two GETs of the server: through the instance bound to
    [BASE_URL], with query parameters and the default response type; and
    to any URL, with [responseType: 'arraybuffer']. *)
Inductive call : Type :=
| GetJson (url : jsstring) (params : any number)
| GetBuffer (url : jsstring).

(** A handler: it returns, throws, or awaits a GET and goes on with what
    the GET settled to. *)
Inductive io (A : Type) : Type :=
| Return (a : A)
| Throw (t : thrown)
| AwaitJson (url : jsstring) (params : any number)
    (k : settled (value number) -> io A)
| AwaitBuffer (url : jsstring) (k : settled (list byte) -> io A).

Arguments Throw {A} t.

Fixpoint bind {A B : Type} (m : io A) (f : A -> io B) : io B :=
  match m with
  | Return a => f a
  | Throw t => Throw t
  | AwaitJson url params k => AwaitJson url params (fun r => bind (k r) f)
  | AwaitBuffer url k => AwaitBuffer url (fun r => bind (k r) f)
  end.

(** The remote side: what each GET settles to. *)
Record network : Type := {
  get_json : jsstring -> any number -> settled (value number);
  get_buffer : jsstring -> settled (list byte)
}.

Inductive outcome (A : Type) : Type :=
| Returned (a : A)
| Raised (t : thrown).

Arguments Raised {A} t.

(** Running a handler against a network: its outcome and the GETs it
    issued, in order. *)
Fixpoint run {A : Type} (net : network) (p : io A) : outcome A * list call :=
  match p with
  | Return a => (Returned a, [])
  | Throw t => (Raised t, [])
  | AwaitJson url params k =>
      let (o, calls) := run net (k (get_json net url params)) in
      (o, GetJson url params :: calls)
  | AwaitBuffer url k =>
      let (o, calls) := run net (k (get_buffer net url)) in
      (o, GetBuffer url :: calls)
  end.

(* ================================================================= *)
(** * src/index.ts *)

Definition BASE_URL : jsstring := js "https://catalog.data.gov/api/3".

(** [a === undefined || typeof a === t] *)
Definition optional_of (t : string) (a : any number) : bool :=
  is_undefined a || (typeof a === js t).

Definition isValidPackageSearchArgs (args : any number) : bool :=
  (typeof args === js "object")
  && negb (is_null args)
  && optional_of "string" (Get args (js "q"))
  && optional_of "string" (Get args (js "sort"))
  && optional_of "number" (Get args (js "rows"))
  && optional_of "number" (Get args (js "start")).

Definition isValidPackageShowArgs (args : any number) : bool :=
  (typeof args === js "object")
  && negb (is_null args)
  && (typeof (Get args (js "id")) === js "string").

Definition isValidGroupListArgs (args : any number) : bool :=
  (typeof args === js "object")
  && negb (is_null args)
  && optional_of "string" (Get args (js "order_by"))
  && optional_of "number" (Get args (js "limit"))
  && optional_of "number" (Get args (js "offset"))
  && optional_of "boolean" (Get args (js "all_fields")).

Definition isValidTagListArgs (args : any number) : bool :=
  (typeof args === js "object")
  && negb (is_null args)
  && optional_of "string" (Get args (js "query"))
  && optional_of "boolean" (Get args (js "all_fields")).

(** A template literal: the string so far, followed by a text and the
    conversion of [a] to a string, which can throw. *)
Definition append_template (acc text : jsstring) (a : any number)
  : io jsstring :=
  match ToString a with
  | Some s => Return (acc ++ text ++ s)
  | None => Throw TypeError
  end.

(** [handleAxiosError]. *)
Definition handleAxiosError (error : failure body) : io CallToolResult :=
  match error with
  | AxiosFailure axiosError =>
      let errorMessage := js "Data.gov API error: " ++ message axiosError in
      bind
        (match response axiosError with
         | Some resp =>
             let errorMessage :=
               errorMessage ++ [10] ++ js "Status: " ++ decimal (status resp) in
             match data resp with
             | JsonBody d =>
                 if ToBoolean (Val d) then
                   let err := Get (Val d) (js "error") in
                   if ToBoolean (Get err (js "message")) then
                     append_template errorMessage ([10] ++ js "Message: ")
                                     (Get err (js "message"))
                   else if ToBoolean err then
                     append_template errorMessage ([10] ++ js "Message: ") err
                   else if typeof (Val d) === js "string" then
                     append_template errorMessage ([10] ++ js "Data: ") (Val d)
                   else Return errorMessage
                 else Return errorMessage
             | BufferBody _ =>
                 (* a Buffer is truthy, has no [error] property and is
                    not a string *)
                 Return errorMessage
             end
         | None =>
             if request axiosError then
               Return (errorMessage ++ [10]
                       ++ js "No response received from the server.")
             else Return errorMessage
         end)
        (fun errorMessage =>
           Return {| content := [{| type := js "text"; text := errorMessage |}];
                     isError := Some true |})
  | OtherFailure rendering =>
      Return {| content :=
                  [{| type := js "text";
                      text := js "An unexpected error occurred: " ++ rendering |}];
                isError := Some true |}
  end.

(** The body shared by the four query methods:
    [try { const response = await this.axiosInstance.get(path, { params });
           return { content: [{ type: 'text',
                                text: JSON.stringify(response.data, null, 2) }] };
     } catch (error) { return this.handleAxiosError(error); }] *)
Definition query (path : string) (params : any number) : io CallToolResult :=
  AwaitJson (BASE_URL ++ js path) params
    (fun r =>
       match r with
       | Fulfilled response =>
           Return {| content :=
                       [{| type := js "text";
                           text := JSON_stringify (data response) |}];
                     isError := None |}
       | Rejected error => handleAxiosError (caught JsonBody error)
       end).

Definition packageSearch (args : any number) : io CallToolResult :=
  query "/action/package_search" args.

(** [params: { id: args.id }]; [args.id] is a string here. *)
Definition packageShow (args : any number) : io CallToolResult :=
  query "/action/package_show"
    (Val (VObject
            match Get args (js "id") with
            | Val id => [(js "id", id)]
            | _ => []
            end)).

Definition groupList (args : any number) : io CallToolResult :=
  query "/action/group_list" args.

Definition tagList (args : any number) : io CallToolResult :=
  query "/action/tag_list" args.

(** The catalog answered to [ListToolsRequestSchema]. *)
Definition property (t : string) (d : jsstring) : SchemaProperty :=
  {| property_type := js t; property_description := d |}.

Definition tools : list Tool :=
  [ {| name := js "package_search";
       description := js "Search for packages (datasets) on Data.gov";
       inputSchema :=
         {| schema_type := js "object";
            properties :=
              [ (js "q", property "string" (js "Search query"));
                (js "sort",
                 property "string"
                   (js "Sort order (e.g., " ++ [34] ++ js "score desc, name asc"
                    ++ [34] ++ js ")"));
                (js "rows", property "number" (js "Number of results per page"));
                (js "start", property "number" (js "Starting offset for results")) ];
            required := None |} |};
    {| name := js "package_show";
       description := js "Get details for a specific package (dataset)";
       inputSchema :=
         {| schema_type := js "object";
            properties :=
              [ (js "id", property "string" (js "Package ID or name")) ];
            required := Some [js "id"] |} |};
    {| name := js "group_list";
       description := js "List groups on Data.gov";
       inputSchema :=
         {| schema_type := js "object";
            properties :=
              [ (js "order_by", property "string" (js "Field to order by"));
                (js "limit", property "number" (js "Maximum number of results"));
                (js "offset", property "number" (js "Offset for results"));
                (js "all_fields", property "boolean" (js "Return all fields")) ];
            required := None |} |};
    {| name := js "tag_list";
       description := js "List tags on Data.gov";
       inputSchema :=
         {| schema_type := js "object";
            properties :=
              [ (js "query", property "string" (js "Search query for tags"));
                (js "all_fields", property "boolean" (js "Return all fields")) ];
            required := None |} |} ].

(** The handler of [ListToolsRequestSchema]. *)
Definition ListTools : io (list Tool) := Return tools.

(** The handler of [CallToolRequestSchema]: the [switch] on
    [request.params.name]. *)
Definition CallTool (name : jsstring) (arguments : any number)
  : io CallToolResult :=
  if name === js "package_search" then
    if negb (isValidPackageSearchArgs arguments) then
      Throw (McpError InvalidParams (js "Invalid package_search arguments"))
    else packageSearch arguments
  else if name === js "package_show" then
    if negb (isValidPackageShowArgs arguments) then
      Throw (McpError InvalidParams (js "Invalid package_show arguments"))
    else packageShow arguments
  else if name === js "group_list" then
    if negb (isValidGroupListArgs arguments) then
      Throw (McpError InvalidParams (js "Invalid group_list arguments"))
    else groupList arguments
  else if name === js "tag_list" then
    if negb (isValidTagListArgs arguments) then
      Throw (McpError InvalidParams (js "Invalid tag_list arguments"))
    else tagList arguments
  else Throw (McpError MethodNotFound (js "Unknown tool: " ++ name)).

(** [response.headers['content-type']] inside a template literal: the
    header, or the text [undefined] when the response has none. *)
Fixpoint header (k : jsstring) (hs : list (jsstring * jsstring))
  : option jsstring :=
  match hs with
  | [] => None
  | (k', v) :: r => if k' === k then Some v else header k r
  end.

Definition template_of_header (h : option jsstring) : jsstring :=
  match h with
  | Some v => v
  | None => js "undefined"
  end.

(** The handler of [ReadResourceRequestSchema]. *)
Definition ReadResource (request_uri : jsstring) : io ReadResourceResult :=
  match match_resource_uri request_uri with
  | None =>
      Throw (McpError InvalidRequest (js "Invalid URI format: " ++ request_uri))
  | Some group1 =>
      match decodeURIComponent group1 with
      | None => Throw URIError
      | Some url =>
          AwaitBuffer url
            (fun r =>
               match r with
               | Fulfilled response =>
                   let base64 := base64_encode (data response) in
                   let dataUri :=
                     js "data:"
                     ++ template_of_header
                          (header (js "content-type") (headers response))
                     ++ js ";base64," ++ base64 in
                   Return
                     {| contents :=
                          [{| uri := request_uri; resource_text := dataUri |}] |}
               | Rejected error =>
                   bind (handleAxiosError (caught BufferBody error))
                        (fun _ => Throw (Rethrown (caught BufferBody error)))
               end)
      end
  end.

(** The handler of [ListResourceTemplatesRequestSchema]. *)
Definition resourceTemplates : list ResourceTemplate :=
  [ {| uriTemplate := js "datagov://resource/{url}";
       template_name := js "Data.gov Resource";
       template_description := js "Access a Data.gov resource by its URL" |} ].

Definition ListResourceTemplates : io (list ResourceTemplate) :=
  Return resourceTemplates.

End Server.

Arguments body : clear implicits.
Arguments thrown : clear implicits.
Arguments call : clear implicits.
Arguments io : clear implicits.
Arguments network : clear implicits.
Arguments outcome : clear implicits.
Arguments OtherFailure {D} rendering.
Arguments Throw {number A} t.
Arguments Raised {number A} t.

(* ================================================================= *)
(** * A Number type for closed examples

    Decimal numbers with the range of a double, both zeros, both
    infinities and NaN.  A number other than zero is held as
    [Number::toString] describes it: a sign, the digits [s] (the first
    and the last of them not [0]) and the position [n] of the decimal
    point, the number being [0.s * 10 ^ n].  A literal is read exactly,
    where a double rounds it to 53 bits: the two print alike for a
    literal of at most 15 significant digits that is no subnormal; a
    longer literal keeps all its digits here. *)
Inductive jsnumber : Type :=
| NaN
| Infinity (negative : bool)
| Zero (negative : bool)
| Decimal (negative : bool) (digits : jsstring) (n : Z).

Inductive magnitude : Type := Underflow | InRange | Overflow.

(** Where [0.s * 10 ^ n] lies.  A double overflows to an infinity from
    2^1024 - 2^970 on (half-way from the largest double to 2^1024) and
    underflows to zero up to 2^-1075 (half the least double). *)
Definition magnitude_of (digits : jsstring) (n : Z) : magnitude :=
  let k := Z.of_nat (List.length digits) in
  let s := Z.of_N (digits_value digits 0) in
  if (400 <? n)%Z then Overflow
  else if (n <? -400)%Z then Underflow
  else if (k <=? n)%Z then
    if (2 ^ 1024 - 2 ^ 970 <=? s * 10 ^ (n - k))%Z then Overflow else InRange
  else
    if ((2 ^ 1024 - 2 ^ 970) * 10 ^ (k - n) <=? s)%Z then Overflow
    else if (s * 2 ^ 1075 <=? 10 ^ (k - n))%Z then Underflow
    else InRange.

(** The digits of a number: at least one, the first and the last not
    [0]. *)
Definition canonical (digits : jsstring) : bool :=
  match digits with
  | c :: _ =>
      forallb is_digit digits && negb (c =? 48) && negb (last digits 0 =? 48)
  | [] => false
  end.

(** A [Decimal] stands for a number when its digits are canonical and
    it is in range; any other stands for none, and counts as NaN. *)
Definition jsnumber_isFinite (x : jsnumber) : bool :=
  match x with
  | Zero _ => true
  | Decimal _ digits n =>
      canonical digits
      && match magnitude_of digits n with InRange => true | _ => false end
  | _ => false
  end.

Definition zeros (n : Z) : jsstring := repeat 48 (Z.to_nat n).

(** [Number::toString] (ECMA-262, 6.1.6.1.20) in radix 10, for the
    positive number of digits [s] and point position [n]: in full when
    [-5 <= n <= 21], with an exponent otherwise. *)
Definition digits_toString (s : jsstring) (n : Z) : jsstring :=
  let k := Z.of_nat (List.length s) in
  if (-5 <=? n)%Z && (n <=? 21)%Z then
    if (k <=? n)%Z then s ++ zeros (n - k)
    else if (0 <? n)%Z then
      firstn (Z.to_nat n) s ++ [46] ++ skipn (Z.to_nat n) s
    else [48; 46] ++ zeros (- n) ++ s
  else
    let exponent :=
      [101] ++ (if (n <? 0)%Z then [45] else [43])
      ++ decimal (Z.to_N (Z.abs (n - 1))) in
    match s with
    | [a] => [a] ++ exponent
    | a :: b => [a] ++ [46] ++ b ++ exponent
    | [] => exponent
    end.

Definition jsnumber_toString (x : jsnumber) : jsstring :=
  match x with
  | Zero _ => js "0"
  | Infinity false => js "Infinity"
  | Infinity true => js "-Infinity"
  | Decimal negative s n =>
      if jsnumber_isFinite x
      then (if negative then [45] else []) ++ digits_toString s n
      else js "NaN"
  | NaN => js "NaN"
  end.

Fixpoint drop_zeros (s : jsstring) : jsstring :=
  match s with
  | c :: r => if c =? 48 then drop_zeros r else s
  | [] => []
  end.

(** The number [0.mantissa * 10 ^ point], the mantissa being any run of
    digits: zero when all of them are [0]; otherwise the zeros at either
    end go. *)
Definition jsnumber_of_decimal (negative : bool) (mantissa : jsstring)
  (point : Z) : jsnumber :=
  let m := drop_zeros mantissa in
  let n := (point - Z.of_nat (List.length mantissa - List.length m))%Z in
  let s := rev (drop_zeros (rev m)) in
  match s with
  | [] => Zero negative
  | _ =>
      match magnitude_of s n with
      | Overflow => Infinity negative
      | Underflow => Zero negative
      | InRange => Decimal negative s n
      end
  end.

(** The value of the exponent part of a number token: [e] or [E], an
    optional sign, digits; [0] when there is none. *)
Definition exponent_value (e : jsstring) : Z :=
  match e with
  | _ :: c :: d =>
      if c =? 45 then (- Z.of_N (digits_value d 0))%Z
      else if c =? 43 then Z.of_N (digits_value d 0)
      else Z.of_N (digits_value (c :: d) 0)
  | _ => 0%Z
  end.

(** [StringToNumber] on a JSON number token: its mathematical value,
    brought into range.  (Any other string is no concern of the parser;
    it reads as NaN.) *)
Definition jsnumber_StringToNumber (tok : jsstring) : jsnumber :=
  let (negative, s1) :=
    match tok with
    | c :: r => if c =? 45 then (true, r) else (false, tok)
    | [] => (false, tok)
    end in
  match scan_int s1 with
  | Some (i, s2) =>
      match scan_frac s2 with
      | Some (f, s3) =>
          match scan_exp s3 with
          | Some (e, []) =>
              jsnumber_of_decimal negative (i ++ tl f)
                (Z.of_nat (List.length i) + exponent_value e)
          | _ => NaN
          end
      | None => NaN
      end
  | None => NaN
  end.

(** The parts of a number token: the integer part, the fraction and the
    exponent, the last two possibly empty. *)
Definition token_parts (text i f e : jsstring) : Prop :=
  text = i ++ f ++ e
  /\ scan_int text = Some (i, f ++ e)
  /\ scan_frac (f ++ e) = Some (f, e)
  /\ scan_exp e = Some (e, []).

#[export] Instance jsnumber_ops : NumberOps jsnumber := {
  Number_toString := jsnumber_toString;
  Number_isFinite := jsnumber_isFinite;
  Number_isNegativeZero :=
    fun x => match x with Zero true => true | _ => false end;
  Number_ToBoolean :=
    fun x => match x with
             | Zero _ | NaN => false
             | Infinity _ => true
             | Decimal _ _ _ => jsnumber_isFinite x
             end;
  StringToNumber := jsnumber_StringToNumber
}.

(** The number a literal denotes. *)
Definition num (literal : string) : jsnumber :=
  jsnumber_StringToNumber (js literal).

(** Two remote sides for closed examples.  [answering d bytes] fulfils
    every GET: an API GET with status 200 and the body [d], a resource
    GET with status 200, the content type text/csv and [bytes].
    [refusing st d] answers every GET with the status [st] outside 2xx,
    which axios rejects: an API GET with the body [d], a resource GET
    with an empty Buffer. *)
Definition answering (d : value jsnumber) (bytes : list byte) : network jsnumber :=
  {| get_json := fun _ _ =>
       Fulfilled {| status := 200;
                    headers := [(js "content-type", js "application/json")];
                    data := d |};
     get_buffer := fun _ =>
       Fulfilled {| status := 200;
                    headers := [(js "content-type", js "text/csv")];
                    data := bytes |} |}.

Definition refusing (st : N) (d : value jsnumber) : network jsnumber :=
  {| get_json := fun _ _ =>
       Rejected
         (AxiosFailure
            {| message := js "Request failed with status code " ++ decimal st;
               response := Some {| status := st; headers := []; data := d |};
               request := true |});
     get_buffer := fun _ =>
       Rejected
         (AxiosFailure
            {| message := js "Request failed with status code " ++ decimal st;
               response := Some {| status := st; headers := []; data := [] |};
               request := true |}) |}.

(** [failing f] rejects every API GET with [f]; [headerless bytes]
    fulfils every resource GET with [bytes] and no header at all. *)
Definition failing (f : failure (value jsnumber)) : network jsnumber :=
  {| get_json := fun _ _ => Rejected f;
     get_buffer := fun _ => Rejected (OtherFailure (js "Error: socket hang up")) |}.

Definition headerless (bytes : list byte) : network jsnumber :=
  {| get_json := fun _ _ =>
       Fulfilled {| status := 200; headers := []; data := VNull |};
     get_buffer := fun _ =>
       Fulfilled {| status := 200; headers := []; data := bytes |} |}.

(* ================================================================= *)
(** * Properties *)

Lemma str_eqb_eq (a b : jsstring) : (a === b) = true <-> a = b.
Proof.
  revert b; induction a as [|x a IH]; intros [|y b]; simpl; split;
    try congruence; try reflexivity.
  - intros H. apply andb_true_iff in H as [Hx Hab].
    apply N.eqb_eq in Hx. apply IH in Hab. congruence.
  - intros H. injection H as -> ->. rewrite N.eqb_refl. simpl. now apply IH.
Qed.

Lemma str_eqb_refl (a : jsstring) : (a === a) = true.
Proof. now apply str_eqb_eq. Qed.

Lemma str_eqb_neq (a b : jsstring) : a <> b -> (a === b) = false.
Proof.
  intros H. destruct (a === b) eqn:E; [|reflexivity].
  apply str_eqb_eq in E. contradiction.
Qed.

Lemma strip_prefix_app (p r : jsstring) : strip_prefix p (p ++ r) = Some r.
Proof. induction p as [|x p IH]; simpl; [reflexivity|]. now rewrite N.eqb_refl. Qed.

Lemma strip_prefix_Some (p s r : jsstring) :
  strip_prefix p s = Some r -> s = p ++ r.
Proof.
  revert s; induction p as [|x p IH]; intros [|y s]; simpl; try congruence.
  destruct (x =? y) eqn:E; [|discriminate].
  apply N.eqb_eq in E. subst y. intros H. now rewrite (IH _ H).
Qed.

(** ** base64 *)

Ltac split_ranges :=
  repeat match goal with
         | |- context [?a <=? ?b] => destruct (N.leb_spec a b); try lia
         | |- context [?a <? ?b] => destruct (N.ltb_spec a b); try lia
         | |- context [?a =? ?b] => destruct (N.eqb_spec a b); try lia
         end.

Lemma base64_index_char (i : N) :
  i < 64 -> base64_index (base64_char i) = Some i.
Proof.
  intros H. unfold base64_char, base64_index.
  split_ranges; cbv beta iota delta [andb]; try (f_equal; lia).
Qed.

Lemma base64_char_not_pad (i : N) : (base64_char i =? 61) = false.
Proof.
  unfold base64_char. apply N.eqb_neq. split_ranges.
Qed.

Ltac div_mod_lia := zify; Z.to_euclidean_division_equations; lia.

Lemma sextets_of_octets (a b c : N) :
  a < 256 -> b < 256 -> c < 256 ->
  a / 4 < 64 /\ a mod 4 * 16 + b / 16 < 64
  /\ b mod 16 * 4 + c / 64 < 64 /\ c mod 64 < 64
  /\ a / 4 * 4 + (a mod 4 * 16 + b / 16) / 16 = a
  /\ (a mod 4 * 16 + b / 16) mod 16 * 16 + (b mod 16 * 4 + c / 64) / 4 = b
  /\ (b mod 16 * 4 + c / 64) mod 4 * 64 + c mod 64 = c.
Proof.
  intros Ha Hb Hc. repeat split; div_mod_lia.
Qed.

Lemma Byte_to_N_lt (b : byte) : Byte.to_N b < 256.
Proof. pose proof (Byte.to_N_bounded b). lia. Qed.

Lemma bytes_of_to_N (bs : list byte) : bytes_of (List.map Byte.to_N bs) = Some bs.
Proof.
  induction bs as [|b bs IH]; [reflexivity|].
  simpl. fold (bytes_of (List.map Byte.to_N bs)).
  now rewrite IH, Byte.of_to_N.
Qed.

(** Decoding the base64 text of a Buffer gives back its bytes. *)
Lemma base64_decode_encode (bytes : list byte) :
  base64_decode (base64_encode bytes) = Some bytes.
Proof.
  assert (H : forall n bs, (List.length bs <= n)%nat ->
                           base64_decode (base64_encode bs) = Some bs).
  { induction n as [|n IH]; intros bs Hn.
    - destruct bs; [reflexivity|simpl in Hn; lia].
    - destruct bs as [|a [|b [|c r]]]; [reflexivity| | |].
      + pose proof (sextets_of_octets (Byte_to_N_lt a) (Byte_to_N_lt a)
                      (Byte_to_N_lt a)) as (S1 & _ & _ & _ & _ & _ & _).
        cbn [base64_encode base64_decode].
        rewrite (base64_index_char S1).
        rewrite base64_index_char by div_mod_lia.
        cbn [N.eqb Pos.eqb].
        replace (_ + _) with (Byte.to_N a) by div_mod_lia.
        apply (bytes_of_to_N [a]).
      + pose proof (sextets_of_octets (Byte_to_N_lt a) (Byte_to_N_lt b)
                      (Byte_to_N_lt a)) as (S1 & S2 & _ & _ & E1 & _ & _).
        cbn [base64_encode base64_decode].
        rewrite (base64_index_char S1), (base64_index_char S2).
        rewrite base64_char_not_pad.
        rewrite base64_index_char by div_mod_lia.
        cbn [N.eqb Pos.eqb].
        rewrite E1.
        replace (_ + _ / 4) with (Byte.to_N b) by div_mod_lia.
        apply (bytes_of_to_N [a; b]).
      + pose proof (sextets_of_octets (Byte_to_N_lt a) (Byte_to_N_lt b)
                      (Byte_to_N_lt c)) as (S1 & S2 & S3 & S4 & E1 & E2 & E3).
        cbn [base64_encode base64_decode].
        rewrite (base64_index_char S1), (base64_index_char S2).
        rewrite !base64_char_not_pad.
        rewrite (base64_index_char S3), (base64_index_char S4).
        rewrite IH by (simpl in Hn; lia).
        rewrite E1, E2, E3.
        change [Byte.to_N a; Byte.to_N b; Byte.to_N c]
          with (List.map Byte.to_N [a; b; c]).
        now rewrite bytes_of_to_N. }
  now apply (H (List.length bytes)).
Qed.

(** ** Number tokens *)

Lemma span_digits_app (t rest d r : jsstring) :
  span_digits t = (d, r) ->
  match rest with [] => True | c :: _ => is_digit c = false end ->
  span_digits (t ++ rest) = (d, r ++ rest).
Proof.
  revert d r; induction t as [|c t IH]; intros d r H Hrest; simpl in *.
  - injection H as <- <-. destruct rest as [|c rest]; [reflexivity|].
    simpl. now rewrite Hrest.
  - destruct (is_digit c); [|now injection H as <- <-].
    destruct (span_digits t) as [d' r'] eqn:E.
    injection H as <- <-. now rewrite (IH _ _ eq_refl Hrest).
Qed.

Lemma ends_number_digit (rest : jsstring) :
  ends_number rest -> match rest with [] => True | c :: _ => is_digit c = false end.
Proof. destruct rest; simpl; tauto. Qed.

Lemma scan_int_app (t rest i r : jsstring) :
  scan_int t = Some (i, r) -> ends_number rest ->
  scan_int (t ++ rest) = Some (i, r ++ rest).
Proof.
  intros H Hrest. destruct t as [|c t]; [discriminate|]. simpl in *.
  destruct (c =? 48); [now injection H as <- <-|].
  destruct (is_digit c); [|discriminate].
  destruct (span_digits t) as [d r'] eqn:E. injection H as <- <-.
  now rewrite (span_digits_app _ _ E (ends_number_digit _ Hrest)).
Qed.

Lemma scan_frac_app (t rest f r : jsstring) :
  scan_frac t = Some (f, r) -> ends_number rest ->
  scan_frac (t ++ rest) = Some (f, r ++ rest).
Proof.
  intros H Hrest. destruct t as [|c t]; simpl in *.
  - injection H as <- <-. destruct rest as [|c rest]; [reflexivity|].
    simpl. destruct Hrest as (_ & -> & _). reflexivity.
  - destruct (c =? 46); [|now injection H as <- <-].
    destruct (span_digits t) as [d r'] eqn:E.
    rewrite (span_digits_app _ _ E (ends_number_digit _ Hrest)).
    destruct d; [discriminate|]. now injection H as <- <-.
Qed.

Lemma scan_exp_app (t rest e r : jsstring) :
  scan_exp t = Some (e, r) -> ends_number rest ->
  scan_exp (t ++ rest) = Some (e, r ++ rest).
Proof.
  intros H Hrest. destruct t as [|c t]; simpl in *.
  - injection H as <- <-. destruct rest as [|c rest]; [reflexivity|].
    simpl. destruct Hrest as (_ & _ & -> & ->). reflexivity.
  - destruct ((c =? 101) || (c =? 69)); [|now injection H as <- <-].
    destruct t as [|c' t]; [discriminate|]. simpl in *.
    destruct ((c' =? 43) || (c' =? 45)).
    + destruct (span_digits t) as [d r'] eqn:E.
      rewrite (span_digits_app _ _ E (ends_number_digit _ Hrest)).
      destruct d; [discriminate|]. now injection H as <- <-.
    + change (c' :: t ++ rest) with ((c' :: t) ++ rest).
      destruct (span_digits (c' :: t)) as [d r'] eqn:E.
      rewrite (span_digits_app _ _ E (ends_number_digit _ Hrest)).
      destruct d; [discriminate|]. now injection H as <- <-.
Qed.

Lemma scan_number_app (t rest tok r : jsstring) :
  scan_number t = Some (tok, r) -> ends_number rest ->
  scan_number (t ++ rest) = Some (tok, r ++ rest).
Proof.
  intros H Hrest. unfold scan_number in *.
  assert (Hint : forall s1 sign,
             match scan_int s1 with
             | None => None
             | Some (i, s2) =>
                 match scan_frac s2 with
                 | None => None
                 | Some (f, s3) =>
                     match scan_exp s3 with
                     | None => None
                     | Some (e, s4) => Some (sign ++ i ++ f ++ e, s4)
                     end
                 end
             end = Some (tok, r) ->
             match scan_int (s1 ++ rest) with
             | None => None
             | Some (i, s2) =>
                 match scan_frac s2 with
                 | None => None
                 | Some (f, s3) =>
                     match scan_exp s3 with
                     | None => None
                     | Some (e, s4) => Some (sign ++ i ++ f ++ e, s4)
                     end
                 end
             end = Some (tok, r ++ rest)).
  { intros s1 sign H1.
    destruct (scan_int s1) as [[i s2]|] eqn:Ei; [|discriminate].
    rewrite (scan_int_app _ _ Ei Hrest).
    destruct (scan_frac s2) as [[f s3]|] eqn:Ef; [|discriminate].
    rewrite (scan_frac_app _ _ Ef Hrest).
    destruct (scan_exp s3) as [[e s4]|] eqn:Ee; [|discriminate].
    rewrite (scan_exp_app _ _ Ee Hrest).
    now injection H1 as <- <-. }
  destruct t as [|c t].
  - discriminate.
  - simpl. destruct (c =? 45).
    + now apply Hint.
    + now apply (Hint (c :: t)).
Qed.

(** A number token starts with a minus sign or a digit. *)
Lemma scan_number_head (t tok r : jsstring) :
  scan_number t = Some (tok, r) ->
  exists c t', t = c :: t' /\ ((c =? 45) || is_digit c) = true.
Proof.
  unfold scan_number. destruct t as [|c t]; [discriminate|].
  intros H. exists c, t. split; [reflexivity|].
  destruct (c =? 45) eqn:E; [reflexivity|]. simpl.
  unfold scan_int in H.
  destruct (c =? 48) eqn:E0.
  - apply N.eqb_eq in E0. now subst c.
  - destruct (is_digit c); [reflexivity|discriminate].
Qed.

(** ** String literals *)

Lemma hex_value_digit (d : N) : d < 16 -> hex_value (hex_digit d) = Some d.
Proof.
  intros H. unfold hex_digit, hex_value.
  split_ranges; cbv beta iota delta [andb]; f_equal; lia.
Qed.

Lemma parse_chars_plain (c : code_unit) (r : jsstring) :
  (c =? 34) = false -> (c =? 92) = false -> (c <? 32) = false ->
  parse_chars (c :: r)
  = match parse_chars r with
    | Some (str, rest) => Some (c :: str, rest)
    | None => None
    end.
Proof. intros H1 H2 H3. cbn [parse_chars]. now rewrite H1, H2, H3. Qed.

Lemma parse_chars_unicode_escape (c : code_unit) (r : jsstring) :
  c < 65536 ->
  parse_chars (UnicodeEscape c ++ r)
  = match parse_chars r with
    | Some (str, rest) => Some (c :: str, rest)
    | None => None
    end.
Proof.
  intros H. unfold UnicodeEscape.
  change (parse_chars (_ ++ r))
    with (match hex_value (hex_digit (c / 4096)),
                hex_value (hex_digit ((c / 256) mod 16)),
                hex_value (hex_digit ((c / 16) mod 16)),
                hex_value (hex_digit (c mod 16)),
                parse_chars r with
          | Some a, Some b, Some c', Some d, Some (str, rest) =>
              Some ((a * 4096 + b * 256 + c' * 16 + d) :: str, rest)
          | _, _, _, _, _ => None
          end).
  rewrite !hex_value_digit by div_mod_lia.
  destruct (parse_chars r) as [[str rest]|]; [|reflexivity].
  do 2 f_equal. f_equal. div_mod_lia.
Qed.

Lemma parse_chars_quote_unit (c : code_unit) (r : jsstring) :
  parse_chars (quote_unit c ++ r)
  = match parse_chars r with
    | Some (str, rest) => Some (c :: str, rest)
    | None => None
    end.
Proof.
  unfold quote_unit.
  destruct (N.eqb_spec c 8) as [->|H8]; [reflexivity|].
  destruct (N.eqb_spec c 9) as [->|H9]; [reflexivity|].
  destruct (N.eqb_spec c 10) as [->|H10]; [reflexivity|].
  destruct (N.eqb_spec c 12) as [->|H12]; [reflexivity|].
  destruct (N.eqb_spec c 13) as [->|H13]; [reflexivity|].
  destruct (N.eqb_spec c 34) as [->|H34]; [reflexivity|].
  destruct (N.eqb_spec c 92) as [->|H92]; [reflexivity|].
  destruct ((c <? 32) || is_leading_surrogate c || is_trailing_surrogate c) eqn:E.
  - apply parse_chars_unicode_escape.
    unfold is_leading_surrogate, is_trailing_surrogate in E.
    revert E. split_ranges; cbv beta iota delta [andb orb]; discriminate.
  - apply orb_false_iff in E as [E _]. apply orb_false_iff in E as [E _].
    apply parse_chars_plain; [now apply N.eqb_neq|now apply N.eqb_neq|exact E].
Qed.

Lemma quote_units_cons (c l : code_unit) (r : jsstring) :
  quote_units (c :: l :: r)
  = if is_leading_surrogate c && is_trailing_surrogate l
    then c :: l :: quote_units r
    else quote_unit c ++ quote_units (l :: r).
Proof. reflexivity. Qed.

Lemma parse_chars_quote_units (s rest : jsstring) :
  parse_chars (quote_units s ++ 34 :: rest) = Some (s, rest).
Proof.
  assert (H : forall n s, (List.length s <= n)%nat ->
                          parse_chars (quote_units s ++ 34 :: rest) = Some (s, rest)).
  { clear s. induction n as [|n IH]; intros s Hn.
    - destruct s; [reflexivity|simpl in Hn; lia].
    - destruct s as [|c [|l r]]; [reflexivity| |].
      + cbn [quote_units]. now rewrite parse_chars_quote_unit.
      + rewrite quote_units_cons.
        destruct (is_leading_surrogate c && is_trailing_surrogate l) eqn:E.
        * apply andb_true_iff in E as [Ec El].
          unfold is_leading_surrogate in Ec. unfold is_trailing_surrogate in El.
          apply andb_true_iff in Ec as [Ec _]. apply andb_true_iff in El as [El _].
          apply N.leb_le in Ec, El.
          cbn [app].
          rewrite parse_chars_plain;
            [|apply N.eqb_neq; lia|apply N.eqb_neq; lia|apply N.ltb_ge; lia].
          rewrite parse_chars_plain;
            [|apply N.eqb_neq; lia|apply N.eqb_neq; lia|apply N.ltb_ge; lia].
          rewrite (IH r) by (simpl in Hn; lia). reflexivity.
        * rewrite <- app_assoc. rewrite parse_chars_quote_unit.
          rewrite (IH (l :: r)) by (simpl in Hn |- *; lia). reflexivity. }
  now apply (H (List.length s)).
Qed.

(** A quoted string is a string literal: it reads back as the string. *)
Lemma parse_chars_QuoteJSONString (s rest : jsstring) :
  exists t, QuoteJSONString s ++ rest = 34 :: t
            /\ parse_chars t = Some (s, rest).
Proof.
  exists (quote_units s ++ 34 :: rest). split.
  - unfold QuoteJSONString. cbn [app]. now rewrite <- app_assoc.
  - apply parse_chars_quote_units.
Qed.

(** ** White space *)

Lemma skip_ws_app (ws s : jsstring) :
  forallb is_ws ws = true -> skip_ws (ws ++ s) = skip_ws s.
Proof.
  induction ws as [|c ws IH]; [reflexivity|]. simpl.
  intros H. apply andb_true_iff in H as [-> H]. now apply IH.
Qed.

Lemma skip_ws_head (c : code_unit) (s : jsstring) :
  is_ws c = false -> skip_ws (c :: s) = c :: s.
Proof. intros H. simpl. now rewrite H. Qed.

(** ** Objects in enumeration order *)

Section Members.

Context {number : Type}.

Lemma own_property_absent (k : jsstring) (members : list (jsstring * value number)) :
  existsb (fun k' => k' === k) (List.map fst members) = false ->
  own_property k members = None.
Proof.
  induction members as [|[k' v'] r IH]; [reflexivity|]. simpl.
  intros H. apply orb_false_iff in H as [-> H]. now apply IH.
Qed.

Lemma insert_index_last (i : N) (k : jsstring) (v : value number)
  (members : list (jsstring * value number)) :
  forallb (fun k' => match array_index k' with Some j => j <? i | None => false end)
          (List.map fst members) = true ->
  insert_index i k v members = members ++ [(k, v)].
Proof.
  induction members as [|[k' v'] r IH]; [reflexivity|].
  cbn [List.map fst forallb insert_index app].
  intros H. apply andb_true_iff in H as [Hk H].
  destruct (array_index k') as [j|]; [|discriminate].
  rewrite Hk. now rewrite IH.
Qed.

Lemma CreateDataProperty_in_order (members : list (jsstring * value number))
  (k : jsstring) (v : value number) :
  key_in_order (List.map fst members) k = true ->
  CreateDataProperty members k v = members ++ [(k, v)].
Proof.
  unfold key_in_order, CreateDataProperty. intros H.
  apply andb_true_iff in H as [Hnew Hidx].
  apply negb_true_iff in Hnew. rewrite (own_property_absent _ _ Hnew).
  destruct (array_index k) as [i|]; [|reflexivity].
  now apply insert_index_last.
Qed.

(** Defining the members of an object in enumeration order, one after
    the other, builds the object. *)
Lemma fold_CreateDataProperty (l acc : list (jsstring * value number)) :
  keys_in_order (List.map fst acc) (List.map fst l) = true ->
  fold_left (fun o kv => CreateDataProperty o (fst kv) (snd kv)) l acc = acc ++ l.
Proof.
  revert acc; induction l as [|[k v] l IH]; intros acc H.
  - now rewrite app_nil_r.
  - cbn [List.map fst keys_in_order] in H.
    apply andb_true_iff in H as [Hk H].
    cbn [fold_left fst snd]. rewrite (CreateDataProperty_in_order _ _ v Hk).
    rewrite IH.
    + now rewrite <- app_assoc.
    + now rewrite map_app.
Qed.

Lemma size_positive (v : value number) : (1 <= size v)%nat.
Proof. destruct v; simpl; lia. Qed.

Lemma list_sum_ge_length {A : Type} (f : A -> nat) (l : list A) :
  (forall x, 1 <= f x)%nat -> (List.length l <= list_sum (List.map f l))%nat.
Proof.
  intros Hf. induction l as [|x l IH]; simpl; [lia|].
  specialize (Hf x). lia.
Qed.

Lemma list_sum_ge_member {A : Type} (f : A -> nat) (l : list A) (x : A) :
  In x l -> (f x <= list_sum (List.map f l))%nat.
Proof.
  induction l as [|y l IH]; simpl; [tauto|].
  intros [->|H]; [lia|]. specialize (IH H). lia.
Qed.

End Members.

(** ** JSON.parse after JSON.stringify *)

Section RoundTrip.

Context {number : Type} {ops : NumberOps number} {laws : NumberLaws ops}.

(** The first character of the text of a value is no white space and
    closes neither an array nor an object. *)
Lemma Serialize_head (indent : jsstring) (v : value number) :
  is_json v = true ->
  exists c t, SerializeJSONProperty indent v = c :: t
              /\ is_ws c = false /\ (c =? 93) = false /\ (c =? 125) = false.
Proof.
  destruct v as [|[|]|n|s|items|members]; cbn [SerializeJSONProperty is_json];
    intros Hj.
  - eexists; eexists; split; [reflexivity|]. repeat split.
  - eexists; eexists; split; [reflexivity|]. repeat split.
  - eexists; eexists; split; [reflexivity|]. repeat split.
  - apply andb_true_iff in Hj as [Hj _]. rewrite Hj.
    destruct (@scan_number_head _ _ _ (Number_toString_token n Hj))
      as (c & t & -> & Hc).
    exists c, t. split; [reflexivity|].
    unfold is_ws, is_digit in *. revert Hc.
    split_ranges; cbv beta iota delta [andb orb]; try discriminate;
      repeat split.
  - eexists; eexists; split; [reflexivity|]. repeat split.
  - unfold bracketed. destruct items;
      eexists; eexists; (split; [reflexivity|]); repeat split.
  - unfold bracketed. destruct members;
      eexists; eexists; (split; [reflexivity|]); repeat split.
Qed.

Lemma skip_ws_Serialize (ws indent rest : jsstring) (v : value number) :
  is_json v = true -> forallb is_ws ws = true ->
  skip_ws (ws ++ SerializeJSONProperty indent v ++ rest)
  = SerializeJSONProperty indent v ++ rest.
Proof.
  intros Hj Hws. rewrite (skip_ws_app _ _ Hws).
  destruct (Serialize_head indent v Hj) as (c & t & -> & Hc & _).
  now apply skip_ws_head.
Qed.

Lemma ends_number_head (c : code_unit) (rest : jsstring) :
  c = 10 \/ c = 44 -> ends_number (c :: rest).
Proof. intros [->| ->]; repeat split. Qed.

Lemma parse_elements_join (parse_item : jsstring -> option (value number * jsstring))
  (indent stepback rest : jsstring) (items : list (value number)) :
  items <> [] ->
  forallb is_ws indent = true -> forallb is_ws stepback = true ->
  Forall (reads_back parse_item indent) items ->
  forall fuel ws,
    (List.length items <= fuel)%nat -> forallb is_ws ws = true ->
    parse_elements parse_item fuel
      (ws ++ join ([44; 10] ++ indent)
                  (List.map (SerializeJSONProperty indent) items)
          ++ 10 :: stepback ++ 93 :: rest)
    = Some (items, rest).
Proof.
  intros Hne Hind Hstep Hall.
  induction Hall as [|x items Hx Hall IH]; [contradiction|].
  intros fuel ws Hfuel Hws.
  destruct fuel as [|fuel]; [simpl in Hfuel; lia|].
  destruct items as [|y items].
  - cbn [List.map join parse_elements].
    rewrite (Hx ws _ Hws (@ends_number_head 10 _ (or_introl eq_refl))).
    change (10 :: stepback ++ 93 :: rest)
      with ((10 :: stepback) ++ 93 :: rest).
    rewrite skip_ws_app by (cbn [forallb]; now rewrite Hstep).
    reflexivity.
  - change (join _ (List.map _ (x :: y :: items)))
      with (SerializeJSONProperty indent x
            ++ ([44; 10] ++ indent)
            ++ join ([44; 10] ++ indent)
                    (List.map (SerializeJSONProperty indent) (y :: items))).
    cbn [parse_elements]. rewrite <- !app_assoc.
    cbn [app].
    rewrite (Hx ws _ Hws (@ends_number_head 44 _ (or_intror eq_refl))).
    cbn [skip_ws is_ws N.eqb Pos.eqb orb].
    change (10 :: indent ++ ?t) with ((10 :: indent) ++ t).
    rewrite IH; [reflexivity|discriminate|simpl in Hfuel |- *; lia|].
    cbn [forallb]. now rewrite Hind.
Qed.

Lemma member_text (indent k T : jsstring) (v : value number) :
  (QuoteJSONString k ++ [58; 32] ++ SerializeJSONProperty indent v) ++ T
  = 34 :: quote_units k
       ++ 34 :: 58 :: [32] ++ SerializeJSONProperty indent v ++ T.
Proof.
  unfold QuoteJSONString. cbn [app]. rewrite <- !app_assoc. reflexivity.
Qed.

(** One member at the head of the text: its key, the colon and its
    value are read, and the text after the value is left. *)
Lemma parse_member (parse_item : jsstring -> option (value number * jsstring))
  (indent ws k T : jsstring) (v : value number) :
  reads_back parse_item indent v ->
  forallb is_ws ws = true -> ends_number T ->
  exists r0,
    skip_ws (ws ++ (QuoteJSONString k ++ [58; 32]
                    ++ SerializeJSONProperty indent v) ++ T) = 34 :: r0
    /\ exists r1,
      parse_chars r0 = Some (k, r1)
      /\ exists r2, skip_ws r1 = 58 :: r2 /\ parse_item r2 = Some (v, T).
Proof.
  intros Hv Hws HT. rewrite member_text.
  eexists. split.
  - rewrite (skip_ws_app _ _ Hws). apply skip_ws_head. reflexivity.
  - eexists. split; [apply parse_chars_quote_units|].
    eexists. split; [apply skip_ws_head; reflexivity|].
    apply Hv; [reflexivity|exact HT].
Qed.

Lemma parse_members_join (parse_item : jsstring -> option (value number * jsstring))
  (indent stepback rest : jsstring) (members : list (jsstring * value number)) :
  members <> [] ->
  forallb is_ws indent = true -> forallb is_ws stepback = true ->
  Forall (fun kv => reads_back parse_item indent (snd kv)) members ->
  forall fuel ws,
    (List.length members <= fuel)%nat -> forallb is_ws ws = true ->
    parse_members parse_item fuel
      (ws ++ join ([44; 10] ++ indent)
                  (List.map
                     (fun kv =>
                        QuoteJSONString (fst kv) ++ [58; 32]
                        ++ SerializeJSONProperty indent (snd kv))
                     members)
          ++ 10 :: stepback ++ 125 :: rest)
    = Some (members, rest).
Proof.
  intros Hne Hind Hstep Hall.
  induction Hall as [|[k x] members Hx Hall IH]; [contradiction|].
  intros fuel ws Hfuel Hws.
  destruct fuel as [|fuel]; [simpl in Hfuel; lia|].
  cbn [snd] in Hx.
  destruct members as [|y members].
  - cbn [List.map join fst snd].
    destruct (@parse_member parse_item indent ws k _ x Hx Hws
                (@ends_number_head 10 (stepback ++ 125 :: rest) (or_introl eq_refl)))
      as (r0 & E0 & r1 & E1 & r2 & E2 & E3).
    cbn [parse_members]. rewrite E0. cbn [N.eqb Pos.eqb].
    rewrite E1, E2. cbn [N.eqb Pos.eqb]. rewrite E3.
    change (10 :: stepback ++ 125 :: rest)
      with ((10 :: stepback) ++ 125 :: rest).
    rewrite skip_ws_app by (cbn [forallb]; now rewrite Hstep).
    reflexivity.
  - change (join ?sep (List.map ?f ((k, x) :: y :: members)))
      with (f (k, x) ++ sep ++ join sep (List.map f (y :: members))).
    cbn [fst snd].
    set (tail := join _ (List.map _ (y :: members))).
    replace (ws ++ ((QuoteJSONString k ++ [58; 32] ++ SerializeJSONProperty indent x)
                    ++ ([44; 10] ++ indent) ++ tail)
                ++ 10 :: stepback ++ 125 :: rest)
      with (ws ++ (QuoteJSONString k ++ [58; 32] ++ SerializeJSONProperty indent x)
               ++ 44 :: (10 :: indent) ++ tail ++ 10 :: stepback ++ 125 :: rest)
      by (rewrite <- !app_assoc; reflexivity).
    destruct (@parse_member parse_item indent ws k _ x Hx Hws
                (@ends_number_head 44
                   ((10 :: indent) ++ tail ++ 10 :: stepback ++ 125 :: rest)
                   (or_intror eq_refl)))
      as (r0 & E0 & r1 & E1 & r2 & E2 & E3).
    cbn [parse_members]. rewrite E0. cbn [N.eqb Pos.eqb].
    rewrite E1, E2. cbn [N.eqb Pos.eqb]. rewrite E3.
    cbn [skip_ws is_ws N.eqb Pos.eqb orb].
    unfold tail.
    rewrite IH; [reflexivity|discriminate|simpl in Hfuel |- *; lia|].
    cbn [forallb]. now rewrite Hind.
Qed.

Lemma parse_value_array (fuel : nat) (s r : jsstring) :
  skip_ws s = 91 :: r ->
  parse_value (S fuel) s
  = match skip_ws r with
    | c' :: r' =>
        if c' =? 93 then Some (VArray [], r')
        else
          match parse_elements (parse_value fuel) fuel r with
          | Some (vs, r'') => Some (VArray vs, r'')
          | None => None
          end
    | [] => None
    end.
Proof. intros H. cbn [parse_value]. rewrite H. reflexivity. Qed.

Lemma parse_value_object (fuel : nat) (s r : jsstring) :
  skip_ws s = 123 :: r ->
  parse_value (S fuel) s
  = match skip_ws r with
    | c' :: r' =>
        if c' =? 125 then Some (VObject [], r')
        else
          match parse_members (parse_value fuel) fuel r with
          | Some (kvs, r'') =>
              Some (VObject
                      (fold_left
                         (fun o kv => CreateDataProperty o (fst kv) (snd kv))
                         kvs []), r'')
          | None => None
          end
    | [] => None
    end.
Proof. intros H. cbn [parse_value]. rewrite H. reflexivity. Qed.

Lemma bracketed_text (opening closing : code_unit) (indent rest p : jsstring)
  (parts : list jsstring) :
  bracketed opening closing indent (p :: parts) ++ rest
  = opening :: (10 :: indent ++ gap)
      ++ join ([44; 10] ++ indent ++ gap) (p :: parts)
      ++ 10 :: indent ++ closing :: rest.
Proof.
  unfold bracketed. cbn [app]. rewrite <- !app_assoc. cbn [app].
  rewrite <- !app_assoc. reflexivity.
Qed.

Lemma join_cons (sep p : jsstring) (parts : list jsstring) :
  exists t, join sep (p :: parts) = p ++ t.
Proof.
  destruct parts as [|q parts].
  - exists []. cbn [join]. now rewrite app_nil_r.
  - eexists. reflexivity.
Qed.

Lemma skip_ws_join (ws sep p T t : jsstring) (parts : list jsstring) (c : code_unit) :
  forallb is_ws ws = true -> p = c :: t -> is_ws c = false ->
  exists r, skip_ws (ws ++ join sep (p :: parts) ++ T) = c :: r.
Proof.
  intros Hws -> Hc. rewrite (skip_ws_app _ _ Hws).
  destruct (join_cons sep (c :: t) parts) as (tl & ->).
  cbn [app]. eexists. now apply skip_ws_head.
Qed.

Lemma forallb_is_ws_indent (indent : jsstring) :
  forallb is_ws indent = true -> forallb is_ws (10 :: indent ++ gap) = true.
Proof.
  intros H. cbn [forallb]. rewrite forallb_app, H. reflexivity.
Qed.

(** The text of a value at any indentation reads back as the value. *)
Lemma parse_value_Serialize (v : value number) :
  is_json v = true ->
  forall fuel indent,
    (size v <= fuel)%nat -> forallb is_ws indent = true ->
    reads_back (parse_value fuel) indent v.
Proof.
  induction v as [|b|n|s|items IH|members IH] using value_ind;
    intros Hj fuel indent Hfuel Hind ws rest Hws Hrest;
    (destruct fuel as [|fuel]; [simpl in Hfuel; lia|]).
  - cbn [parse_value]. rewrite (@skip_ws_Serialize ws indent rest VNull Hj Hws).
    reflexivity.
  - cbn [parse_value]. rewrite (@skip_ws_Serialize ws indent rest (VBool b) Hj Hws).
    destruct b; reflexivity.
  - cbn [parse_value]. rewrite (@skip_ws_Serialize ws indent rest (VNumber n) Hj Hws).
    cbn [SerializeJSONProperty is_json] in *.
    apply andb_true_iff in Hj as [Hj Hzero]. apply negb_true_iff in Hzero.
    rewrite Hj.
    pose proof (Number_toString_token n Hj) as Htok.
    destruct (@scan_number_head _ _ _ Htok) as (c & t & Et & Hc).
    rewrite (@scan_number_app _ rest _ _ Htok Hrest).
    rewrite (Number_toString_read n Hj Hzero).
    rewrite Et. cbn [app].
    change (js "null") with [110; 117; 108; 108].
    change (js "true") with [116; 114; 117; 101].
    change (js "false") with [102; 97; 108; 115; 101].
    cbn [strip_prefix]. unfold is_digit in Hc |- *. revert Hc.
    split_ranges; cbv beta iota delta [andb orb]; intros; try discriminate;
      reflexivity.
  - cbn [parse_value]. rewrite (@skip_ws_Serialize ws indent rest (VString s) Hj Hws).
    cbn [SerializeJSONProperty].
    destruct (parse_chars_QuoteJSONString s rest) as (t & -> & Ht).
    change (js "null") with [110; 117; 108; 108].
    change (js "true") with [116; 114; 117; 101].
    change (js "false") with [102; 97; 108; 115; 101].
    cbn [strip_prefix N.eqb Pos.eqb]. now rewrite Ht.
  - destruct items as [|x items].
    { cbn [parse_value].
      rewrite (@skip_ws_Serialize ws indent rest (VArray []) Hj Hws).
      reflexivity. }
    pose proof (@skip_ws_Serialize ws indent rest (VArray (x :: items)) Hj Hws) as Hs.
    cbn [SerializeJSONProperty List.map] in Hs |- *.
    rewrite bracketed_text in Hs |- *.
    rewrite (parse_value_array fuel _ Hs). clear Hs.
    cbn [is_json] in Hj. cbn [size] in Hfuel.
    assert (Hitems : Forall (reads_back (parse_value fuel) (indent ++ gap)) (x :: items)).
    { apply Forall_forall. intros y Hy.
      apply (proj1 (Forall_forall _ _) IH y Hy).
      - apply (proj1 (forallb_forall _ _) Hj y Hy).
      - pose proof (list_sum_ge_member size (x :: items) y Hy). lia.
      - rewrite forallb_app, Hind. reflexivity. }
    destruct (@Serialize_head (indent ++ gap) x) as (c & t & Ex & Hc & H93 & _).
    { cbn [forallb] in Hj. now apply andb_true_iff in Hj as [Hx _]. }
    destruct (@skip_ws_join (10 :: indent ++ gap) ([44; 10] ++ indent ++ gap)
                _ (10 :: indent ++ 93 :: rest) t
                (List.map (SerializeJSONProperty (indent ++ gap)) items) c
                (forallb_is_ws_indent _ Hind) Ex Hc) as (r' & Er).
    change (SerializeJSONProperty (indent ++ gap) x
            :: List.map (SerializeJSONProperty (indent ++ gap)) items)
      with (List.map (SerializeJSONProperty (indent ++ gap)) (x :: items)) in *.
    rewrite Er, H93.
    rewrite (@parse_elements_join (parse_value fuel) (indent ++ gap) indent rest
               (x :: items)); [reflexivity|discriminate| |exact Hind|exact Hitems| |].
    + rewrite forallb_app, Hind. reflexivity.
    + pose proof (list_sum_ge_length size (x :: items) (@size_positive number)).
      lia.
    + now apply forallb_is_ws_indent.
  - destruct members as [|[k x] members].
    { cbn [parse_value].
      rewrite (@skip_ws_Serialize ws indent rest (VObject []) Hj Hws).
      reflexivity. }
    pose proof (@skip_ws_Serialize ws indent rest (VObject ((k, x) :: members)) Hj Hws)
      as Hs.
    cbn [SerializeJSONProperty List.map] in Hs |- *.
    rewrite bracketed_text in Hs |- *.
    rewrite (parse_value_object fuel _ Hs). clear Hs.
    cbn [is_json] in Hj. apply andb_true_iff in Hj as [Hkeys Hj].
    cbn [size] in Hfuel.
    assert (Hmembers : Forall (fun kv => reads_back (parse_value fuel) (indent ++ gap) (snd kv))
                              ((k, x) :: members)).
    { apply Forall_forall. intros y Hy.
      apply (proj1 (Forall_forall _ _) IH y Hy).
      - apply (proj1 (forallb_forall _ _) Hj y Hy).
      - pose proof (list_sum_ge_member (fun kv => size (snd kv)) ((k, x) :: members) y Hy).
        lia.
      - rewrite forallb_app, Hind. reflexivity. }
    destruct (@skip_ws_join (10 :: indent ++ gap) ([44; 10] ++ indent ++ gap)
                (QuoteJSONString (fst (k, x)) ++ [58; 32]
                 ++ SerializeJSONProperty (indent ++ gap) (snd (k, x)))
                (10 :: indent ++ 125 :: rest)
                (quote_units k ++ [34] ++ [58; 32]
                 ++ SerializeJSONProperty (indent ++ gap) x)
                (List.map
                   (fun kv => QuoteJSONString (fst kv) ++ [58; 32]
                              ++ SerializeJSONProperty (indent ++ gap) (snd kv))
                   members) 34
                (forallb_is_ws_indent _ Hind)) as (r' & Er).
    { unfold QuoteJSONString. cbn [app fst snd]. now rewrite <- app_assoc. }
    { reflexivity. }
    change ((QuoteJSONString (fst (k, x)) ++ [58; 32]
             ++ SerializeJSONProperty (indent ++ gap) (snd (k, x)))
            :: List.map
                 (fun kv => QuoteJSONString (fst kv) ++ [58; 32]
                            ++ SerializeJSONProperty (indent ++ gap) (snd kv))
                 members)
      with (List.map
              (fun kv => QuoteJSONString (fst kv) ++ [58; 32]
                         ++ SerializeJSONProperty (indent ++ gap) (snd kv))
              ((k, x) :: members)) in *.
    rewrite Er. cbn [N.eqb Pos.eqb].
    rewrite (@parse_members_join (parse_value fuel) (indent ++ gap) indent rest
               ((k, x) :: members));
      [|discriminate| |exact Hind|exact Hmembers| |].
    + rewrite (fold_CreateDataProperty ((k, x) :: members) [] Hkeys). reflexivity.
    + rewrite forallb_app, Hind. reflexivity.
    + pose proof (list_sum_ge_length (fun kv => size (snd kv)) ((k, x) :: members)
                    (fun kv => @size_positive number (snd kv))).
      lia.
    + now apply forallb_is_ws_indent.
Qed.

(** [JSON.parse] needs no more fuel than the text has characters. *)
Lemma length_join_ge (sep : jsstring) (parts : list jsstring) :
  (list_sum (List.map (@List.length N) parts) <= List.length (join sep parts))%nat.
Proof.
  induction parts as [|p parts IH]; [simpl; lia|].
  destruct parts as [|q parts]; [simpl; lia|].
  change (join sep (p :: q :: parts)) with (p ++ sep ++ join sep (q :: parts)).
  rewrite !length_app. cbn [List.map list_sum fold_right] in IH |- *. lia.
Qed.

Lemma length_bracketed (opening closing : code_unit) (indent : jsstring)
  (parts : list jsstring) :
  (S (list_sum (List.map (@List.length N) parts))
   <= List.length (bracketed opening closing indent parts))%nat.
Proof.
  destruct parts as [|p parts]; [simpl; lia|].
  pose proof (length_join_ge ([44; 10] ++ indent ++ gap) (p :: parts)).
  unfold bracketed. rewrite !length_app. cbn [List.length]. lia.
Qed.

Lemma list_sum_le {A : Type} (f g : A -> nat) (l : list A) :
  Forall (fun x => f x <= g x)%nat l ->
  (list_sum (List.map f l) <= list_sum (List.map g l))%nat.
Proof.
  induction 1 as [|x l Hx Hl IH]; unfold list_sum in *;
    cbn [List.map fold_right] in *; lia.
Qed.

Lemma size_le_length (indent : jsstring) (v : value number) :
  is_json v = true ->
  (size v <= List.length (SerializeJSONProperty indent v))%nat.
Proof.
  revert indent.
  induction v as [|b|n|s|items IH|members IH] using value_ind; intros indent Hj.
  - simpl. lia.
  - destruct b; simpl; lia.
  - destruct (@Serialize_head indent (VNumber n) Hj) as (c & t & -> & _).
    simpl. lia.
  - simpl. lia.
  - cbn [SerializeJSONProperty size is_json] in *.
    etransitivity; [|apply length_bracketed]. apply le_n_S.
    rewrite map_map. apply list_sum_le.
    apply Forall_forall. intros x Hx.
    apply (proj1 (Forall_forall _ _) IH x Hx).
    apply (proj1 (forallb_forall _ _) Hj x Hx).
  - cbn [SerializeJSONProperty size is_json] in *.
    apply andb_true_iff in Hj as [_ Hj].
    etransitivity; [|apply length_bracketed]. apply le_n_S.
    rewrite map_map. apply list_sum_le.
    apply Forall_forall. intros x Hx. rewrite !length_app.
    pose proof (proj1 (Forall_forall _ _) IH x Hx (indent ++ gap)
                  (proj1 (forallb_forall _ _) Hj x Hx)).
    lia.
Qed.

(** Parsing the text that [JSON.stringify(v, null, 2)] prints gives [v]
    back. *)
Lemma JSON_parse_stringify (v : value number) :
  is_json v = true -> JSON_parse (JSON_stringify v) = Some v.
Proof.
  intros Hj. unfold JSON_parse, JSON_stringify.
  pose proof (@parse_value_Serialize v Hj
                (S (List.length (SerializeJSONProperty [] v))) []
                (Nat.le_trans _ _ _ (size_le_length [] v Hj) (Nat.le_succ_diag_r _))
                eq_refl [] [] eq_refl I) as H.
  cbn [app] in H. rewrite app_nil_r in H. rewrite H. reflexivity.
Qed.

(** A number that is not finite prints as [null]: such a number, which an
    overflowing literal reads as, is no JSON value and does not come
    back. *)
Lemma stringify_not_finite (n : number) :
  Number_isFinite n = false ->
  JSON_stringify (VNumber n) = js "null" /\ is_json (VNumber n) = false.
Proof.
  intros H. unfold JSON_stringify.
  cbn [SerializeJSONProperty is_json]. unfold plain_number.
  rewrite H. split; reflexivity.
Qed.


End RoundTrip.

(** ** Decimal numerals *)

Lemma digits_value_app (a b : jsstring) (acc : N) :
  digits_value (a ++ b) acc = digits_value b (digits_value a acc).
Proof. revert acc; induction a as [|c a IH]; intros acc; simpl; [reflexivity|apply IH]. Qed.

(** What [decimal_digits] puts in front of [acc]: digits, the first of
    which is not [0], whose value is [n]. *)
Lemma decimal_digits_spec (fuel : nat) (n : N) (acc : jsstring) :
  n < 2 ^ N.of_nat fuel -> n <> 0 ->
  exists c ds,
    decimal_digits fuel n acc = (c :: ds) ++ acc
    /\ forallb is_digit (c :: ds) = true
    /\ (c =? 48) = false
    /\ forall a, digits_value (c :: ds) a
                 = a * 10 ^ N.of_nat (List.length (c :: ds)) + n.
Proof.
  revert n acc; induction fuel as [|fuel IH]; intros n acc Hn H0.
  - simpl in Hn. lia.
  - cbn [decimal_digits].
    assert (Hd : n mod 10 < 10) by (apply N.mod_lt; div_mod_lia).
    pose proof (N.div_mod n 10 ltac:(div_mod_lia)) as Hdm.
    destruct (N.eqb_spec (n / 10) 0) as [Hq|Hq].
    + exists (48 + n mod 10), []. repeat split.
      * unfold is_digit. cbn [forallb].
        replace (48 <=? 48 + n mod 10) with true by (symmetry; apply N.leb_le; div_mod_lia).
        replace (48 + n mod 10 <=? 57) with true by (symmetry; apply N.leb_le; div_mod_lia).
        reflexivity.
      * apply N.eqb_neq. div_mod_lia.
      * intros a. cbn [digits_value List.length].
        change (10 ^ N.of_nat 1) with 10. div_mod_lia.
    + assert (Hn' : n / 10 < 2 ^ N.of_nat fuel).
      { rewrite Nat2N.inj_succ, N.pow_succ_r' in Hn.
        apply N.Div0.div_lt_upper_bound. lia. }
      destruct (IH (n / 10) ((48 + n mod 10) :: acc) Hn' Hq)
        as (c & ds & E & Hall & Hc & Hv).
      exists c, (ds ++ [48 + n mod 10]). repeat split.
      * rewrite E. cbn [app]. now rewrite <- app_assoc.
      * change (c :: ds ++ [48 + n mod 10]) with ((c :: ds) ++ [48 + n mod 10]).
        rewrite forallb_app, Hall. unfold is_digit. cbn [forallb].
        assert (L1 : (48 <=? 48 + n mod 10) = true) by (apply N.leb_le; clear - Hd; div_mod_lia).
        assert (L2 : (48 + n mod 10 <=? 57) = true) by (apply N.leb_le; clear - Hd; div_mod_lia).
        rewrite L1, L2. reflexivity.
      * exact Hc.
      * intros a.
        change (c :: ds ++ [48 + n mod 10]) with ((c :: ds) ++ [48 + n mod 10]).
        rewrite digits_value_app, Hv, length_app.
        set (L := List.length (c :: ds)).
        change (List.length [48 + n mod 10]) with 1%nat.
        cbn [digits_value].
        rewrite Nat.add_1_r, Nat2N.inj_succ, N.pow_succ_r'.
        set (k := 10 ^ N.of_nat L). clearbody k.
        replace (48 + n mod 10 - 48) with (n mod 10) by div_mod_lia.
        div_mod_lia.
Qed.

Lemma decimal_spec (n : N) :
  n <> 0 ->
  exists c ds,
    decimal n = c :: ds
    /\ forallb is_digit (c :: ds) = true
    /\ (c =? 48) = false
    /\ digits_value (c :: ds) 0 = n.
Proof.
  intros H0. unfold decimal.
  destruct (@decimal_digits_spec (S (N.to_nat (N.log2 n))) n [])
    as (c & ds & E & Hall & Hc & Hv); [|exact H0|].
  - rewrite Nat2N.inj_succ, N2Nat.id. apply N.log2_spec. lia.
  - exists c, ds. rewrite E, app_nil_r. repeat split; try assumption.
    now rewrite Hv.
Qed.

Lemma span_digits_all (ds : jsstring) :
  forallb is_digit ds = true -> span_digits ds = (ds, []).
Proof.
  induction ds as [|c ds IH]; [reflexivity|]. cbn [forallb span_digits].
  intros H. apply andb_true_iff in H as [-> H]. now rewrite (IH H).
Qed.

(** ** The decimal numbers of the closed examples *)

Lemma is_digit_codes (c : N) :
  is_digit c = true ->
  (c =? 45) = false /\ (c =? 46) = false /\ (c =? 101) = false
  /\ (c =? 69) = false.
Proof.
  unfold is_digit. intros H. apply andb_true_iff in H as [H1 H2].
  apply N.leb_le in H1. apply N.leb_le in H2.
  repeat split; apply N.eqb_neq; lia.
Qed.

Lemma span_digits_stop (ds : jsstring) (c : N) (r : jsstring) :
  forallb is_digit ds = true -> is_digit c = false ->
  span_digits (ds ++ c :: r) = (ds, c :: r).
Proof.
  intros Hall Hc. induction ds as [|d ds IH].
  - cbn [app span_digits]. now rewrite Hc.
  - cbn [forallb] in Hall. apply andb_true_iff in Hall as [Hd Hall].
    cbn [app span_digits]. now rewrite Hd, (IH Hall).
Qed.

Lemma forallb_repeat_zero (m : nat) : forallb is_digit (repeat 48 m) = true.
Proof. induction m as [|m IH]; [reflexivity|]. cbn [repeat forallb]. now rewrite IH. Qed.

Lemma drop_zeros_repeat (m : nat) (s : jsstring) :
  drop_zeros (repeat 48 m ++ s) = drop_zeros s.
Proof. induction m as [|m IH]; [reflexivity|]. cbn [repeat app drop_zeros]. exact IH. Qed.

Lemma rev_repeat_zero (m : nat) : rev (repeat 48 m) = repeat 48 m.
Proof.
  induction m as [|m IH]; [reflexivity|].
  cbn [repeat rev]. rewrite IH. clear IH.
  induction m as [|m IH]; [reflexivity|]. cbn [repeat app]. now rewrite IH.
Qed.

Lemma forallb_firstn (A : Type) (f : A -> bool) (m : nat) (l : list A) :
  forallb f l = true -> forallb f (firstn m l) = true.
Proof.
  revert l; induction m as [|m IH]; intros [|x l]; cbn [firstn forallb];
    try reflexivity.
  intros H. apply andb_true_iff in H as [-> H]. now apply IH.
Qed.

Lemma forallb_skipn (A : Type) (f : A -> bool) (m : nat) (l : list A) :
  forallb f l = true -> forallb f (skipn m l) = true.
Proof.
  revert l; induction m as [|m IH]; intros [|x l]; cbn [skipn forallb];
    try reflexivity; try (intros H; exact H).
  intros H. apply andb_true_iff in H as [_ H]. now apply IH.
Qed.

(** Canonical digits: a first digit other than [0], digits only, and a
    last digit other than [0]. *)
Lemma canonical_inv (d : jsstring) :
  canonical d = true ->
  exists a b, d = a :: b /\ is_digit a = true /\ (a =? 48) = false
              /\ forallb is_digit b = true
              /\ exists z t, rev d = z :: t /\ (z =? 48) = false.
Proof.
  unfold canonical. destruct d as [|a b]; [discriminate|]. intros H.
  apply andb_true_iff in H as [H Hlast].
  apply andb_true_iff in H as [Hall Ha].
  apply negb_true_iff in Ha, Hlast.
  cbn [forallb] in Hall. apply andb_true_iff in Hall as [Hda Hall].
  exists a, b. repeat split; try assumption.
  assert (Hne : a :: b <> []) by discriminate.
  exists (last (a :: b) 0), (rev (removelast (a :: b))).
  split; [|assumption].
  pose proof (app_removelast_last 0 Hne) as E.
  set (l := a :: b) in *. clearbody l. rewrite E at 1.
  now rewrite rev_app_distr.
Qed.

(** The number of a run of digits that holds canonical digits between
    zeros. *)
Lemma jsnumber_of_decimal_canonical (negative : bool) (d : jsstring)
  (lead trail : nat) (point : Z) :
  canonical d = true ->
  jsnumber_of_decimal negative (repeat 48 lead ++ d ++ repeat 48 trail) point
  = match magnitude_of d (point - Z.of_nat lead) with
    | Overflow => Infinity negative
    | Underflow => Zero negative
    | InRange => Decimal negative d (point - Z.of_nat lead)
    end.
Proof.
  intros Hc.
  destruct (canonical_inv _ Hc) as (a & b & Ed & Hda & Ha & Hb & z & t & Er & Hz).
  unfold jsnumber_of_decimal.
  rewrite drop_zeros_repeat.
  assert (E1 : drop_zeros (d ++ repeat 48 trail) = d ++ repeat 48 trail).
  { rewrite Ed. cbn [app drop_zeros]. now rewrite Ha. }
  rewrite E1.
  rewrite rev_app_distr, rev_repeat_zero, drop_zeros_repeat.
  assert (E2 : drop_zeros (rev d) = rev d).
  { rewrite Er. cbn [drop_zeros]. now rewrite Hz. }
  rewrite E2, rev_involutive.
  replace (Z.of_nat (List.length (repeat 48 lead ++ d ++ repeat 48 trail)
                     - List.length (d ++ repeat 48 trail)))
    with (Z.of_nat lead).
  2:{ rewrite (length_app (repeat 48 lead)), repeat_length. f_equal. lia. }
  rewrite Ed at 1. reflexivity.
Qed.

Lemma scan_exp_decimal (negative : bool) (x : N) :
  x <> 0 ->
  let e := [101] ++ (if negative then [45] else [43]) ++ decimal x in
  scan_exp e = Some (e, [])
  /\ exponent_value e = (if negative then - Z.of_N x else Z.of_N x)%Z
  /\ span_digits e = ([], e) /\ scan_frac e = Some ([], e).
Proof.
  intros Hx e. subst e.
  destruct (decimal_spec Hx) as (c & ds & E & Hall & Hc & Hv).
  rewrite E. repeat split.
  - destruct negative; cbn [app scan_exp]; 
      change (101 =? 101) with true; cbn [orb];
      [change (45 =? 43) with false; change (45 =? 45) with true
      |change (43 =? 43) with true]; cbn [orb];
      rewrite (span_digits_all _ Hall); reflexivity.
  - assert (H := Hall). cbn [forallb] in H. apply andb_true_iff in H as [Hd _].
    destruct (is_digit_codes _ Hd) as (H45 & _).
    destruct negative; cbn [app exponent_value];
      [change (45 =? 45) with true
      |change (43 =? 45) with false; change (43 =? 43) with true];
      cbv iota; now rewrite Hv.
Qed.

Lemma digits_toString_token (d : jsstring) (n : Z) :
  canonical d = true ->
  exists i f e lead trail,
    token_parts (digits_toString d n) i f e
    /\ i ++ tl f = repeat 48 lead ++ d ++ repeat 48 trail
    /\ (Z.of_nat (List.length i) + exponent_value e - Z.of_nat lead = n)%Z.
Proof.
  intros Hc.
  destruct (canonical_inv _ Hc) as (a & b & Ed & Hda & Ha & Hb & _).
  assert (Hall : forallb is_digit d = true).
  { rewrite Ed. cbn [forallb]. now rewrite Hda, Hb. }
  unfold digits_toString.
  destruct ((-5 <=? n)%Z && (n <=? 21)%Z) eqn:Hplain.
  - apply andb_true_iff in Hplain as [Hlo Hhi].
    apply Z.leb_le in Hlo. apply Z.leb_le in Hhi.
    destruct (Z.leb_spec (Z.of_nat (List.length d)) n) as [Hk|Hk].
    + (* the digits, then zeros *)
      exists (d ++ zeros (n - Z.of_nat (List.length d))), [], [], 0%nat,
             (Z.to_nat (n - Z.of_nat (List.length d))).
      unfold token_parts, zeros. cbn [app tl repeat exponent_value].
      rewrite !app_nil_r. repeat split.
      * rewrite Ed. cbn [app scan_int]. rewrite Ha, Hda.
        rewrite span_digits_all; [reflexivity|].
        now rewrite forallb_app, Hb, forallb_repeat_zero.
      * rewrite length_app, repeat_length. lia.
    + destruct (Z.ltb_spec 0 n) as [Hn|Hn].
      * (* a point inside the digits *)
        exists (firstn (Z.to_nat n) d), (46 :: skipn (Z.to_nat n) d), [],
               0%nat, 0%nat.
        unfold token_parts. cbn [app tl repeat exponent_value].
        rewrite !app_nil_r.
        assert (Hm : (0 < Z.to_nat n < List.length d)%nat) by lia.
        destruct (Z.to_nat n) as [|m] eqn:Em; [lia|].
        assert (Hskip : exists x y, skipn (S m) d = x :: y).
        { destruct (skipn (S m) d) as [|x y] eqn:E; [|now exists x, y].
          pose proof (length_skipn (S m) d) as L. rewrite E in L.
          cbn [List.length] in L. lia. }
        destruct Hskip as (x & y & Eskip).
        pose proof (forallb_skipn is_digit (S m) d Hall) as Hsk.
        repeat split.
        -- rewrite Ed. cbn [firstn app scan_int]. rewrite Ha, Hda.
           rewrite span_digits_stop; [reflexivity| |reflexivity].
           now apply forallb_firstn.
        -- cbn [scan_frac]. change (46 =? 46) with true. cbv iota.
           rewrite (span_digits_all _ Hsk), Eskip. reflexivity.
        -- apply firstn_skipn.
        -- rewrite length_firstn. lia.
      * (* zeros after the point, then the digits *)
        exists [48], (46 :: zeros (- n) ++ d), [], (S (Z.to_nat (- n))), 0%nat.
        unfold token_parts, zeros. cbn [app tl repeat exponent_value List.length].
        rewrite !app_nil_r. repeat split.
        -- cbn [scan_frac]. change (46 =? 46) with true. cbv iota.
           rewrite span_digits_all
             by now rewrite forallb_app, forallb_repeat_zero, Hall.
           destruct (repeat 48 (Z.to_nat (- n)) ++ d) eqn:E; [|reflexivity].
           apply app_eq_nil in E as [_ E]. rewrite Ed in E. discriminate.
        -- lia.
  - (* with an exponent *)
    assert (Hn : (n < -5 \/ 21 < n)%Z).
    { apply andb_false_iff in Hplain as [H|H]; apply Z.leb_gt in H; lia. }
    set (x := Z.to_N (Z.abs (n - 1))).
    assert (Hx : x <> 0) by (subst x; lia).
    destruct (scan_exp_decimal (n <? 0)%Z Hx) as (Hexp & Hval & Hspan & Hfrac).
    set (e := [101] ++ (if (n <? 0)%Z then [45] else [43]) ++ decimal x) in *.
    assert (Hpoint : (1 + exponent_value e = n)%Z).
    { rewrite Hval. subst x. destruct (Z.ltb_spec n 0); lia. }
    rewrite Ed. destruct b as [|b1 b2].
    + exists [a], [], e, 0%nat, 0%nat. unfold token_parts.
      cbn [app tl repeat List.length]. repeat split; try assumption.
      * cbn [scan_int]. now rewrite Ha, Hda, Hspan.
      * cbn [Z.of_nat]. lia.
    + exists [a], (46 :: b1 :: b2), e, 0%nat, 0%nat. unfold token_parts.
      cbn [app tl repeat List.length]. rewrite app_nil_r.
      repeat split; try assumption.
      * cbn [scan_int]. now rewrite Ha, Hda.
      * cbn [scan_frac]. change (46 =? 46) with true. cbv iota.
        change (b1 :: b2 ++ e)
          with ((b1 :: b2)
                ++ 101 :: ((if (n <? 0)%Z then [45] else [43]) ++ decimal x)).
        rewrite (@span_digits_stop (b1 :: b2) _ _ Hb); reflexivity.
      * cbn [Z.of_nat]. lia.
Qed.

Lemma scan_int_head (s i r : jsstring) :
  scan_int s = Some (i, r) -> exists c t, s = c :: t /\ (c =? 45) = false.
Proof.
  destruct s as [|c t]; [discriminate|]. cbn [scan_int]. intros H.
  exists c, t. split; [reflexivity|].
  destruct (N.eqb_spec c 48) as [->|_]; [reflexivity|].
  destruct (is_digit c) eqn:Hd; [|discriminate].
  now destruct (is_digit_codes _ Hd).
Qed.

(** The text of a number token, with or without a sign, is read as the
    token says. *)
Lemma token_parts_read (negative : bool) (text i f e : jsstring) :
  token_parts text i f e ->
  let tok := (if negative then [45] else []) ++ text in
  scan_number tok = Some (tok, [])
  /\ jsnumber_StringToNumber tok
     = jsnumber_of_decimal negative (i ++ tl f)
         (Z.of_nat (List.length i) + exponent_value e).
Proof.
  intros (Etext & Hi & Hf & He) tok. subst tok.
  destruct (scan_int_head _ Hi) as (c & t & Ect & H45).
  unfold scan_number, jsnumber_StringToNumber.
  destruct negative; cbn [app].
  - change (45 =? 45) with true. cbv iota. rewrite Hi, Hf, He.
    split; [|reflexivity]. now rewrite Etext.
  - rewrite Ect, H45. rewrite <- Ect, Hi, Hf, He.
    split; [|reflexivity]. now rewrite Etext.
Qed.

(** The decimal numbers satisfy the laws of numbers. *)
Lemma jsnumber_laws : NumberLaws jsnumber_ops.
Proof.
  split; intros x Hfin;
    cbn [Number_toString Number_isFinite Number_isNegativeZero StringToNumber
         jsnumber_ops] in *.
  - destruct x as [|neg|neg|neg d n]; try discriminate; [reflexivity|].
    unfold jsnumber_toString. rewrite Hfin.
    cbn [jsnumber_isFinite] in Hfin. apply andb_true_iff in Hfin as [Hc _].
    destruct (@digits_toString_token d n Hc) as (i & f & e & lead & trail & Hparts & _).
    apply (token_parts_read neg Hparts).
  - intros Hzero.
    destruct x as [|neg|neg|neg d n]; try discriminate.
    + destruct neg; [discriminate|reflexivity].
    + unfold jsnumber_toString. rewrite Hfin.
      cbn [jsnumber_isFinite] in Hfin. apply andb_true_iff in Hfin as [Hc Hr].
      destruct (@digits_toString_token d n Hc)
        as (i & f & e & lead & trail & Hparts & Hm & Hp).
      rewrite (proj2 (token_parts_read neg Hparts)), Hm.
      rewrite (@jsnumber_of_decimal_canonical neg d lead trail _ Hc), Hp.
      destruct (magnitude_of d n); try discriminate. reflexivity.
Qed.

(** ** Array indices *)

Lemma digits_value_ge (s : jsstring) (acc : N) : acc <= digits_value s acc.
Proof.
  revert acc; induction s as [|c s IH]; intros acc; cbn [digits_value]; [lia|].
  specialize (IH (10 * acc + (c - 48))). lia.
Qed.

Lemma digits_value_snoc (s : jsstring) (d acc : N) :
  digits_value (s ++ [d]) acc = 10 * digits_value s acc + (d - 48).
Proof. now rewrite digits_value_app. Qed.

Lemma no_leading_zero_value (s : jsstring) :
  no_leading_zero s -> forallb is_digit s = true -> digits_value s 0 = 0 ->
  s = [].
Proof.
  destruct s as [|c s]; [reflexivity|]. cbn [no_leading_zero forallb digits_value].
  intros Hc Hd Hv. apply andb_true_iff in Hd as [Hd _].
  unfold is_digit in Hd. apply andb_true_iff in Hd as [Hd _]. apply N.leb_le in Hd.
  pose proof (digits_value_ge s (10 * 0 + (c - 48))). lia.
Qed.

Lemma no_leading_zero_prefix (a : jsstring) (d : N) :
  no_leading_zero (a ++ [d]) -> no_leading_zero a.
Proof. destruct a; simpl; tauto. Qed.

Lemma digits_value_inj (a b : jsstring) :
  no_leading_zero a -> no_leading_zero b ->
  forallb is_digit a = true -> forallb is_digit b = true ->
  digits_value a 0 = digits_value b 0 -> a = b.
Proof.
  revert b; induction a as [|d a IH] using rev_ind; intros b Ha Hb Da Db Hv.
  - symmetry. apply no_leading_zero_value; auto.
  - destruct b as [|e b _] using rev_ind.
    + apply no_leading_zero_value; auto.
    + rewrite !digits_value_snoc in Hv.
      rewrite forallb_app in Da, Db. cbn [forallb] in Da, Db.
      apply andb_true_iff in Da as [Da Dd]. apply andb_true_iff in Db as [Db De].
      rewrite andb_true_r in Dd, De. unfold is_digit in Dd, De.
      apply andb_true_iff in Dd as [Dd1 Dd2]. apply andb_true_iff in De as [De1 De2].
      apply N.leb_le in Dd1, Dd2, De1, De2.
      assert (d = e) by lia. subst e.
      f_equal. apply IH; eauto using no_leading_zero_prefix. lia.
Qed.

(** An array index has one spelling. *)
Lemma array_index_inj (k k' : jsstring) (i : N) :
  array_index k = Some i -> array_index k' = Some i -> k = k'.
Proof.
  assert (H : forall k i, array_index k = Some i ->
                forallb is_digit k = true /\ digits_value k 0 = i
                /\ (k = [48] \/ (k <> [] /\ no_leading_zero k))).
  { clear. intros [|c r] i; [discriminate|]. unfold array_index.
    destruct (forallb is_digit (c :: r)) eqn:Hd; [|discriminate].
    destruct (N.eqb_spec c 48) as [->|Hc]; cbn [negb orb andb].
    - destruct r; [|discriminate]. cbn. intros H. injection H as <-. auto.
    - destruct (_ <=? _)%nat; [|discriminate].
      destruct (_ <=? 4294967294); [|discriminate].
      intros H. injection H as <-. repeat split. right. split; [discriminate|exact Hc]. }
  intros Hk Hk'.
  destruct (H _ _ Hk) as (Dk & Vk & Ck). destruct (H _ _ Hk') as (Dk' & Vk' & Ck').
  destruct Ck as [->|[Nk Lk]], Ck' as [->|[Nk' Lk']].
  - reflexivity.
  - rewrite <- Vk in Vk'. now destruct (Nk' (no_leading_zero_value _ Lk' Dk' Vk')).
  - rewrite <- Vk' in Vk. now destruct (Nk (no_leading_zero_value _ Lk Dk Vk)).
  - apply digits_value_inj; auto. congruence.
Qed.

(** ** Keys in enumeration order *)

Lemma key_in_order_spec (before : list jsstring) (k : jsstring) :
  key_in_order before k = true
  <-> ~ In k before
      /\ forall i, array_index k = Some i ->
                   forall k', In k' before ->
                              exists j, array_index k' = Some j /\ j < i.
Proof.
  unfold key_in_order. rewrite andb_true_iff, negb_true_iff. split.
  - intros [Hnew Hidx]. split.
    + intros Hin. apply not_true_iff_false in Hnew. apply Hnew.
      apply existsb_exists. exists k. split; [exact Hin|apply str_eqb_refl].
    + intros i Hi k' Hk'. rewrite Hi in Hidx.
      pose proof (proj1 (forallb_forall _ _) Hidx k' Hk') as H.
      cbv beta in H. destruct (array_index k') as [j|]; [|discriminate].
      exists j. split; [reflexivity|now apply N.ltb_lt].
  - intros [Hnew Hidx]. split.
    + apply not_true_iff_false. intros H. apply existsb_exists in H as (x & Hx & E).
      apply str_eqb_eq in E. now subst x.
    + destruct (array_index k) as [i|]; [|reflexivity].
      apply forallb_forall. intros k' Hk'.
      destruct (Hidx i eq_refl k' Hk') as (j & -> & Hj). now apply N.ltb_lt.
Qed.

Lemma key_in_order_ext (b b' : list jsstring) (k : jsstring) :
  (forall x, In x b <-> In x b') -> key_in_order b k = key_in_order b' k.
Proof.
  intros H. apply eq_true_iff_eq. rewrite !key_in_order_spec.
  split; intros [Hnew Hidx]; (split; [rewrite H in *|]; try rewrite <- H in *; auto).
  - intros i Hi k' Hk'. apply (Hidx i Hi). now apply H.
  - intros i Hi k' Hk'. apply (Hidx i Hi). now apply H.
Qed.

Lemma keys_in_order_ext (ks b b' : list jsstring) :
  (forall x, In x b <-> In x b') -> keys_in_order b ks = keys_in_order b' ks.
Proof.
  revert b b'; induction ks as [|k ks IH]; intros b b' H; [reflexivity|].
  cbn [keys_in_order]. rewrite (@key_in_order_ext b b' k H). f_equal.
  apply IH. intros x. rewrite !in_app_iff, H. tauto.
Qed.

Lemma keys_in_order_app (b ks1 ks2 : list jsstring) :
  keys_in_order b (ks1 ++ ks2)
  = keys_in_order b ks1 && keys_in_order (b ++ ks1) ks2.
Proof.
  revert b; induction ks1 as [|k ks1 IH]; intros b; cbn [app keys_in_order].
  - now rewrite app_nil_r.
  - rewrite IH, <- app_assoc, andb_assoc. reflexivity.
Qed.

(** A key that goes before [ks] without spoiling the order: it is new,
    and every array index of [ks] is greater than it. *)
Lemma keys_in_order_before (ks b : list jsstring) (k : jsstring) :
  keys_in_order b ks = true ->
  ~ In k ks ->
  (forall e je, In e ks -> array_index e = Some je ->
                exists i, array_index k = Some i /\ i < je) ->
  keys_in_order (b ++ [k]) ks = true.
Proof.
  revert b; induction ks as [|e ks IH]; intros b Hord Hnew Hgt; [reflexivity|].
  cbn [keys_in_order] in *. apply andb_true_iff in Hord as [He Hord].
  apply andb_true_iff. split.
  - apply key_in_order_spec in He as [He1 He2]. apply key_in_order_spec. split.
    + rewrite in_app_iff. intros [H|[H|[]]]; [now apply He1|].
      subst e. apply Hnew. now left.
    + intros je Hje k' Hk'. apply in_app_iff in Hk' as [Hk'|[<-|[]]].
      * now apply (He2 je Hje).
      * apply (Hgt e je); [now left|exact Hje].
  - rewrite (@keys_in_order_ext ks ((b ++ [k]) ++ [e]) ((b ++ [e]) ++ [k])).
    + apply IH; [exact Hord| |].
      * intros H. apply Hnew. now right.
      * intros e' je' He' Hje'. apply (Hgt e' je'); [now right|exact Hje'].
    + intros x. rewrite !in_app_iff. simpl. tauto.
Qed.

(** In an ordered list every array index is greater than the keys
    before it, which are array indices. *)
Lemma keys_in_order_later (b : list jsstring) (h e : jsstring) (t : list jsstring) (je : N) :
  keys_in_order b (h :: t) = true ->
  In e t -> array_index e = Some je ->
  exists j, array_index h = Some j /\ j < je.
Proof.
  intros Hord He Hje. apply in_split in He as (l & r & ->).
  change (h :: l ++ e :: r) with ((h :: l) ++ e :: r) in Hord.
  rewrite keys_in_order_app in Hord. apply andb_true_iff in Hord as [_ Hord].
  cbn [keys_in_order] in Hord. apply andb_true_iff in Hord as [Hord _].
  apply key_in_order_spec in Hord as [_ Hord].
  apply (Hord je Hje). rewrite in_app_iff. right. now left.
Qed.

(** ** What JSON.parse builds *)

Section Parsed.

Context {number : Type} {ops : NumberOps number}.

Lemma own_property_None_keys (k : jsstring) (o : list (jsstring * value number)) :
  own_property k o = None -> ~ In k (List.map fst o).
Proof.
  induction o as [|[k' v'] o IH]; cbn [own_property List.map fst In]; [tauto|].
  destruct (k' === k) eqn:E; [discriminate|].
  intros H [Hk|Hk]; [|now apply IH].
  subst k'. now rewrite str_eqb_refl in E.
Qed.

Lemma keys_replace_member (k : jsstring) (v : value number)
  (o : list (jsstring * value number)) :
  List.map fst (replace_member k v o) = List.map fst o.
Proof.
  induction o as [|[k' v'] o IH]; [reflexivity|]. cbn [replace_member].
  destruct (k' === k); cbn [List.map fst]; [reflexivity|now rewrite IH].
Qed.

Lemma insert_index_split (i : N) (k : jsstring) (v : value number)
  (o : list (jsstring * value number)) :
  exists l1 l2,
    o = l1 ++ l2
    /\ insert_index i k v o = l1 ++ (k, v) :: l2
    /\ (forall x, In x (List.map fst l1) ->
                  exists j, array_index x = Some j /\ j < i)
    /\ match l2 with
       | [] => True
       | (h, _) :: _ =>
           match array_index h with Some j => i <= j | None => True end
       end.
Proof.
  induction o as [|[k' v'] o IH].
  - exists [], []. repeat split. intros x [].
  - cbn [insert_index]. destruct (array_index k') as [j|] eqn:Ej.
    + destruct (N.ltb_spec j i) as [Hj|Hj].
      * destruct IH as (l1 & l2 & -> & -> & H1 & H2).
        exists ((k', v') :: l1), l2. repeat split; [|exact H2].
        intros x [<-|Hx]; [now exists j|now apply H1].
      * exists [], ((k', v') :: o). repeat split; [intros x []|].
        now rewrite Ej.
    + exists [], ((k', v') :: o). repeat split; [intros x []|].
      now rewrite Ej.
Qed.

(** [CreateDataProperty] keeps the members in enumeration order. *)
Lemma CreateDataProperty_keys_in_order (o : list (jsstring * value number))
  (k : jsstring) (v : value number) :
  keys_in_order [] (List.map fst o) = true ->
  keys_in_order [] (List.map fst (CreateDataProperty o k v)) = true.
Proof.
  intros Hord. unfold CreateDataProperty.
  destruct (own_property k o) as [old|] eqn:Eown.
  - now rewrite keys_replace_member.
  - apply own_property_None_keys in Eown.
    destruct (array_index k) as [i|] eqn:Ei.
    + destruct (insert_index_split i k v o) as (l1 & l2 & -> & -> & H1 & H2).
      rewrite map_app in *. cbn [List.map fst].
      rewrite keys_in_order_app in Hord |- *.
      apply andb_true_iff in Hord as [Hord1 Hord2]. rewrite Hord1.
      cbn [app andb keys_in_order] in Hord2 |- *.
      rewrite in_app_iff in Eown.
      apply andb_true_iff. split.
      * apply key_in_order_spec. split; [tauto|].
        intros i' Hi' k' Hk'. rewrite Ei in Hi'. injection Hi' as <-.
        now apply H1.
      * apply keys_in_order_before; [exact Hord2|tauto|].
        intros e je He Hje.
        exists i. split; [exact Ei|].
        destruct l2 as [|[h vh] l2]; [destruct He|].
        cbn [List.map fst] in He, Hord2, Eown.
        assert (Hh : forall j, array_index h = Some j -> i < j).
        { intros j Hj. rewrite Hj in H2.
          destruct (N.eq_dec i j) as [<-|Hne]; [|lia].
          rewrite (array_index_inj _ _ Hj Ei) in Eown. simpl in Eown. tauto. }
        destruct He as [<-|He]; [now apply Hh|].
        destruct (keys_in_order_later _ _ _ _ Hord2 He Hje) as (j & Hj & Hlt).
        specialize (Hh j Hj). lia.
    + rewrite map_app, keys_in_order_app, Hord. cbn [List.map fst app andb keys_in_order].
      rewrite andb_true_r. apply key_in_order_spec. split; [exact Eown|].
      intros i Hi. rewrite Ei in Hi. discriminate.
Qed.

Lemma CreateDataProperty_Forall (P : value number -> Prop)
  (o : list (jsstring * value number)) (k : jsstring) (v : value number) :
  Forall (fun kv => P (snd kv)) o -> P v ->
  Forall (fun kv => P (snd kv)) (CreateDataProperty o k v).
Proof.
  intros Ho Hv. unfold CreateDataProperty.
  destruct (own_property k o) as [old|].
  - induction Ho as [|[k' v'] o Hx Ho IH]; [constructor|].
    cbn [replace_member]. destruct (k' === k); constructor; assumption.
  - destruct (array_index k) as [i|].
    + destruct (insert_index_split i k v o) as (l1 & l2 & -> & -> & _).
      apply Forall_app in Ho as [H1 H2]. apply Forall_app. split; [exact H1|].
      now constructor.
    + apply Forall_app. split; [exact Ho|]. now constructor.
Qed.

Lemma fold_CreateDataProperty_invariant (P : value number -> Prop)
  (kvs acc : list (jsstring * value number)) :
  keys_in_order [] (List.map fst acc) = true ->
  Forall (fun kv => P (snd kv)) acc ->
  Forall (fun kv => P (snd kv)) kvs ->
  let o := fold_left (fun o kv => CreateDataProperty o (fst kv) (snd kv)) kvs acc in
  keys_in_order [] (List.map fst o) = true /\ Forall (fun kv => P (snd kv)) o.
Proof.
  revert acc; induction kvs as [|[k v] kvs IH]; intros acc Hord Hacc Hkvs.
  - split; assumption.
  - cbn [fold_left fst snd]. inversion Hkvs as [|? ? Hv Hrest]; subst.
    apply IH; [now apply CreateDataProperty_keys_in_order
              |now apply CreateDataProperty_Forall|exact Hrest].
Qed.

Section Items.

Variable parse_item : jsstring -> option (value number * jsstring).
Variable P : value number -> Prop.
Hypothesis parse_item_P : forall s v r, parse_item s = Some (v, r) -> P v.

Lemma parse_elements_Forall (fuel : nat) (s : jsstring)
  (vs : list (value number)) (r : jsstring) :
  parse_elements parse_item fuel s = Some (vs, r) -> Forall P vs.
Proof.
  revert s vs r; induction fuel as [|fuel IH]; intros s vs r; [discriminate|].
  cbn [parse_elements].
  destruct (parse_item s) as [[v r1]|] eqn:Ev; [|discriminate].
  apply parse_item_P in Ev.
  destruct (skip_ws r1) as [|c r2]; [discriminate|].
  destruct (c =? 44).
  - destruct (parse_elements parse_item fuel r2) as [[vs' r3]|] eqn:E; [|discriminate].
    intros H. injection H as <- <-. constructor; [exact Ev|]. now apply (IH _ _ _ E).
  - destruct (c =? 93); [|discriminate].
    intros H. injection H as <- <-. now constructor.
Qed.

Lemma parse_members_Forall (fuel : nat) (s : jsstring)
  (kvs : list (jsstring * value number)) (r : jsstring) :
  parse_members parse_item fuel s = Some (kvs, r) ->
  Forall (fun kv => P (snd kv)) kvs.
Proof.
  revert s kvs r; induction fuel as [|fuel IH]; intros s kvs r; [discriminate|].
  cbn [parse_members].
  destruct (skip_ws s) as [|q r0]; [discriminate|].
  destruct (q =? 34); [|discriminate].
  destruct (parse_chars r0) as [[k r1]|]; [|discriminate].
  destruct (skip_ws r1) as [|colon r2]; [discriminate|].
  destruct (colon =? 58); [|discriminate].
  destruct (parse_item r2) as [[v r3]|] eqn:Ev; [|discriminate].
  apply parse_item_P in Ev.
  destruct (skip_ws r3) as [|c r4]; [discriminate|].
  destruct (c =? 44).
  - destruct (parse_members parse_item fuel r4) as [[kvs' r5]|] eqn:E; [|discriminate].
    intros H. injection H as <- <-. constructor; [exact Ev|]. now apply (IH _ _ _ E).
  - destruct (c =? 125); [|discriminate].
    intros H. injection H as <- <-. now constructor.
Qed.

End Items.

(** Every object that [parse_value] builds has its members in
    enumeration order. *)
Lemma parse_value_in_order (fuel : nat) (s : jsstring) (v : value number)
  (r : jsstring) :
  parse_value fuel s = Some (v, r) -> members_in_order v = true.
Proof.
  revert s v r; induction fuel as [|fuel IH]; intros s v r; [discriminate|].
  cbn [parse_value].
  destruct (strip_prefix (js "null") _); [intros H; now injection H as <- <-|].
  destruct (strip_prefix (js "true") _); [intros H; now injection H as <- <-|].
  destruct (strip_prefix (js "false") _); [intros H; now injection H as <- <-|].
  destruct (skip_ws s) as [|c r0]; [discriminate|].
  destruct (c =? 34).
  { destruct (parse_chars r0) as [[str r1]|]; [|discriminate].
    intros H. now injection H as <- <-. }
  destruct (c =? 91).
  { destruct (skip_ws r0) as [|c' r1]; [discriminate|].
    destruct (c' =? 93); [intros H; now injection H as <- <-|].
    destruct (parse_elements (parse_value fuel) fuel r0) as [[vs r2]|] eqn:E;
      [|discriminate].
    intros H. injection H as <- <-. cbn [members_in_order].
    apply forallb_forall. apply Forall_forall.
    apply (parse_elements_Forall (parse_value fuel) _ IH _ _ E). }
  destruct (c =? 123).
  { destruct (skip_ws r0) as [|c' r1]; [discriminate|].
    destruct (c' =? 125); [intros H; now injection H as <- <-|].
    destruct (parse_members (parse_value fuel) fuel r0) as [[kvs r2]|] eqn:E;
      [|discriminate].
    intros H. injection H as <- <-. cbn [members_in_order].
    destruct (@fold_CreateDataProperty_invariant
                (fun v => members_in_order v = true) kvs [] eq_refl
                (Forall_nil _)
                (parse_members_Forall (parse_value fuel) _ IH _ _ E))
      as [Hord Hall].
    rewrite Hord. apply forallb_forall. apply Forall_forall. exact Hall. }
  destruct ((c =? 45) || is_digit c); [|discriminate].
  destruct (scan_number (c :: r0)) as [[tok r1]|]; [|discriminate].
  intros H. now injection H as <- <-.
Qed.

Lemma is_json_halves (v : value number) :
  is_json v = plain_numbers v && members_in_order v.
Proof.
  induction v as [|b|n|s|items IH|members IH] using value_ind;
    cbn [is_json plain_numbers members_in_order];
    try reflexivity; try (now rewrite andb_true_r).
  - induction IH as [|x items Hx _ IHitems]; [reflexivity|].
    cbn [forallb]. rewrite Hx, IHitems.
    destruct (plain_numbers x), (members_in_order x),
      (forallb plain_numbers items); reflexivity.
  - destruct (keys_in_order [] (List.map fst members));
      cbn [andb]; [|now rewrite andb_false_r].
    induction IH as [|x members Hx _ IHmembers]; [reflexivity|].
    cbn [forallb]. rewrite Hx, IHmembers.
    destruct (plain_numbers (snd x)), (members_in_order (snd x)),
      (forallb (fun kv => plain_numbers (snd kv)) members); reflexivity.
Qed.

(** What [JSON.parse] produces comes back from its text as soon as its
    numbers are finite and none of them is negative zero. *)
Lemma JSON_parse_is_json (text : jsstring) (v : value number) :
  JSON_parse text = Some v -> plain_numbers v = true -> is_json v = true.
Proof.
  unfold JSON_parse. intros H Hfin.
  destruct (parse_value _ text) as [[v' r]|] eqn:E; [|discriminate].
  destruct (skip_ws r); [|discriminate]. injection H as ->.
  rewrite is_json_halves, Hfin. now apply (parse_value_in_order _ _ E).
Qed.

End Parsed.

Section Dispatch.

Context {number : Type} {ops : NumberOps number}.


(** ** The catalog *)

(** C9. Listing the tools issues no GET and returns the same catalog on
    every call and against every network: four descriptors, named
    package_search, package_show, group_list and tag_list, in this
    order. *)
Theorem listOperations_static (net net' : network number) :
  run net ListTools = (Returned tools, [])
  /\ run net' ListTools = run net ListTools
  /\ List.length tools = 4%nat
  /\ List.map name tools
     = [js "package_search"; js "package_show"; js "group_list"; js "tag_list"].
Proof. repeat split. Qed.

(** ** Dispatch on the tool name *)

(** C6. A name other than the four tool names is answered with a
    MethodNotFound error, whatever the arguments are, and no GET is
    issued. *)
Theorem unknown_tool_method_not_found (net : network number) (nm : jsstring) (args : any number) :
  ~ In nm (List.map name tools) ->
  run net (CallTool nm args)
  = (Raised (McpError MethodNotFound (js "Unknown tool: " ++ nm)), []).
Proof.
  intros H. unfold CallTool.
  rewrite !str_eqb_neq; [reflexivity| | | |];
    intros ->; apply H; simpl; tauto.
Qed.

(** ** Running a handler *)

Lemma run_bind {A B : Type} (net : network number) (m : io number A)
  (f : A -> io number B) :
  run net (bind m f)
  = match run net m with
    | (Returned a, calls) =>
        let (o, calls') := run net (f a) in (o, calls ++ calls')
    | (Raised t, calls) => (Raised t, calls)
    end.
Proof.
  induction m as [a|t|url params k IH|url k IH]; simpl.
  - now destruct (run net (f a)).
  - reflexivity.
  - rewrite IH. destruct (run net (k _)) as [[a|t] calls]; simpl;
      [now destruct (run net (f a))|reflexivity].
  - rewrite IH. destruct (run net (k _)) as [[a|t] calls]; simpl;
      [now destruct (run net (f a))|reflexivity].
Qed.

(** [handleAxiosError] issues no GET. *)
Lemma handleAxiosError_calls (net : network number) (error : failure (body number)) :
  snd (run net (handleAxiosError error)) = [].
Proof.
  destruct error as [[msg [[st hs [d|bytes]]|] rq]|rendering]; simpl;
    try reflexivity.
  - unfold append_template.
    repeat match goal with
           | |- context [if ?b then _ else _] => destruct b
           | |- context [match ToString ?a with _ => _ end] => destruct (ToString a)
           end; reflexivity.
  - now destruct rq.
Qed.

(** A query method issues exactly its GET. *)
Lemma query_calls (net : network number) (path : string) (params : any number) :
  snd (run net (query path params)) = [GetJson (BASE_URL ++ js path) params].
Proof.
  unfold query. simpl.
  destruct (get_json net _ params) as [r|f].
  - reflexivity.
  - pose proof (handleAxiosError_calls net (caught (@JsonBody number) f)) as H.
    destruct (run net (handleAxiosError _)) as [o calls].
    simpl in H. subst calls. reflexivity.
Qed.

(** ** Validation comes before the GET *)

Lemma invalid_package_search (net : network number) (args : any number) :
  isValidPackageSearchArgs args = false ->
  run net (CallTool (js "package_search") args)
  = (Raised (McpError InvalidParams (js "Invalid package_search arguments")), []).
Proof. intros H. unfold CallTool. simpl. now rewrite H. Qed.

Lemma invalid_package_show (net : network number) (args : any number) :
  isValidPackageShowArgs args = false ->
  run net (CallTool (js "package_show") args)
  = (Raised (McpError InvalidParams (js "Invalid package_show arguments")), []).
Proof. intros H. unfold CallTool. simpl. now rewrite H. Qed.

Lemma invalid_group_list (net : network number) (args : any number) :
  isValidGroupListArgs args = false ->
  run net (CallTool (js "group_list") args)
  = (Raised (McpError InvalidParams (js "Invalid group_list arguments")), []).
Proof. intros H. unfold CallTool. simpl. now rewrite H. Qed.

Lemma invalid_tag_list (net : network number) (args : any number) :
  isValidTagListArgs args = false ->
  run net (CallTool (js "tag_list") args)
  = (Raised (McpError InvalidParams (js "Invalid tag_list arguments")), []).
Proof. intros H. unfold CallTool. simpl. now rewrite H. Qed.

(** C5. [package_show] with a bag whose [id] is not a string (the empty
    bag included) throws InvalidParams and issues no GET; and so does
    each of the four tools with a bag that its validator refuses:
    validation comes before the GET. *)
Theorem package_show_requires_string_id (net : network number) (nm : jsstring)
  (args : any number) :
  (nm = js "package_show"
   /\ (typeof (Get args (js "id")) <> js "string"
       \/ isValidPackageShowArgs args = false))
  \/ (nm = js "package_search" /\ isValidPackageSearchArgs args = false)
  \/ (nm = js "group_list" /\ isValidGroupListArgs args = false)
  \/ (nm = js "tag_list" /\ isValidTagListArgs args = false) ->
  run net (CallTool nm args)
  = (Raised (McpError InvalidParams (js "Invalid " ++ nm ++ js " arguments")), []).
Proof.
  intros [[-> [H|H]]|[[-> H]|[[-> H]|[-> H]]]].
  - apply invalid_package_show. unfold isValidPackageShowArgs.
    rewrite (str_eqb_neq H). apply andb_false_r.
  - now apply invalid_package_show.
  - now apply invalid_package_search.
  - now apply invalid_group_list.
  - now apply invalid_tag_list.
Qed.

(** C10. A bag that is not an object (absent, a string, a number, a
    boolean) or is [null] is refused by all four tools with
    InvalidParams and no GET, the three tools without a required field
    included; with the empty object these three pass validation and
    issue their GET. *)
Theorem non_object_bag_rejected (net : network number) (args : any number) :
  typeof args <> js "object" \/ args = Val VNull ->
  (run net (CallTool (js "package_search") args)
   = (Raised (McpError InvalidParams (js "Invalid package_search arguments")), [])
   /\ run net (CallTool (js "package_show") args)
      = (Raised (McpError InvalidParams (js "Invalid package_show arguments")), [])
   /\ run net (CallTool (js "group_list") args)
      = (Raised (McpError InvalidParams (js "Invalid group_list arguments")), [])
   /\ run net (CallTool (js "tag_list") args)
      = (Raised (McpError InvalidParams (js "Invalid tag_list arguments")), []))
  /\ snd (run net (CallTool (js "package_search") (Val (VObject []))))
     = [GetJson (BASE_URL ++ js "/action/package_search") (Val (VObject []))]
  /\ snd (run net (CallTool (js "group_list") (Val (VObject []))))
     = [GetJson (BASE_URL ++ js "/action/group_list") (Val (VObject []))]
  /\ snd (run net (CallTool (js "tag_list") (Val (VObject []))))
     = [GetJson (BASE_URL ++ js "/action/tag_list") (Val (VObject []))].
Proof.
  intros H.
  assert (Hguard : (typeof args === js "object") && negb (is_null args) = false).
  { destruct H as [H | ->]; [|reflexivity].
    rewrite (str_eqb_neq H). reflexivity. }
  split; [repeat split|].
  - apply invalid_package_search. unfold isValidPackageSearchArgs.
    now rewrite Hguard.
  - apply invalid_package_show. unfold isValidPackageShowArgs.
    now rewrite Hguard.
  - apply invalid_group_list. unfold isValidGroupListArgs. now rewrite Hguard.
  - apply invalid_tag_list. unfold isValidTagListArgs. now rewrite Hguard.
  - repeat split.
    + apply query_calls.
    + apply query_calls.
    + apply query_calls.
Qed.

(** ** What the validators check *)

Lemma optional_of_mistyped (t : string) (members : list (jsstring * value number))
  (k : jsstring) (v : value number) :
  own_property k members = Some v ->
  typeof (Val v) <> js t ->
  optional_of t (Get (Val (VObject members)) k) = false.
Proof.
  intros Hk Ht. unfold optional_of, Get. rewrite Hk. simpl.
  now apply str_eqb_neq.
Qed.

(** C2, as the code has it. For each tool of the catalog and each
    property of its schema, a bag in which that property is present with
    a value of another type than the schema states is answered with
    InvalidParams, and no GET is issued.  (Properties the schema does not
    list are not looked at.) *)
Theorem mistyped_field_rejected (net : network number) (tool : Tool)
  (k : jsstring) (p : SchemaProperty)
  (members : list (jsstring * value number)) (v : value number) :
  In tool tools ->
  In (k, p) (properties (inputSchema tool)) ->
  own_property k members = Some v ->
  typeof (Val v) <> property_type p ->
  run net (CallTool (name tool) (Val (VObject members)))
  = (Raised (McpError InvalidParams (js "Invalid " ++ name tool ++ js " arguments")),
     []).
Proof.
  intros Htool Hprop Hk Ht.
  simpl in Htool.
  destruct Htool as [<-|[<-|[<-|[<-|[]]]]]; simpl in Hprop.
  - apply invalid_package_search. unfold isValidPackageSearchArgs.
    destruct Hprop as [E|[E|[E|[E|[]]]]]; injection E as <- <-;
      rewrite (@optional_of_mistyped _ _ _ _ Hk Ht);
      rewrite ?andb_false_r; reflexivity.
  - apply invalid_package_show. unfold isValidPackageShowArgs.
    destruct Hprop as [E|[]]; injection E as <- <-.
    unfold Get. rewrite Hk.
    change (property_type _) with (js "string") in Ht.
    rewrite (str_eqb_neq Ht). apply andb_false_r.
  - apply invalid_group_list. unfold isValidGroupListArgs.
    destruct Hprop as [E|[E|[E|[E|[]]]]]; injection E as <- <-;
      rewrite (@optional_of_mistyped _ _ _ _ Hk Ht);
      rewrite ?andb_false_r; reflexivity.
  - apply invalid_tag_list. unfold isValidTagListArgs.
    destruct Hprop as [E|[E|[]]]; injection E as <- <-;
      rewrite (@optional_of_mistyped _ _ _ _ Hk Ht);
      rewrite ?andb_false_r; reflexivity.
Qed.

(** ** Reading a resource *)

Lemma match_resource_uri_Some (request_uri group1 : jsstring) :
  match_resource_uri request_uri = Some group1
  <-> request_uri = js "datagov://resource/" ++ group1
      /\ group1 <> []
      /\ forallb (fun x => negb (is_line_terminator x)) group1 = true.
Proof.
  unfold match_resource_uri. split.
  - destruct (strip_prefix _ request_uri) as [[|c r]|] eqn:E; try discriminate.
    destruct (forallb _ (c :: r)) eqn:F; [|discriminate].
    intros H. injection H as <-.
    apply strip_prefix_Some in E. repeat split; [exact E|discriminate|exact F].
  - intros (-> & Hne & Hall). rewrite strip_prefix_app.
    destruct group1 as [|c r]; [contradiction|]. now rewrite Hall.
Qed.

(** C8. A URI that the pattern [^datagov://resource/(.+)$] does not
    match is answered with an InvalidRequest error, and no GET is
    issued. *)
Theorem malformed_uri_invalid_request (net : network number) (request_uri : jsstring) :
  (forall group1,
      group1 <> [] ->
      forallb (fun x => negb (is_line_terminator x)) group1 = true ->
      request_uri <> js "datagov://resource/" ++ group1) ->
  run net (ReadResource request_uri)
  = (Raised (McpError InvalidRequest (js "Invalid URI format: " ++ request_uri)), []).
Proof.
  intros H. unfold ReadResource.
  destruct (match_resource_uri request_uri) as [g|] eqn:E; [|reflexivity].
  apply match_resource_uri_Some in E as (E & Hne & Hall).
  now destruct (H g Hne Hall).
Qed.

(** ** Failures of the GET *)

(** On the failure of a resource GET, whose data is a Buffer,
    [handleAxiosError] returns its summary: no conversion can throw. *)
Lemma handleAxiosError_buffer (net : network number) (f : failure (list byte)) :
  exists summary,
    run net (handleAxiosError (caught (@BufferBody number) f)) = (Returned summary, [])
    /\ isError summary = Some true.
Proof.
  destruct f as [[msg [[st hs bytes]|] rq]|rendering]; simpl.
  - eexists; split; reflexivity.
  - destruct rq; eexists; split; reflexivity.
  - eexists; split; reflexivity.
Qed.

(** A query method that catches a failure answers what
    [handleAxiosError] answers. *)
Lemma query_failure (net : network number) (path : string) (params : any number)
  (f : failure (value number)) :
  get_json net (BASE_URL ++ js path) params = Rejected f ->
  run net (query path params)
  = (fst (run net (handleAxiosError (caught (@JsonBody number) f))),
     [GetJson (BASE_URL ++ js path) params]).
Proof.
  intros H. unfold query. cbn [run]. rewrite H.
  pose proof (handleAxiosError_calls net (caught (@JsonBody number) f)) as Hc.
  destruct (run net (handleAxiosError _)) as [o calls].
  simpl in Hc. subst calls. reflexivity.
Qed.

(** C3. When the GET of a resource read fails, [handleAxiosError]
    summarises the failure as it does for the query methods, the summary
    is dropped and the caught error is thrown again: the read raises and
    returns no result.  A query method, by contrast, answers what
    [handleAxiosError] answers for the failure it caught. *)
Theorem resource_failure_rethrown (net : network number)
  (request_uri group1 url : jsstring) (f : failure (list byte)) :
  match_resource_uri request_uri = Some group1 ->
  decodeURIComponent group1 = Some url ->
  get_buffer net url = Rejected f ->
  (exists summary,
      run net (handleAxiosError (caught (@BufferBody number) f))
      = (Returned summary, [])
      /\ isError summary = Some true)
  /\ run net (ReadResource request_uri)
     = (Raised (Rethrown (caught (@BufferBody number) f)), [GetBuffer url])
  /\ (forall method,
         In method [packageSearch; packageShow; groupList; tagList] ->
         forall args, exists url' params,
           snd (run net (method args)) = [GetJson url' params]
           /\ forall f',
               get_json net url' params = Rejected f' ->
               fst (run net (method args))
               = fst (run net (handleAxiosError (caught (@JsonBody number) f')))).
Proof.
  intros Hm Hd Hf. split; [apply handleAxiosError_buffer|]. split.
  - unfold ReadResource. rewrite Hm, Hd. simpl. rewrite Hf.
    rewrite run_bind.
    destruct (handleAxiosError_buffer net f) as (summary & -> & _).
    reflexivity.
  - intros method Hin args.
    assert (Hq : exists path params, method args = query path params).
    { simpl in Hin.
      destruct Hin as [<-|[<-|[<-|[<-|[]]]]]; eexists; eexists; reflexivity. }
    destruct Hq as (path & params & ->).
    exists (BASE_URL ++ js path), params. split; [apply query_calls|].
    intros f' Hf'. now rewrite (query_failure _ _ _ Hf').
Qed.

(** C7. For a URI [datagov://resource/<group>] whose group decodes to
    [url], the read issues one GET, to [url]; when the GET is fulfilled,
    the result is one item carrying the request URI and the text
    [data:<content-type>;base64,<payload>], where <content-type> is the
    content-type header of the response and the payload decodes to the
    bytes of the response. *)
Theorem resource_read_data_uri (net : network number)
  (request_uri group1 url : jsstring) :
  request_uri = js "datagov://resource/" ++ group1 ->
  group1 <> [] ->
  forallb (fun x => negb (is_line_terminator x)) group1 = true ->
  decodeURIComponent group1 = Some url ->
  snd (run net (ReadResource request_uri)) = [GetBuffer url]
  /\ forall response content_type,
      get_buffer net url = Fulfilled response ->
      header (js "content-type") (headers response) = Some content_type ->
      exists payload,
        fst (run net (ReadResource request_uri))
        = Returned
            {| contents :=
                 [{| uri := request_uri;
                     resource_text :=
                       js "data:" ++ content_type ++ js ";base64," ++ payload |}] |}
        /\ base64_decode payload = Some (data response).
Proof.
  intros Huri Hne Hall Hd.
  assert (Hm : match_resource_uri request_uri = Some group1)
    by now apply match_resource_uri_Some.
  unfold ReadResource. rewrite Hm, Hd. cbn [run]. split.
  - destruct (get_buffer net url) as [r|f].
    + reflexivity.
    + rewrite run_bind.
      destruct (handleAxiosError_buffer net f) as (summary & -> & _).
      reflexivity.
  - intros response content_type -> Hh.
    exists (base64_encode (data response)). split.
    + cbn [run fst]. rewrite Hh. reflexivity.
    + apply base64_decode_encode.
Qed.

(** The summary of a failure in the CKAN format: the message of the
    error, the status and the message of the nested [error] object. *)
Lemma query_failure_ckan (net : network number) (path : string)
  (params : any number) (msg : jsstring) (st : N)
  (hs : list (jsstring * jsstring)) (d : value number) (rq : bool)
  (m : jsstring) :
  get_json net (BASE_URL ++ js path) params
  = Rejected
      (AxiosFailure
         {| message := msg;
            response := Some {| status := st; headers := hs; data := d |};
            request := rq |}) ->
  Get (Get (Val d) (js "error")) (js "message") = Val (VString m) ->
  m <> [] ->
  run net (query path params)
  = (Returned
       {| content :=
            [{| type := js "text";
                text := js "Data.gov API error: " ++ msg ++ [10] ++ js "Status: "
                        ++ decimal st ++ [10] ++ js "Message: " ++ m |}];
          isError := Some true |},
     [GetJson (BASE_URL ++ js path) params]).
Proof.
  intros Hget Hm Hne. rewrite (query_failure _ _ _ Hget). f_equal.
  cbn [caught message response request status headers data handleAxiosError].
  assert (Hd : ToBoolean (Val d) = true).
  { destruct d; try reflexivity; discriminate. }
  rewrite Hd, Hm. destruct m as [|c m]; [contradiction|].
  cbn [ToBoolean append_template ToString ToString_value bind run fst].
  rewrite <- !app_assoc. reflexivity.
Qed.

(** That summary contains the message of the error, the status and the
    message of the server. *)
Lemma ckan_summary_includes (msg m : jsstring) (st : N) :
  let summary := js "Data.gov API error: " ++ msg ++ [10] ++ js "Status: "
                 ++ decimal st ++ [10] ++ js "Message: " ++ m in
  includes summary msg /\ includes summary (decimal st) /\ includes summary m.
Proof.
  repeat split.
  - exists (js "Data.gov API error: "). eexists. reflexivity.
  - exists (js "Data.gov API error: " ++ msg ++ [10] ++ js "Status: ").
    eexists. rewrite <- !app_assoc. reflexivity.
  - exists (js "Data.gov API error: " ++ msg ++ [10] ++ js "Status: "
            ++ decimal st ++ [10] ++ js "Message: "), [].
    rewrite app_nil_r, <- !app_assoc. reflexivity.
Qed.

End Dispatch.

(** ** A successful query *)

Section Success.

Context {number : Type} {ops : NumberOps number} {laws : NumberLaws ops}.

Lemma query_success (net : network number) (path : string) (params : any number)
  (response : AxiosResponse (value number)) :
  get_json net (BASE_URL ++ js path) params = Fulfilled response ->
  run net (query path params)
  = (Returned {| content := [{| type := js "text";
                                text := JSON_stringify (data response) |}];
                 isError := None |},
     [GetJson (BASE_URL ++ js path) params]).
Proof. intros H. unfold query. cbn [run]. now rewrite H. Qed.

(** C1, amended.  A call of one of the four tools with arguments that
    its validator accepts issues the GET of the tool: at the path of the
    tool, with the arguments as parameters, or, for [package_show], with
    the [id] alone.  When that GET is fulfilled with a body that axios
    decoded from JSON text and whose numbers are finite and not negative
    zero, the call returns one text block and no error flag; the text is
    the body printed by [JSON.stringify(body, null, 2)], and parsing it
    gives the body back. *)
Theorem query_success_round_trip (net : network number) (nm : jsstring)
  (args params : any number) (id : value number)
  (response : AxiosResponse (value number)) (body_text : jsstring) :
  (nm = js "package_search"
   /\ isValidPackageSearchArgs args = true /\ params = args)
  \/ (nm = js "package_show"
      /\ isValidPackageShowArgs args = true
      /\ Get args (js "id") = Val id
      /\ params = Val (VObject [(js "id", id)]))
  \/ (nm = js "group_list"
      /\ isValidGroupListArgs args = true /\ params = args)
  \/ (nm = js "tag_list"
      /\ isValidTagListArgs args = true /\ params = args) ->
  get_json net (BASE_URL ++ js "/action/" ++ nm) params = Fulfilled response ->
  JSON_parse body_text = Some (data response) ->
  plain_numbers (data response) = true ->
  run net (CallTool nm args)
  = (Returned {| content := [{| type := js "text";
                                text := JSON_stringify (data response) |}];
                 isError := None |},
     [GetJson (BASE_URL ++ js "/action/" ++ nm) params])
  /\ JSON_parse (JSON_stringify (data response)) = Some (data response).
Proof.
  intros Htool Hget Hparse Hplain.
  split; [|exact (JSON_parse_stringify _ (JSON_parse_is_json _ Hparse Hplain))].
  destruct Htool as [(-> & Hv & ->)|[(-> & Hv & Hid & ->)|[(-> & Hv & ->)|(-> & Hv & ->)]]];
    unfold CallTool;
    cbn [str_eqb N.eqb Pos.eqb andb js List.map list_ascii_of_string N_of_ascii
         N_of_digits N.add N.mul Pos.add Pos.mul Pos.succ];
    rewrite Hv; cbn [negb].
  - now apply query_success.
  - unfold packageShow. rewrite Hid. now apply query_success.
  - now apply query_success.
  - now apply query_success.
Qed.

End Success.

(* ================================================================= *)
(** * The properties at concrete requests *)

(** C1 at each of the four tools: the remote side answers every GET
    with the body of the text [[{}, [42, 1.5, -7e-3, 1e21], true, null]]. *)
Lemma query_success_round_trip_witness :
  let body :=
    VArray [VObject [];
            VArray [VNumber (num "42"); VNumber (num "1.5");
                    VNumber (num "-7e-3"); VNumber (num "1e21")];
            VBool true; VNull] in
  let returned (nm : string) (args params : any jsnumber) :=
    run (answering body []) (CallTool (js nm) args)
    = (Returned {| content := [{| type := js "text"; text := JSON_stringify body |}];
                   isError := None |},
       [GetJson (BASE_URL ++ js "/action/" ++ js nm) params])
    /\ JSON_parse (JSON_stringify body) = Some body in
  let search := Val (VObject [(js "q", VString (js "climate"))]) in
  let show := Val (VObject [(js "id", VString (js "x")); (js "rows", VNumber (num "5"))]) in
  let groups := Val (VObject [(js "limit", VNumber (num "10"))]) in
  let tags := Val (VObject []) in
  returned "package_search"%string search search
  /\ returned "package_show"%string show
       (Val (VObject [(js "id", VString (js "x"))]))
  /\ returned "group_list"%string groups groups
  /\ returned "tag_list"%string tags tags.
Proof.
  intros body returned search show groups tags.
  pose (response := {| status := 200;
                       headers := [(js "content-type", js "application/json")];
                       data := body |}).
  pose (body_text := js "[{}, [42, 1.5, -7e-3, 1e21], true, null]").
  split; [|split; [|split]].
  - apply (@query_success_round_trip jsnumber jsnumber_ops jsnumber_laws
             (answering body []) (js "package_search") search search VNull
             response body_text);
      [left; repeat split| | |]; reflexivity.
  - apply (@query_success_round_trip jsnumber jsnumber_ops jsnumber_laws
             (answering body []) (js "package_show") show
             (Val (VObject [(js "id", VString (js "x"))])) (VString (js "x"))
             response body_text);
      [right; left; repeat split| | |]; reflexivity.
  - apply (@query_success_round_trip jsnumber jsnumber_ops jsnumber_laws
             (answering body []) (js "group_list") groups groups VNull
             response body_text);
      [right; right; left; repeat split| | |]; reflexivity.
  - apply (@query_success_round_trip jsnumber jsnumber_ops jsnumber_laws
             (answering body []) (js "tag_list") tags tags VNull
             response body_text);
      [right; right; right; repeat split| | |]; reflexivity.
Defined.

(** C1, at bodies that do not come back.  The literal [1e999] overflows:
    [JSON.parse] reads it as [Infinity], which [JSON.stringify] prints
    as [null]; the literal [-0] is read as negative zero, which is
    printed as [0].  In both cases the body is decoded from JSON text,
    the call returns, and the text returned reads as another value. *)
Lemma number_not_read_back :
  let args := Val (VObject [(js "q", VString (js "climate"))]) in
  let returned (body : value jsnumber) (text : string) :=
    run (answering body []) (CallTool (js "package_search") args)
    = (Returned {| content := [{| type := js "text"; text := js text |}];
                   isError := None |},
       [GetJson (BASE_URL ++ js "/action/package_search") args]) in
  (JSON_parse (js "1e999") = Some (VNumber (Infinity false))
   /\ returned (VNumber (Infinity false)) "null"%string
   /\ JSON_parse (js "null") = Some VNull
   /\ JSON_parse (js "null") <> Some (VNumber (Infinity false)))
  /\ (JSON_parse (js "-0") = Some (VNumber (Zero true))
      /\ returned (VNumber (Zero true)) "0"%string
      /\ JSON_parse (js "0") = Some (VNumber (Zero false))
      /\ JSON_parse (js "0") <> Some (VNumber (Zero true))).
Proof.
  intros args returned. repeat split; try reflexivity; discriminate.
Qed.

(** C2, at a bag with a field outside the schema: [package_search]
    called with [{foo: 1}] is not refused; the GET is issued with the
    bag as its parameters and the call returns the result. *)
Lemma unknown_field_not_rejected :
  let args := Val (VObject [(js "foo", VNumber (num "1"))]) in
  ~ In (js "foo") [js "q"; js "sort"; js "rows"; js "start"]
  /\ isValidPackageSearchArgs args = true
  /\ run (answering VNull []) (CallTool (js "package_search") args)
     = (Returned {| content := [{| type := js "text"; text := js "null" |}];
                    isError := None |},
        [GetJson (BASE_URL ++ js "/action/package_search") args])
  /\ run (answering VNull []) (CallTool (js "package_search") args)
     <> (Raised (McpError InvalidParams (js "Invalid package_search arguments")), []).
Proof.
  repeat split.
  - intros [H|[H|[H|[H|[]]]]]; discriminate.
  - discriminate.
Qed.

Lemma mistyped_field_rejected_witness :
  run (answering VNull []) (CallTool (js "package_search")
                              (Val (VObject [(js "rows", VString (js "ten"))])))
  = (Raised (McpError InvalidParams (js "Invalid package_search arguments")), []).
Proof.
  apply (@mistyped_field_rejected jsnumber jsnumber_ops (answering VNull [])
           {| name := js "package_search";
              description := js "Search for packages (datasets) on Data.gov";
              inputSchema :=
                {| schema_type := js "object";
                   properties :=
                     [ (js "q", property "string" (js "Search query"));
                       (js "sort",
                        property "string"
                          (js "Sort order (e.g., " ++ [34] ++ js "score desc, name asc"
                           ++ [34] ++ js ")"));
                       (js "rows", property "number" (js "Number of results per page"));
                       (js "start", property "number" (js "Starting offset for results")) ];
                   required := None |} |}
           (js "rows") (property "number" (js "Number of results per page"))
           [(js "rows", VString (js "ten"))] (VString (js "ten"))).
  - simpl. tauto.
  - simpl. tauto.
  - reflexivity.
  - discriminate.
Defined.

(** The request of the specification: a resource at
    [https://example.com/file.csv]. *)
Lemma example_uri_decodes :
  match_resource_uri (js "datagov://resource/https%3A%2F%2Fexample.com%2Ffile.csv")
  = Some (js "https%3A%2F%2Fexample.com%2Ffile.csv")
  /\ decodeURIComponent (js "https%3A%2F%2Fexample.com%2Ffile.csv")
     = Some (js "https://example.com/file.csv").
Proof. split; reflexivity. Qed.

Lemma resource_failure_rethrown_witness :
  let request_uri := js "datagov://resource/https%3A%2F%2Fexample.com%2Ffile.csv" in
  let url := js "https://example.com/file.csv" in
  let f : failure (list byte) :=
    AxiosFailure
      {| message := js "Request failed with status code " ++ decimal 404;
         response := Some {| status := 404; headers := []; data := [] |};
         request := true |} in
  run (refusing 404 VNull) (ReadResource request_uri)
  = (Raised (Rethrown (caught (@BufferBody jsnumber) f)), [GetBuffer url]).
Proof.
  intros request_uri url f.
  apply (@resource_failure_rethrown jsnumber jsnumber_ops (refusing 404 VNull) request_uri
           (js "https%3A%2F%2Fexample.com%2Ffile.csv") url f).
  - reflexivity.
  - reflexivity.
  - reflexivity.
Defined.

(** The failure of the specification: 404 with the body
    [{success: false, error: {message: 'Not found'}}]. *)
Lemma not_found_summary :
  run (refusing 404
         (VObject [(js "success", VBool false);
                   (js "error", VObject [(js "message", VString (js "Not found"))])]))
      (CallTool (js "package_show") (Val (VObject [(js "id", VString (js "x"))])))
  = (Returned
       {| content :=
            [{| type := js "text";
                text := js "Data.gov API error: Request failed with status code 404"
                        ++ [10] ++ js "Status: 404"
                        ++ [10] ++ js "Message: Not found" |}];
          isError := Some true |},
     [GetJson (BASE_URL ++ js "/action/package_show")
        (Val (VObject [(js "id", VString (js "x"))]))]).
Proof. reflexivity. Qed.

(** C4, at a body the handler cannot print: with the status 404 and
    the body [{error: {toString: 'x'}}] the template literal
    [`\nMessage: ${data.error}`] throws a TypeError inside
    [handleAxiosError], so the call of [package_show] raises instead of
    returning a result with the error flag. *)
Theorem error_detail_conversion_raises :
  run (refusing 404
         (VObject [(js "error", VObject [(js "toString", VString (js "x"))])]))
      (CallTool (js "package_show") (Val (VObject [(js "id", VString (js "x"))])))
  = (Raised TypeError,
     [GetJson (BASE_URL ++ js "/action/package_show")
        (Val (VObject [(js "id", VString (js "x"))]))]).
Proof. reflexivity. Qed.

Lemma package_show_requires_string_id_witness :
  run (answering VNull []) (CallTool (js "package_show") (Val (VObject [])))
  = (Raised (McpError InvalidParams (js "Invalid package_show arguments")), []).
Proof.
  apply (@package_show_requires_string_id jsnumber jsnumber_ops (answering VNull [])
           (js "package_show") (Val (VObject []))).
  left. split; [reflexivity|]. left. discriminate.
Defined.

Lemma unknown_tool_method_not_found_witness :
  run (answering VNull []) (CallTool (js "does_not_exist") (Val (VObject [])))
  = (Raised (McpError MethodNotFound (js "Unknown tool: does_not_exist")), []).
Proof.
  apply (@unknown_tool_method_not_found jsnumber jsnumber_ops (answering VNull [])
           (js "does_not_exist") (Val (VObject []))).
  simpl. intros [H|[H|[H|[H|[]]]]]; discriminate.
Defined.

Lemma resource_read_data_uri_witness :
  let request_uri := js "datagov://resource/https%3A%2F%2Fexample.com%2Ffile.csv" in
  let net := answering VNull [x61; x2c; x62; x0a]%byte in
  snd (run net (ReadResource request_uri))
  = [GetBuffer (js "https://example.com/file.csv")]
  /\ exists payload,
      fst (run net (ReadResource request_uri))
      = Returned
          {| contents :=
               [{| uri := request_uri;
                   resource_text :=
                     js "data:" ++ js "text/csv" ++ js ";base64," ++ payload |}] |}
      /\ base64_decode payload = Some [x61; x2c; x62; x0a]%byte.
Proof.
  intros request_uri net.
  destruct (@resource_read_data_uri jsnumber jsnumber_ops net request_uri
              (js "https%3A%2F%2Fexample.com%2Ffile.csv")
              (js "https://example.com/file.csv"))
    as [Hcalls Hok].
  - reflexivity.
  - discriminate.
  - reflexivity.
  - reflexivity.
  - split; [exact Hcalls|].
    exact (Hok {| status := 200;
                  headers := [(js "content-type", js "text/csv")];
                  data := [x61; x2c; x62; x0a]%byte |}
               (js "text/csv") eq_refl eq_refl).
Defined.

(** The text of that read, in full. *)
Lemma resource_read_example :
  fst (run (answering VNull [x61; x2c; x62; x0a]%byte)
           (ReadResource
              (js "datagov://resource/https%3A%2F%2Fexample.com%2Ffile.csv")))
  = Returned
      {| contents :=
           [{| uri := js "datagov://resource/https%3A%2F%2Fexample.com%2Ffile.csv";
               resource_text := js "data:text/csv;base64,YSxiCg==" |}] |}.
Proof. reflexivity. Qed.

Lemma malformed_uri_invalid_request_witness :
  run (answering VNull []) (ReadResource (js "https://example.com/file.csv"))
  = (Raised (McpError InvalidRequest
               (js "Invalid URI format: https://example.com/file.csv")), []).
Proof.
  apply (@malformed_uri_invalid_request jsnumber jsnumber_ops (answering VNull [])
           (js "https://example.com/file.csv")).
  intros group1 _ _. destruct group1; discriminate.
Defined.

Lemma non_object_bag_rejected_witness :
  run (answering VNull []) (CallTool (js "package_search") Undefined)
  = (Raised (McpError InvalidParams (js "Invalid package_search arguments")), [])
  /\ run (answering VNull []) (CallTool (js "tag_list") Undefined)
     = (Raised (McpError InvalidParams (js "Invalid tag_list arguments")), []).
Proof.
  destruct (@non_object_bag_rejected jsnumber jsnumber_ops (answering VNull []) Undefined)
    as [(Hsearch & _ & _ & Htag) _].
  - left. discriminate.
  - split; [exact Hsearch|exact Htag].
Defined.

(** The text of a small value: members and items on lines of their own,
    two spaces deeper at each level. *)
Lemma stringify_example :
  JSON_stringify (VObject [(js "a", VArray [VNumber (num "1"); VNull]); (js "b", VObject [])])
  = js "{" ++ [10]
    ++ js "  " ++ [34] ++ js "a" ++ [34] ++ js ": [" ++ [10]
    ++ js "    1," ++ [10]
    ++ js "    null" ++ [10]
    ++ js "  ]," ++ [10]
    ++ js "  " ++ [34] ++ js "b" ++ [34] ++ js ": {}" ++ [10]
    ++ js "}".
Proof. reflexivity. Qed.

(* ================================================================= *)
(** * Further properties of the handlers *)

Section Coverage.

Context {number : Type} {ops : NumberOps number}.

(** ** What a tool call sends *)

(** The GET of a query method, whatever it settles to. *)
Lemma query_run (net : network number) (path : string) (params : any number) :
  exists o, run net (query path params)
            = (o, [GetJson (BASE_URL ++ js path) params]).
Proof.
  exists (fst (run net (query path params))).
  rewrite <- (@query_calls number ops net path params).
  now destruct (run net (query path params)).
Qed.

(** X1. [package_search], [group_list] and [tag_list] hand the argument
    bag to axios as it is: a call that issues a GET issues one GET, to
    [BASE_URL/action/<tool>], with the bag itself as query parameters. *)
Theorem query_parameters_unmodified (net : network number) (nm : jsstring)
  (args : any number) :
  In nm [js "package_search"; js "group_list"; js "tag_list"] ->
  snd (run net (CallTool nm args)) <> [] ->
  snd (run net (CallTool nm args))
  = [GetJson (BASE_URL ++ js "/action/" ++ nm) args].
Proof.
  intros Hnm. simpl in Hnm. destruct Hnm as [<-|[<-|[<-|[]]]]; unfold CallTool;
    cbn [str_eqb N.eqb Pos.eqb andb js List.map list_ascii_of_string N_of_ascii
         N_of_digits N.add N.mul Pos.add Pos.mul Pos.succ].
  - destruct (isValidPackageSearchArgs args); cbn [negb];
      [intros _; apply query_calls|intros H; now destruct H].
  - destruct (isValidGroupListArgs args); cbn [negb];
      [intros _; apply query_calls|intros H; now destruct H].
  - destruct (isValidTagListArgs args); cbn [negb];
      [intros _; apply query_calls|intros H; now destruct H].
Qed.

(** X2. [package_show] sends the [id] alone: a call that issues a GET
    has a string [id] (the empty string included) and issues one GET, to
    [BASE_URL/action/package_show], whose parameters are the object
    [{id}]; every other member of the bag is left behind. *)
Theorem package_show_sends_id_only (net : network number) (args : any number) :
  snd (run net (CallTool (js "package_show") args)) <> [] ->
  exists id,
    Get args (js "id") = Val (VString id)
    /\ snd (run net (CallTool (js "package_show") args))
       = [GetJson (BASE_URL ++ js "/action/package_show")
            (Val (VObject [(js "id", VString id)]))].
Proof.
  assert (E1 : (js "package_show" === js "package_search") = false) by reflexivity.
  assert (E2 : (js "package_show" === js "package_show") = true) by reflexivity.
  unfold CallTool. rewrite E1, E2. clear E1 E2.
  destruct (isValidPackageShowArgs args) eqn:E; cbn [negb];
    [|intros H; now destruct H].
  intros _. unfold isValidPackageShowArgs in E.
  apply andb_true_iff in E as [_ E].
  destruct (Get args (js "id")) as [|[| | |id| |]|] eqn:Eid; try discriminate.
  exists id. split; [reflexivity|].
  unfold packageShow. rewrite Eid. apply query_calls.
Qed.

(** ** What validation looks at *)

Lemma Get_own (members members' : list (jsstring * value number)) (k : jsstring) :
  own_property k members = own_property k members' ->
  Get (Val (VObject members)) k = Get (Val (VObject members')) k.
Proof. intros H. unfold Get. now rewrite H. Qed.

(** A call with an accepted bag is not the refusal. *)
Lemma query_not_refused (net : network number) (path : string) (params : any number)
  (msg : jsstring) :
  run net (query path params) <> (Raised (McpError InvalidParams msg), []).
Proof.
  destruct (query_run net path params) as (o & ->). intros H. discriminate.
Qed.

(** X3. Validation depends on the members that the schema of the tool
    lists and on nothing else: two bags that agree on these members are
    both refused or both accepted, whatever else they hold. *)
Theorem validation_reads_schema_fields_only (net : network number) (tool : Tool)
  (members members' : list (jsstring * value number)) :
  In tool tools ->
  (forall k p, In (k, p) (properties (inputSchema tool)) ->
               own_property k members = own_property k members') ->
  run net (CallTool (name tool) (Val (VObject members)))
  = (Raised (McpError InvalidParams (js "Invalid " ++ name tool ++ js " arguments")),
     [])
  <-> run net (CallTool (name tool) (Val (VObject members')))
      = (Raised (McpError InvalidParams (js "Invalid " ++ name tool ++ js " arguments")),
         []).
Proof.
  intros Htool Hsame. simpl in Htool.
  destruct Htool as [<-|[<-|[<-|[<-|[]]]]];
    cbn [name inputSchema properties] in *.
  - assert (E : isValidPackageSearchArgs (Val (VObject members))
                = isValidPackageSearchArgs (Val (VObject members'))).
    { unfold isValidPackageSearchArgs.
      rewrite (@Get_own members members' (js "q")), (@Get_own members members' (js "sort")),
        (@Get_own members members' (js "rows")),
        (@Get_own members members' (js "start")); [reflexivity| | | |];
        eapply Hsame; simpl; eauto. }
    unfold CallTool.
    change (js "package_search" === js "package_search") with true.
    cbv iota. rewrite E.
    destruct (isValidPackageSearchArgs (Val (VObject members'))); cbn [negb];
      [|tauto].
    split; intros H; now apply query_not_refused in H.
  - assert (E : isValidPackageShowArgs (Val (VObject members))
                = isValidPackageShowArgs (Val (VObject members'))).
    { unfold isValidPackageShowArgs.
      rewrite (@Get_own members members' (js "id")); [reflexivity|].
      eapply Hsame; simpl; eauto. }
    unfold CallTool.
    change (js "package_show" === js "package_search") with false.
    change (js "package_show" === js "package_show") with true.
    cbv iota. rewrite E.
    destruct (isValidPackageShowArgs (Val (VObject members'))); cbn [negb];
      [|tauto].
    split; intros H; now apply query_not_refused in H.
  - assert (E : isValidGroupListArgs (Val (VObject members))
                = isValidGroupListArgs (Val (VObject members'))).
    { unfold isValidGroupListArgs.
      rewrite (@Get_own members members' (js "order_by")),
        (@Get_own members members' (js "limit")),
        (@Get_own members members' (js "offset")),
        (@Get_own members members' (js "all_fields")); [reflexivity| | | |];
        eapply Hsame; simpl; eauto. }
    unfold CallTool.
    change (js "group_list" === js "package_search") with false.
    change (js "group_list" === js "package_show") with false.
    change (js "group_list" === js "group_list") with true.
    cbv iota. rewrite E.
    destruct (isValidGroupListArgs (Val (VObject members'))); cbn [negb];
      [|tauto].
    split; intros H; now apply query_not_refused in H.
  - assert (E : isValidTagListArgs (Val (VObject members))
                = isValidTagListArgs (Val (VObject members'))).
    { unfold isValidTagListArgs.
      rewrite (@Get_own members members' (js "query")),
        (@Get_own members members' (js "all_fields")); [reflexivity| |];
        eapply Hsame; simpl; eauto. }
    unfold CallTool.
    change (js "tag_list" === js "package_search") with false.
    change (js "tag_list" === js "package_show") with false.
    change (js "tag_list" === js "group_list") with false.
    change (js "tag_list" === js "tag_list") with true.
    cbv iota. rewrite E.
    destruct (isValidTagListArgs (Val (VObject members'))); cbn [negb];
      [|tauto].
    split; intros H; now apply query_not_refused in H.
Qed.

Lemma optional_of_conformant (t : string) (members : list (jsstring * value number))
  (k : jsstring) :
  (forall v, own_property k members = Some v -> typeof (Val v) = js t) ->
  optional_of t (Get (Val (VObject members)) k) = true.
Proof.
  intros H. unfold optional_of, Get.
  destruct (own_property k members) as [v|]; [|reflexivity].
  rewrite (H v eq_refl), str_eqb_refl. apply orb_true_r.
Qed.

(** X4. A bag that conforms to the schema of a tool is accepted: when
    every listed member that is present has the type the schema states
    and every required member is present, the call issues its GET, to
    [BASE_URL/action/<tool>]. *)
Theorem conformant_bag_accepted (net : network number) (tool : Tool)
  (members : list (jsstring * value number)) :
  In tool tools ->
  (forall k p v, In (k, p) (properties (inputSchema tool)) ->
                 own_property k members = Some v ->
                 typeof (Val v) = property_type p) ->
  (forall rs r, required (inputSchema tool) = Some rs -> In r rs ->
                own_property r members <> None) ->
  exists params,
    snd (run net (CallTool (name tool) (Val (VObject members))))
    = [GetJson (BASE_URL ++ js "/action/" ++ name tool) params].
Proof.
  intros Htool Htype Hreq. simpl in Htool.
  destruct Htool as [<-|[<-|[<-|[<-|[]]]]];
    cbn [name inputSchema properties required] in *.
  - assert (E : isValidPackageSearchArgs (Val (VObject members)) = true).
    { unfold isValidPackageSearchArgs.
      rewrite (@optional_of_conformant "string" members (js "q")
                 (fun v => Htype _ _ v (or_introl eq_refl))).
      rewrite (@optional_of_conformant "string" members (js "sort")
                 (fun v => Htype _ _ v (or_intror (or_introl eq_refl)))).
      rewrite (@optional_of_conformant "number" members (js "rows")
                 (fun v => Htype _ _ v (or_intror (or_intror (or_introl eq_refl))))).
      rewrite (@optional_of_conformant "number" members (js "start")
                 (fun v => Htype _ _ v
                             (or_intror (or_intror (or_intror (or_introl eq_refl)))))).
      reflexivity. }
    exists (Val (VObject members)). unfold CallTool.
    change (js "package_search" === js "package_search") with true.
    cbv iota. rewrite E. apply query_calls.
  - destruct (own_property (js "id") members) as [v|] eqn:Eid;
      [|now destruct (Hreq [js "id"] (js "id") eq_refl (or_introl eq_refl))].
    assert (Ht : typeof (Val v) = js "string")
      by exact (Htype _ _ v (or_introl eq_refl) Eid).
    assert (E : isValidPackageShowArgs (Val (VObject members)) = true).
    { unfold isValidPackageShowArgs, Get. rewrite Eid, Ht. reflexivity. }
    eexists. unfold CallTool.
    change (js "package_show" === js "package_search") with false.
    change (js "package_show" === js "package_show") with true.
    cbv iota. rewrite E. apply query_calls.
  - assert (E : isValidGroupListArgs (Val (VObject members)) = true).
    { unfold isValidGroupListArgs.
      rewrite (@optional_of_conformant "string" members (js "order_by")
                 (fun v => Htype _ _ v (or_introl eq_refl))).
      rewrite (@optional_of_conformant "number" members (js "limit")
                 (fun v => Htype _ _ v (or_intror (or_introl eq_refl)))).
      rewrite (@optional_of_conformant "number" members (js "offset")
                 (fun v => Htype _ _ v (or_intror (or_intror (or_introl eq_refl))))).
      rewrite (@optional_of_conformant "boolean" members (js "all_fields")
                 (fun v => Htype _ _ v
                             (or_intror (or_intror (or_intror (or_introl eq_refl)))))).
      reflexivity. }
    exists (Val (VObject members)). unfold CallTool.
    change (js "group_list" === js "package_search") with false.
    change (js "group_list" === js "package_show") with false.
    change (js "group_list" === js "group_list") with true.
    cbv iota. rewrite E. apply query_calls.
  - assert (E : isValidTagListArgs (Val (VObject members)) = true).
    { unfold isValidTagListArgs.
      rewrite (@optional_of_conformant "string" members (js "query")
                 (fun v => Htype _ _ v (or_introl eq_refl))).
      rewrite (@optional_of_conformant "boolean" members (js "all_fields")
                 (fun v => Htype _ _ v (or_intror (or_introl eq_refl)))).
      reflexivity. }
    exists (Val (VObject members)). unfold CallTool.
    change (js "tag_list" === js "package_search") with false.
    change (js "tag_list" === js "package_show") with false.
    change (js "tag_list" === js "group_list") with false.
    change (js "tag_list" === js "tag_list") with true.
    cbv iota. rewrite E. apply query_calls.
Qed.

(** X5. An array passes for a bag where no listed member is read from
    it: [typeof] says [object] and an array has none of the listed
    members, except [sort], which is the method of [Array.prototype] and
    no string.  So [group_list] and [tag_list] accept any array and send
    it as the parameters, [package_search] and [package_show] refuse
    it. *)
Theorem array_as_argument_bag (net : network number) (items : list (value number)) :
  run net (CallTool (js "package_search") (Val (VArray items)))
  = (Raised (McpError InvalidParams (js "Invalid package_search arguments")), [])
  /\ run net (CallTool (js "package_show") (Val (VArray items)))
     = (Raised (McpError InvalidParams (js "Invalid package_show arguments")), [])
  /\ snd (run net (CallTool (js "group_list") (Val (VArray items))))
     = [GetJson (BASE_URL ++ js "/action/group_list") (Val (VArray items))]
  /\ snd (run net (CallTool (js "tag_list") (Val (VArray items))))
     = [GetJson (BASE_URL ++ js "/action/tag_list") (Val (VArray items))].
Proof.
  repeat split.
  - apply (@query_calls number ops net "/action/group_list").
  - apply (@query_calls number ops net "/action/tag_list").
Qed.

(** X6. A tool call never issues more than one GET, and the GET it
    issues goes through the API instance to [BASE_URL/action/<name>],
    <name> being the name the tool was called by: there is no retry, no
    second request and no other host. *)
Theorem tool_call_single_get (net : network number) (nm : jsstring)
  (args : any number) :
  snd (run net (CallTool nm args)) = []
  \/ exists params,
      snd (run net (CallTool nm args))
      = [GetJson (BASE_URL ++ js "/action/" ++ nm) params].
Proof.
  unfold CallTool.
  destruct (nm === js "package_search") eqn:E1.
  { apply str_eqb_eq in E1. subst nm.
    destruct (isValidPackageSearchArgs args); cbn [negb]; [right|now left].
    eexists. apply query_calls. }
  destruct (nm === js "package_show") eqn:E2.
  { apply str_eqb_eq in E2. subst nm.
    destruct (isValidPackageShowArgs args); cbn [negb]; [right|now left].
    eexists. apply query_calls. }
  destruct (nm === js "group_list") eqn:E3.
  { apply str_eqb_eq in E3. subst nm.
    destruct (isValidGroupListArgs args); cbn [negb]; [right|now left].
    eexists. apply query_calls. }
  destruct (nm === js "tag_list") eqn:E4.
  { apply str_eqb_eq in E4. subst nm.
    destruct (isValidTagListArgs args); cbn [negb]; [right|now left].
    eexists. apply query_calls. }
  now left.
Qed.

(** ** What [handleAxiosError] answers *)

(** X7. [handleAxiosError] issues no GET and never answers a success:
    either it returns one text block with the error flag set, whose text
    begins with [Data.gov API error: <message>] for an axios error and is
    [An unexpected error occurred: <error>] for anything else, or it
    throws a TypeError, which it can only do while printing the parsed
    body of a response. *)
Theorem handleAxiosError_outcome (net : network number) (error : failure (body number)) :
  snd (run net (handleAxiosError error)) = []
  /\ ((exists t,
          fst (run net (handleAxiosError error))
          = Returned {| content := [{| type := js "text"; text := t |}];
                        isError := Some true |}
          /\ match error with
             | AxiosFailure e =>
                 exists rest, t = js "Data.gov API error: " ++ message e ++ rest
             | OtherFailure rendering =>
                 t = js "An unexpected error occurred: " ++ rendering
             end)
      \/ (fst (run net (handleAxiosError error)) = Raised TypeError
          /\ exists e r d,
              error = AxiosFailure e /\ response e = Some r
              /\ data r = JsonBody d)).
Proof.
  split; [apply handleAxiosError_calls|].
  destruct error as [[msg [[st hs [d|bytes]]|] rq]|rendering];
    cbn [handleAxiosError message response request status headers data].
  - assert (Hdone : forall text a,
               (exists t,
                   fst (run net
                          (bind (append_template
                                   (js "Data.gov API error: " ++ msg ++ [10]
                                    ++ js "Status: " ++ decimal st) text a)
                                (fun errorMessage =>
                                   Return {| content := [{| type := js "text";
                                                            text := errorMessage |}];
                                             isError := Some true |})))
                   = Returned {| content := [{| type := js "text"; text := t |}];
                                 isError := Some true |}
                   /\ exists rest, t = js "Data.gov API error: " ++ msg ++ rest)
               \/ fst (run net
                         (bind (append_template
                                  (js "Data.gov API error: " ++ msg ++ [10]
                                   ++ js "Status: " ++ decimal st) text a)
                               (fun errorMessage =>
                                  Return {| content := [{| type := js "text";
                                                           text := errorMessage |}];
                                            isError := Some true |})))
                  = Raised TypeError).
    { intros text a. unfold append_template.
      destruct (ToString a) as [s|]; [left|now right].
      eexists. split; [reflexivity|].
      eexists. rewrite <- ?app_assoc. reflexivity. }
    assert (Hplain :
              exists t,
                fst (run net
                       (bind (Return (js "Data.gov API error: " ++ msg ++ [10]
                                      ++ js "Status: " ++ decimal st))
                             (fun errorMessage =>
                                Return {| content := [{| type := js "text";
                                                         text := errorMessage |}];
                                          isError := Some true |})))
                = Returned {| content := [{| type := js "text"; text := t |}];
                              isError := Some true |}
                /\ exists rest, t = js "Data.gov API error: " ++ msg ++ rest).
    { eexists. split; [reflexivity|].
      eexists. rewrite <- ?app_assoc. reflexivity. }
    destruct (ToBoolean (Val d)); [|now left].
    destruct (ToBoolean (Get (Get (Val d) (js "error")) (js "message"))).
    { destruct (Hdone ([10] ++ js "Message: ")
                  (Get (Get (Val d) (js "error")) (js "message"))) as [H|H];
        [now left|right]. split; [exact H|]. do 3 eexists; repeat split. }
    destruct (ToBoolean (Get (Val d) (js "error"))).
    { destruct (Hdone ([10] ++ js "Message: ") (Get (Val d) (js "error"))) as [H|H];
        [now left|right]. split; [exact H|]. do 3 eexists; repeat split. }
    destruct (typeof (Val d) === js "string"); [|now left].
    destruct (Hdone ([10] ++ js "Data: ") (Val d)) as [H|H];
      [now left|right]. split; [exact H|]. do 3 eexists; repeat split.
  - left. eexists. split; [reflexivity|].
    eexists. rewrite <- ?app_assoc. reflexivity.
  - left. destruct rq; (eexists; split; [reflexivity|]); eexists.
    + rewrite <- ?app_assoc. reflexivity.
    + now rewrite app_nil_r.
  - left. eexists. split; reflexivity.
Qed.

(** Against a remote side that rejects every API GET with [f], each
    query method answers what [handleAxiosError] answers for [f]. *)
Lemma method_failure (net : network number)
  (method : any number -> io number CallToolResult) (args : any number)
  (f : failure (value number)) :
  In method [packageSearch; packageShow; groupList; tagList] ->
  (forall url params, get_json net url params = Rejected f) ->
  fst (run net (method args))
  = fst (run net (handleAxiosError (caught (@JsonBody number) f))).
Proof.
  intros Hin Hnet.
  assert (Hq : exists path params, method args = query path params).
  { simpl in Hin.
    destruct Hin as [<-|[<-|[<-|[<-|[]]]]]; eexists; eexists; reflexivity. }
  destruct Hq as (path & params & ->).
  now rewrite (@query_failure number ops net path params f (Hnet _ _)).
Qed.

(** X8. When the GET fails without a response, each query method
    returns the message of the error, followed by the line [No response
    received from the server.] if a request had been made, with the
    error flag set. *)
Theorem no_response_summary (net : network number)
  (method : any number -> io number CallToolResult) (args : any number)
  (msg : jsstring) (rq : bool) :
  In method [packageSearch; packageShow; groupList; tagList] ->
  (forall url params,
      get_json net url params
      = Rejected (AxiosFailure {| message := msg; response := None; request := rq |})) ->
  fst (run net (method args))
  = Returned
      {| content :=
           [{| type := js "text";
               text := js "Data.gov API error: " ++ msg
                       ++ (if rq
                           then [10] ++ js "No response received from the server."
                           else []) |}];
         isError := Some true |}.
Proof.
  intros Hin Hnet. rewrite (@method_failure net method args _ Hin Hnet).
  destruct rq; cbn; rewrite <- ?app_assoc, ?app_nil_r; reflexivity.
Qed.

(** X9. When the GET fails with something that is no axios error, each
    query method returns the text [An unexpected error occurred: ]
    followed by the error converted to a string, with the error flag
    set. *)
Theorem unexpected_error_summary (net : network number)
  (method : any number -> io number CallToolResult) (args : any number)
  (rendering : jsstring) :
  In method [packageSearch; packageShow; groupList; tagList] ->
  (forall url params, get_json net url params = Rejected (OtherFailure rendering)) ->
  fst (run net (method args))
  = Returned
      {| content :=
           [{| type := js "text";
               text := js "An unexpected error occurred: " ++ rendering |}];
         isError := Some true |}.
Proof.
  intros Hin Hnet. now rewrite (@method_failure net method args _ Hin Hnet).
Qed.

(** The failure of an API GET answered with status [st] and the parsed
    body [d]. *)
Local Abbreviation answered msg st hs d rq :=
  (AxiosFailure
     {| message := msg;
        response := Some {| status := st; headers := hs; data := d |};
        request := rq |}).

(** X10. When the server answers outside 2xx with a body that is no
    JSON (a non-empty string, an HTML page for one), each query method
    returns the message of the error, the status and the body itself on
    a line [Data: ]. *)
Theorem text_body_summary (net : network number)
  (method : any number -> io number CallToolResult) (args : any number)
  (msg : jsstring) (st : N) (hs : list (jsstring * jsstring))
  (s : jsstring) (rq : bool) :
  In method [packageSearch; packageShow; groupList; tagList] ->
  s <> [] ->
  (forall url params,
      get_json net url params = Rejected (answered msg st hs (VString s) rq)) ->
  fst (run net (method args))
  = Returned
      {| content :=
           [{| type := js "text";
               text := js "Data.gov API error: " ++ msg ++ [10] ++ js "Status: "
                       ++ decimal st ++ [10] ++ js "Data: " ++ s |}];
         isError := Some true |}.
Proof.
  intros Hin Hs Hnet. rewrite (@method_failure net method args _ Hin Hnet).
  destruct s as [|c s]; [contradiction|].
  cbn [caught message response request status headers data handleAxiosError
       ToBoolean Get ToString ToString_value append_template bind run fst typeof].
  change (js "string" === js "string") with true. cbv iota.
  cbn [bind run fst]. rewrite <- ?app_assoc. reflexivity.
Qed.

(** X11. When the body of the failure has an [error] whose [message] is
    truthy, the detail is that message: each query method returns the
    message of the error, the status and a line [Message: ] with
    [error.message] converted to a string. *)
Theorem error_message_summary (net : network number)
  (method : any number -> io number CallToolResult) (args : any number)
  (msg : jsstring) (st : N) (hs : list (jsstring * jsstring))
  (d : value number) (rq : bool) (m : jsstring) :
  In method [packageSearch; packageShow; groupList; tagList] ->
  ToBoolean (Get (Get (Val d) (js "error")) (js "message")) = true ->
  ToString (Get (Get (Val d) (js "error")) (js "message")) = Some m ->
  (forall url params,
      get_json net url params = Rejected (answered msg st hs d rq)) ->
  fst (run net (method args))
  = Returned
      {| content :=
           [{| type := js "text";
               text := js "Data.gov API error: " ++ msg ++ [10] ++ js "Status: "
                       ++ decimal st ++ [10] ++ js "Message: " ++ m |}];
         isError := Some true |}.
Proof.
  intros Hin Htrue Hm Hnet. rewrite (@method_failure net method args _ Hin Hnet).
  cbn [caught message response request status headers data handleAxiosError].
  assert (Hd : ToBoolean (Val d) = true).
  { destruct d; try reflexivity; discriminate. }
  rewrite Hd, Htrue. unfold append_template. rewrite Hm.
  cbn [bind run fst]. rewrite <- ?app_assoc. reflexivity.
Qed.

(** X12. When [error.message] is missing or falsy and [error] itself is
    truthy (a string, say), the detail is [error]: the line [Message: ]
    carries [error] converted to a string. *)
Theorem error_value_summary (net : network number)
  (method : any number -> io number CallToolResult) (args : any number)
  (msg : jsstring) (st : N) (hs : list (jsstring * jsstring))
  (d : value number) (rq : bool) (e : jsstring) :
  In method [packageSearch; packageShow; groupList; tagList] ->
  ToBoolean (Get (Get (Val d) (js "error")) (js "message")) = false ->
  ToBoolean (Get (Val d) (js "error")) = true ->
  ToString (Get (Val d) (js "error")) = Some e ->
  (forall url params,
      get_json net url params = Rejected (answered msg st hs d rq)) ->
  fst (run net (method args))
  = Returned
      {| content :=
           [{| type := js "text";
               text := js "Data.gov API error: " ++ msg ++ [10] ++ js "Status: "
                       ++ decimal st ++ [10] ++ js "Message: " ++ e |}];
         isError := Some true |}.
Proof.
  intros Hin Hfalse Htrue He Hnet. rewrite (@method_failure net method args _ Hin Hnet).
  cbn [caught message response request status headers data handleAxiosError].
  assert (Hd : ToBoolean (Val d) = true).
  { destruct d; try reflexivity; discriminate. }
  rewrite Hd, Hfalse, Htrue. unfold append_template. rewrite He.
  cbn [bind run fst]. rewrite <- ?app_assoc. reflexivity.
Qed.

(** X13. When the body is falsy ([null], [false], [0], the empty
    string), or is no string and has no truthy [error], there is no
    detail: each query method returns the message of the error and the
    status, and nothing of the body. *)
Theorem no_detail_summary (net : network number)
  (method : any number -> io number CallToolResult) (args : any number)
  (msg : jsstring) (st : N) (hs : list (jsstring * jsstring))
  (d : value number) (rq : bool) :
  In method [packageSearch; packageShow; groupList; tagList] ->
  ToBoolean (Val d) = false
  \/ (ToBoolean (Get (Val d) (js "error")) = false
      /\ typeof (Val d) <> js "string") ->
  (forall url params,
      get_json net url params = Rejected (answered msg st hs d rq)) ->
  fst (run net (method args))
  = Returned
      {| content :=
           [{| type := js "text";
               text := js "Data.gov API error: " ++ msg ++ [10] ++ js "Status: "
                       ++ decimal st |}];
         isError := Some true |}.
Proof.
  intros Hin Hd Hnet. rewrite (@method_failure net method args _ Hin Hnet).
  cbn [caught message response request status headers data handleAxiosError].
  destruct Hd as [Hd|[Herr Hty]].
  - rewrite Hd. cbn [bind run fst]. rewrite <- ?app_assoc. reflexivity.
  - assert (Hm : ToBoolean (Get (Get (Val d) (js "error")) (js "message")) = false).
    { destruct (Get (Val d) (js "error")) as [|[| | | | |o]|] eqn:E; try reflexivity;
        try discriminate. }
    rewrite Hm, Herr, (str_eqb_neq Hty).
    destruct (ToBoolean (Val d)); cbn [bind run fst]; rewrite <- ?app_assoc;
      reflexivity.
Qed.

(** ** Reading a resource: the URI *)

Lemma Decode_plain (pre rest : jsstring) (fuel : nat) :
  forallb (fun c => negb (c =? 37)) pre = true ->
  Decode (List.length pre + fuel) (pre ++ rest)
  = option_map (app pre) (Decode fuel rest).
Proof.
  induction pre as [|c pre IH]; intros H.
  - cbn [List.length app Nat.add]. now destruct (Decode fuel rest).
  - cbn [forallb] in H. apply andb_true_iff in H as [Hc H].
    apply negb_true_iff in Hc.
    cbn [List.length app Nat.add Decode]. rewrite Hc, (IH H).
    now destruct (Decode fuel rest).
Qed.

Lemma decodeURIComponent_plain (pre rest : jsstring) :
  forallb (fun c => negb (c =? 37)) pre = true ->
  decodeURIComponent (pre ++ rest)
  = option_map (app pre) (decodeURIComponent rest).
Proof.
  intros H. unfold decodeURIComponent. rewrite length_app.
  now apply Decode_plain.
Qed.

Lemma Decode_bad_escape (fuel : nat) (tail : jsstring) :
  match tail with
  | h1 :: h2 :: _ => ParseHexOctet h1 h2 = None
  | _ => True
  end ->
  Decode fuel (37 :: tail) = None.
Proof.
  intros H. destruct fuel as [|fuel]; [reflexivity|].
  cbn [Decode]. change (37 =? 37) with true. cbv iota.
  destruct tail as [|h1 [|h2 r]]; try reflexivity. now rewrite H.
Qed.

Lemma ParseHexOctet_percent (h : N) :
  ParseHexOctet 37 h = None /\ ParseHexOctet h 37 = None.
Proof.
  unfold ParseHexOctet. split; [reflexivity|].
  now destruct (hex_value h).
Qed.

(** The escapes of continuation bytes do not reach beyond a percent sign
    that is not followed by two hex digits. *)
Lemma continuation_octets_bad_escape (n : nat) (pre tail : jsstring)
  (conts : list N) (r : jsstring) :
  match tail with
  | h1 :: h2 :: _ => ParseHexOctet h1 h2 = None
  | _ => True
  end ->
  continuation_octets n (pre ++ 37 :: tail) = Some (conts, r) ->
  exists pre', r = pre' ++ 37 :: tail.
Proof.
  intros Hbad. revert pre conts r.
  induction n as [|n IH]; intros pre conts r H.
  - cbn [continuation_octets] in H. injection H as _ <-. now exists pre.
  - cbn [continuation_octets] in H.
    destruct pre as [|p [|h1 [|h2 pre]]]; cbn [app] in H.
    + change (37 =? 37) with true in H. cbv iota in H.
      destruct tail as [|h1 [|h2 t]]; try discriminate.
      now rewrite Hbad in H.
    + destruct tail as [|h2 t]; [discriminate|].
      rewrite (proj1 (ParseHexOctet_percent h2)) in H.
      destruct (p =? 37); discriminate.
    + rewrite (proj2 (ParseHexOctet_percent h1)) in H.
      destruct (p =? 37); discriminate.
    + destruct (p =? 37); [|discriminate].
      destruct (ParseHexOctet h1 h2) as [b|]; [|discriminate].
      destruct ((128 <=? b) && (b <? 192)); [|discriminate].
      destruct (continuation_octets n (pre ++ 37 :: tail))
        as [[bs r']|] eqn:E; [|discriminate].
      injection H as _ <-. exact (IH _ _ _ E).
Qed.

(** A percent sign that is not followed by two hex digits makes [Decode]
    throw, whatever stands before it. *)
Lemma Decode_malformed (fuel : nat) (pre tail : jsstring) :
  match tail with
  | h1 :: h2 :: _ => ParseHexOctet h1 h2 = None
  | _ => True
  end ->
  Decode fuel (pre ++ 37 :: tail) = None.
Proof.
  intros Hbad. revert pre.
  induction fuel as [|fuel IH]; intros pre.
  - now destruct pre.
  - destruct pre as [|c pre]; [now apply Decode_bad_escape|].
    cbn [app Decode]. destruct (c =? 37).
    + destruct pre as [|h1 [|h2 pre]]; cbn [app].
      * destruct tail as [|h2 t]; [reflexivity|].
        now rewrite (proj1 (ParseHexOctet_percent h2)).
      * now rewrite (proj2 (ParseHexOctet_percent h1)).
      * destruct (ParseHexOctet h1 h2) as [b|]; [|reflexivity].
        destruct (b <? 128); [now rewrite IH|].
        destruct (b <? 192); [reflexivity|].
        destruct (b <? 248); [|reflexivity].
        destruct (continuation_octets _ (pre ++ 37 :: tail))
          as [[conts r]|] eqn:E; [|reflexivity].
        destruct (continuation_octets_bad_escape _ _ _ Hbad E) as (pre' & ->).
        destruct (utf8_code_point b conts); [|reflexivity].
        now rewrite IH.
    + now rewrite IH.
Qed.

(** X14. A URI of the pattern whose group has a percent sign that is
    not followed by two hex digits, wherever in the group it stands and
    whatever stands before it, makes [decodeURIComponent] throw: the
    read raises that URIError (no InvalidRequest) and issues no GET. *)
Theorem malformed_escape_uri_error (net : network number) (pre tail : jsstring) :
  forallb (fun x => negb (is_line_terminator x)) (pre ++ 37 :: tail) = true ->
  match tail with
  | h1 :: h2 :: _ => ParseHexOctet h1 h2 = None
  | _ => True
  end ->
  run net (ReadResource (js "datagov://resource/" ++ pre ++ 37 :: tail))
  = (Raised URIError, []).
Proof.
  intros Hlt Hbad. unfold ReadResource.
  rewrite (proj2 (@match_resource_uri_Some (js "datagov://resource/" ++ pre ++ 37 :: tail) (pre ++ 37 :: tail))).
  - unfold decodeURIComponent. now rewrite (Decode_malformed _ _ _ Hbad).
  - repeat split; [|exact Hlt]. now destruct pre.
Qed.

(** X15. A group without any percent sign decodes to itself: a URL put
    after the prefix as it is, unescaped, is the URL of the GET. *)
Theorem unescaped_url_fetched_verbatim (net : network number) (group1 : jsstring) :
  group1 <> [] ->
  forallb (fun x => negb (is_line_terminator x)) group1 = true ->
  forallb (fun c => negb (c =? 37)) group1 = true ->
  snd (run net (ReadResource (js "datagov://resource/" ++ group1)))
  = [GetBuffer group1].
Proof.
  intros Hne Hlt Hplain. unfold ReadResource.
  rewrite (proj2 (@match_resource_uri_Some (js "datagov://resource/" ++ group1) group1)) by now repeat split.
  pose proof (@decodeURIComponent_plain group1 [] Hplain) as Hd.
  rewrite app_nil_r in Hd. rewrite Hd. cbn [decodeURIComponent List.length Decode option_map].
  rewrite app_nil_r. cbn [run].
  destruct (get_buffer net group1) as [r|f]; [reflexivity|].
  rewrite run_bind.
  destruct (handleAxiosError_buffer net f) as (summary & -> & _). reflexivity.
Qed.

(** X16. After the prefix the pattern wants at least one character and
    no line terminator up to the end: the prefix alone, and a URI with a
    line feed, a carriage return, U+2028 or U+2029 anywhere after the
    prefix, are answered with InvalidRequest, and no GET is issued. *)
Theorem empty_or_multiline_group_rejected (net : network number) (rest : jsstring) :
  rest = [] \/ existsb is_line_terminator rest = true ->
  run net (ReadResource (js "datagov://resource/" ++ rest))
  = (Raised (McpError InvalidRequest
               (js "Invalid URI format: " ++ js "datagov://resource/" ++ rest)), []).
Proof.
  intros H. unfold ReadResource.
  assert (E : match_resource_uri (js "datagov://resource/" ++ rest) = None).
  { unfold match_resource_uri. rewrite strip_prefix_app.
    destruct H as [->|H]; [reflexivity|].
    destruct rest as [|c r]; [discriminate|].
    destruct (forallb _ (c :: r)) eqn:F; [|reflexivity].
    apply existsb_exists in H as (x & Hx & Hlt).
    pose proof (proj1 (forallb_forall _ _) F x Hx) as Hn.
    cbv beta in Hn. rewrite Hlt in Hn. discriminate. }
  now rewrite E.
Qed.

(** ** Reading a resource: the result *)

(** X17. When the response has no content-type header, the template
    literal prints [undefined] in its place: the text is
    [data:undefined;base64,<payload>]. *)
Theorem missing_content_type (net : network number)
  (request_uri group1 url : jsstring) (response : AxiosResponse (list byte)) :
  match_resource_uri request_uri = Some group1 ->
  decodeURIComponent group1 = Some url ->
  get_buffer net url = Fulfilled response ->
  header (js "content-type") (headers response) = None ->
  fst (run net (ReadResource request_uri))
  = Returned
      {| contents :=
           [{| uri := request_uri;
               resource_text :=
                 js "data:undefined;base64," ++ base64_encode (data response) |}] |}.
Proof.
  intros Hm Hd Hget Hh. unfold ReadResource. rewrite Hm, Hd. cbn [run].
  rewrite Hget, Hh. reflexivity.
Qed.

(** X18. A read issues at most one GET, the one to the decoded group,
    with the response wanted as bytes; it never goes through the API
    instance. *)
Theorem resource_read_single_get (net : network number) (request_uri : jsstring) :
  snd (run net (ReadResource request_uri)) = []
  \/ exists group1 url,
      match_resource_uri request_uri = Some group1
      /\ decodeURIComponent group1 = Some url
      /\ snd (run net (ReadResource request_uri)) = [GetBuffer url].
Proof.
  unfold ReadResource.
  destruct (match_resource_uri request_uri) as [g|] eqn:Em; [|now left].
  destruct (decodeURIComponent g) as [url|] eqn:Ed; [|now left].
  right. exists g, url. split; [reflexivity|]. split; [exact Ed|]. cbn [run].
  destruct (get_buffer net url) as [r|f]; [reflexivity|].
  rewrite run_bind.
  destruct (handleAxiosError_buffer net f) as (summary & -> & _). reflexivity.
Qed.

(** X19. A read returns a result only when its GET was fulfilled, and
    the result is then one item that carries the URI of the request;
    after a failed GET it never returns, whatever [handleAxiosError]
    made of the failure. *)
Theorem resource_read_returns_on_fulfilled (net : network number)
  (request_uri : jsstring) (result : ReadResourceResult) :
  fst (run net (ReadResource request_uri)) = Returned result ->
  exists group1 url response payload,
    match_resource_uri request_uri = Some group1
    /\ decodeURIComponent group1 = Some url
    /\ get_buffer net url = Fulfilled response
    /\ contents result = [{| uri := request_uri; resource_text := payload |}].
Proof.
  unfold ReadResource.
  destruct (match_resource_uri request_uri) as [g|] eqn:Em; [|discriminate].
  destruct (decodeURIComponent g) as [url|] eqn:Ed; [|discriminate].
  cbn [run]. destruct (get_buffer net url) as [r|f] eqn:E.
  - cbn [run fst]. intros H. injection H as <-.
    exists g, url, r. eexists. split; [reflexivity|]. split; [exact Ed|].
    split; [exact E|reflexivity].
  - rewrite run_bind.
    destruct (handleAxiosError_buffer net f) as (summary & -> & _).
    discriminate.
Qed.

(** X20. The catalog of templates is static and agrees with the read
    handler: it holds one template, the prefix of the read pattern
    followed by [{url}], and every URI made of that prefix and a
    non-empty group without line terminators is matched by the read
    handler, with that group. *)
Theorem template_matches_read_pattern (net : network number) :
  run net ListResourceTemplates = (Returned resourceTemplates, [])
  /\ List.map uriTemplate resourceTemplates
     = [js "datagov://resource/" ++ js "{url}"]
  /\ forall group1,
      group1 <> [] ->
      forallb (fun x => negb (is_line_terminator x)) group1 = true ->
      match_resource_uri (js "datagov://resource/" ++ group1) = Some group1.
Proof.
  repeat split. intros group1 Hne Hlt.
  now apply match_resource_uri_Some.
Qed.
End Coverage.

(* ================================================================= *)
(** * The further properties at concrete requests *)

Lemma query_parameters_unmodified_witness :
  let args := Val (VObject [(js "limit", VNumber (num "5")); (js "page", VNumber (num "2"))]) in
  snd (run (answering VNull []) (CallTool (js "group_list") args))
  = [GetJson (BASE_URL ++ js "/action/" ++ js "group_list") args].
Proof.
  intros args.
  apply (@query_parameters_unmodified jsnumber jsnumber_ops (answering VNull [])
           (js "group_list") args).
  - simpl. tauto.
  - discriminate.
Defined.

Lemma package_show_sends_id_only_witness :
  let args := Val (VObject [(js "id", VString (js "x")); (js "rows", VNumber (num "5"))]) in
  exists id,
    Get args (js "id") = Val (VString id)
    /\ snd (run (answering VNull []) (CallTool (js "package_show") args))
       = [GetJson (BASE_URL ++ js "/action/package_show")
            (Val (VObject [(js "id", VString id)]))].
Proof.
  intros args.
  apply (@package_show_sends_id_only jsnumber jsnumber_ops (answering VNull []) args).
  discriminate.
Defined.

Lemma validation_reads_schema_fields_only_witness :
  let tool :=
    {| name := js "package_show";
       description := js "Get details for a specific package (dataset)";
       inputSchema :=
         {| schema_type := js "object";
            properties :=
              [ (js "id", property "string" (js "Package ID or name")) ];
            required := Some [js "id"] |} |} in
  let refused members :=
    run (answering VNull [])
        (CallTool (name tool) (@Val jsnumber (VObject members)))
    = (Raised (McpError InvalidParams (js "Invalid " ++ name tool ++ js " arguments")),
       []) in
  refused [(js "id", VNumber (num "7"))]
  <-> refused [(js "verbose", VBool true); (js "id", VNumber (num "7"))].
Proof.
  intros tool refused.
  apply (@validation_reads_schema_fields_only jsnumber jsnumber_ops (answering VNull []) tool
           [(js "id", VNumber (num "7"))]
           [(js "verbose", VBool true); (js "id", VNumber (num "7"))]).
  - simpl. tauto.
  - intros k p [H|[]]. injection H as <- <-. reflexivity.
Defined.

Lemma conformant_bag_accepted_witness :
  exists params,
    snd (run (answering VNull [])
             (CallTool (js "package_show")
                (Val (VObject [(js "id", VString (js "x"))]))))
    = [GetJson (BASE_URL ++ js "/action/" ++ js "package_show") params].
Proof.
  apply (@conformant_bag_accepted jsnumber jsnumber_ops (answering VNull [])
           {| name := js "package_show";
              description := js "Get details for a specific package (dataset)";
              inputSchema :=
                {| schema_type := js "object";
                   properties :=
                     [ (js "id", property "string" (js "Package ID or name")) ];
                   required := Some [js "id"] |} |}
           [(js "id", VString (js "x"))]).
  - simpl. tauto.
  - intros k p v [H|[]]. injection H as <- <-.
    intros Hv. injection Hv as <-. reflexivity.
  - intros rs r H. injection H as <-. intros [<-|[]]. discriminate.
Defined.

Lemma no_response_summary_witness :
  fst (run (failing (AxiosFailure {| message := js "connect ECONNREFUSED";
                                     response := None; request := true |}))
           (packageSearch (Val (VObject []))))
  = Returned
      {| content :=
           [{| type := js "text";
               text := js "Data.gov API error: " ++ js "connect ECONNREFUSED"
                       ++ [10] ++ js "No response received from the server." |}];
         isError := Some true |}.
Proof.
  apply (@no_response_summary jsnumber jsnumber_ops
           (failing (AxiosFailure {| message := js "connect ECONNREFUSED";
                                     response := None; request := true |}))
           packageSearch (Val (VObject [])) (js "connect ECONNREFUSED") true).
  - simpl. tauto.
  - reflexivity.
Defined.

Lemma unexpected_error_summary_witness :
  fst (run (failing (OtherFailure (js "TypeError: fetch failed")))
           (tagList (Val (VObject []))))
  = Returned
      {| content :=
           [{| type := js "text";
               text := js "An unexpected error occurred: "
                       ++ js "TypeError: fetch failed" |}];
         isError := Some true |}.
Proof.
  apply (@unexpected_error_summary jsnumber jsnumber_ops
           (failing (OtherFailure (js "TypeError: fetch failed")))
           tagList (Val (VObject [])) (js "TypeError: fetch failed")).
  - simpl. tauto.
  - reflexivity.
Defined.

Lemma text_body_summary_witness :
  fst (run (failing
              (AxiosFailure
                 {| message := js "Request failed with status code 502";
                    response := Some {| status := 502; headers := [];
                                        data := VString (js "<html>Bad Gateway</html>") |};
                    request := true |}))
           (groupList (Val (VObject []))))
  = Returned
      {| content :=
           [{| type := js "text";
               text := js "Data.gov API error: "
                       ++ js "Request failed with status code 502"
                       ++ [10] ++ js "Status: " ++ decimal 502
                       ++ [10] ++ js "Data: " ++ js "<html>Bad Gateway</html>" |}];
         isError := Some true |}.
Proof.
  apply (@text_body_summary jsnumber jsnumber_ops _ groupList (Val (VObject []))
           (js "Request failed with status code 502") 502 []
           (js "<html>Bad Gateway</html>") true).
  - simpl. tauto.
  - discriminate.
  - reflexivity.
Defined.

Lemma error_message_summary_witness :
  fst (run (failing
              (AxiosFailure
                 {| message := js "Request failed with status code 404";
                    response :=
                      Some {| status := 404; headers := [];
                              data := VObject
                                        [(js "success", VBool false);
                                         (js "error",
                                          VObject [(js "message",
                                                    VString (js "Not found"))])] |};
                    request := true |}))
           (packageShow (Val (VObject [(js "id", VString (js "x"))]))))
  = Returned
      {| content :=
           [{| type := js "text";
               text := js "Data.gov API error: "
                       ++ js "Request failed with status code 404"
                       ++ [10] ++ js "Status: " ++ decimal 404
                       ++ [10] ++ js "Message: " ++ js "Not found" |}];
         isError := Some true |}.
Proof.
  apply (@error_message_summary jsnumber jsnumber_ops _ packageShow
           (Val (VObject [(js "id", VString (js "x"))]))
           (js "Request failed with status code 404") 404 []
           (VObject [(js "success", VBool false);
                     (js "error", VObject [(js "message", VString (js "Not found"))])])
           true (js "Not found")).
  - simpl. tauto.
  - reflexivity.
  - reflexivity.
  - reflexivity.
Defined.

Lemma error_value_summary_witness :
  fst (run (failing
              (AxiosFailure
                 {| message := js "Request failed with status code 400";
                    response :=
                      Some {| status := 400; headers := [];
                              data := VObject [(js "error", VString (js "Bad request"))] |};
                    request := true |}))
           (packageSearch (Val (VObject []))))
  = Returned
      {| content :=
           [{| type := js "text";
               text := js "Data.gov API error: "
                       ++ js "Request failed with status code 400"
                       ++ [10] ++ js "Status: " ++ decimal 400
                       ++ [10] ++ js "Message: " ++ js "Bad request" |}];
         isError := Some true |}.
Proof.
  apply (@error_value_summary jsnumber jsnumber_ops _ packageSearch (Val (VObject []))
           (js "Request failed with status code 400") 400 []
           (VObject [(js "error", VString (js "Bad request"))]) true
           (js "Bad request")).
  - simpl. tauto.
  - reflexivity.
  - reflexivity.
  - reflexivity.
  - reflexivity.
Defined.

Lemma no_detail_summary_witness :
  fst (run (failing
              (AxiosFailure
                 {| message := js "Request failed with status code 500";
                    response :=
                      Some {| status := 500; headers := [];
                              data := VObject [(js "success", VBool false)] |};
                    request := true |}))
           (tagList (Val (VObject []))))
  = Returned
      {| content :=
           [{| type := js "text";
               text := js "Data.gov API error: "
                       ++ js "Request failed with status code 500"
                       ++ [10] ++ js "Status: " ++ decimal 500 |}];
         isError := Some true |}.
Proof.
  apply (@no_detail_summary jsnumber jsnumber_ops _ tagList (Val (VObject []))
           (js "Request failed with status code 500") 500 []
           (VObject [(js "success", VBool false)]) true).
  - simpl. tauto.
  - right. split; [reflexivity|discriminate].
  - reflexivity.
Defined.

Lemma malformed_escape_uri_error_witness :
  run (answering VNull [])
      (ReadResource (js "datagov://resource/"
                     ++ js "https%3A%2F%2Fexample.com%2Ffile" ++ 37 :: js "zz"))
  = (Raised URIError, []).
Proof.
  apply (@malformed_escape_uri_error jsnumber jsnumber_ops (answering VNull [])
           (js "https%3A%2F%2Fexample.com%2Ffile") (js "zz")).
  - reflexivity.
  - reflexivity.
Defined.

Lemma unescaped_url_fetched_verbatim_witness :
  snd (run (answering VNull [])
           (ReadResource (js "datagov://resource/" ++ js "https://example.com/a.csv")))
  = [GetBuffer (js "https://example.com/a.csv")].
Proof.
  apply (@unescaped_url_fetched_verbatim jsnumber jsnumber_ops (answering VNull [])
           (js "https://example.com/a.csv")).
  - discriminate.
  - reflexivity.
  - reflexivity.
Defined.

Lemma empty_or_multiline_group_rejected_witness :
  run (answering VNull [])
      (ReadResource (js "datagov://resource/" ++ js "a" ++ 10 :: js "b"))
  = (Raised (McpError InvalidRequest
               (js "Invalid URI format: " ++ js "datagov://resource/"
                ++ js "a" ++ 10 :: js "b")), []).
Proof.
  apply (@empty_or_multiline_group_rejected jsnumber jsnumber_ops (answering VNull [])
           (js "a" ++ 10 :: js "b")).
  right. reflexivity.
Defined.

Lemma missing_content_type_witness :
  fst (run (headerless [x61; x2c; x62; x0a]%byte)
           (ReadResource (js "datagov://resource/https%3A%2F%2Fexample.com%2Ffile.csv")))
  = Returned
      {| contents :=
           [{| uri := js "datagov://resource/https%3A%2F%2Fexample.com%2Ffile.csv";
               resource_text :=
                 js "data:undefined;base64,"
                 ++ base64_encode [x61; x2c; x62; x0a]%byte |}] |}.
Proof.
  apply (@missing_content_type jsnumber jsnumber_ops (headerless [x61; x2c; x62; x0a]%byte)
           (js "datagov://resource/https%3A%2F%2Fexample.com%2Ffile.csv")
           (js "https%3A%2F%2Fexample.com%2Ffile.csv")
           (js "https://example.com/file.csv")
           {| status := 200; headers := []; data := [x61; x2c; x62; x0a]%byte |}).
  - reflexivity.
  - reflexivity.
  - reflexivity.
  - reflexivity.
Defined.

Lemma resource_read_returns_on_fulfilled_witness :
  let request_uri := js "datagov://resource/https%3A%2F%2Fexample.com%2Ffile.csv" in
  exists group1 url response payload,
    match_resource_uri request_uri = Some group1
    /\ decodeURIComponent group1 = Some url
    /\ get_buffer (answering (@VNull jsnumber) [x61]%byte) url = Fulfilled response
    /\ contents {| contents := [{| uri := request_uri;
                                   resource_text := js "data:text/csv;base64,YQ==" |}] |}
       = [{| uri := request_uri; resource_text := payload |}].
Proof.
  intros request_uri.
  apply (@resource_read_returns_on_fulfilled jsnumber jsnumber_ops
           (answering VNull [x61]%byte) request_uri
           {| contents := [{| uri := request_uri;
                              resource_text := js "data:text/csv;base64,YQ==" |}] |}).
  reflexivity.
Defined.
